(** * Flight-Search-Engine: offer normalisation and the derived-view store

    A shallow embedding of [src/lib/flightTransformers.ts],
    [src/lib/constants.ts] and [src/store/flightStore.ts], with the types of
    [@/types/flight].

    Modelling conventions.
    - A JavaScript string is a [string]; the characters that matter to the
      code (digits, the letters of the duration formats, white space) are all
      single code units below 256.
    - A finite JavaScript number is a rational [Q]: comparison, [Math.min],
      [Math.max], [Math.floor] and [Math.ceil] are exact on doubles, and the
      sign of a rounded difference is the sign of the exact difference.
      Integer-valued numbers (stop counts, minutes) are [Z] or [N], exact
      as doubles are below 2^53; [NaN] is [None] where the code can produce
      it.
    - A JavaScript object used as a dictionary ([Record<string, string>]) is
      a [gmap string string]; an absent key reads as [undefined] = [None].
    - A [throw] is the [Throw] outcome of the [result] type.
    - The functions imported from [date-fns], [parseFloat] and
      [String.prototype.localeCompare] are parameters of the development. *)

From Stdlib Require Import ZArith QArith Qround Qminmax Ascii String List Lia.
From stdpp Require Import base option list sorting strings pretty gmap.

Local Open Scope Z_scope.

(** ** JavaScript run-time outcomes *)

Inductive JsError : Type :=
| TypeError
| RangeError.

(** [error.name] of a thrown built-in error. *)
Definition error_name (e : JsError) : string :=
  match e with
  | TypeError => "TypeError"
  | RangeError => "RangeError"
  end.

Inductive result (A : Type) : Type :=
| Ok (a : A)
| Throw (e : JsError).
Arguments Ok {A} a.
Arguments Throw {A} e.

(** Sequencing of computations that may throw; [x ← r; k] is stdpp's
    notation for it. *)
Global Instance result_bind : MBind result := fun A B f r =>
  match r with
  | Ok a => f a
  | Throw e => Throw e
  end.

(** Reading a property of [undefined] throws a [TypeError]. *)
Definition prop_of {A : Type} (o : option A) : result A :=
  match o with
  | Some a => Ok a
  | None => Throw TypeError
  end.

(** [Array.prototype.map] with a callback that may throw: the first throw
    aborts the whole call. *)
Fixpoint map_result {A B : Type} (f : A -> result B) (l : list A)
  : result (list B) :=
  match l with
  | [] => Ok []
  | x :: l' => y ← f x; ys ← map_result f l'; Ok (y :: ys)
  end.

(** Truthiness of a string: only the empty string is falsy. *)
Definition truthy_str (s : string) : bool :=
  match s with
  | EmptyString => false
  | String _ _ => true
  end.

(** Truthiness of a string or [undefined]. *)
Definition truthy_opt (a : option string) : bool :=
  match a with
  | Some s => truthy_str s
  | None => false
  end.

(** [a || b] where [a] and [b] are strings or [undefined]. *)
Definition or_else (a : option string) (b : option string) : option string :=
  if truthy_opt a then a else b.

(** Truthiness of a number: [0] and [NaN] are falsy. *)
Definition truthy_num (n : option N) : bool :=
  match n with
  | Some n => negb (N.eqb n 0)
  | None => false
  end.

(** ** Regular expressions

    The two regular-expression literals of the source use literals,
    concatenation, greedy [?], greedy [+] and [*] on a character class, and
    capturing groups.  The matcher is the backtracking matcher of ECMAScript
    in continuation-passing style: a greedy operator first tries to consume,
    and gives back what it consumed when the continuation fails. *)

Inductive cclass : Type :=
| Digit   (* \d *)
| Space.  (* \s *)

Definition in_class (c : cclass) (a : ascii) : bool :=
  let n := N_of_ascii a in
  match c with
  | Digit => ((48 <=? n) && (n <=? 57))%N
  | Space => ((9 <=? n) && (n <=? 13) || (n =? 32) || (n =? 160))%N
  end.

Inductive regex : Type :=
| Lit (c : ascii)
| Seq (r1 r2 : regex)
| Opt (r : regex)
| Plus (c : cclass)
| Star (c : cclass)
| Group (i : nat) (r : regex).

Abbreviation captures := (gmap nat string) (only parsing).

Fixpoint cls_star {R : Type} (c : cclass) (s : string)
  (k : string -> option R) : option R :=
  match s with
  | String a s' =>
      if in_class c a then
        match cls_star c s' k with
        | Some r => Some r
        | None => k s
        end
      else k s
  | EmptyString => k s
  end.

Definition cls_plus {R : Type} (c : cclass) (s : string)
  (k : string -> option R) : option R :=
  match s with
  | String a s' => if in_class c a then cls_star c s' k else None
  | EmptyString => None
  end.

(** The text consumed between the input [s] and its suffix [s']. *)
Definition consumed (s s' : string) : string :=
  substring 0 (String.length s - String.length s') s.

Fixpoint rmatch {R : Type} (r : regex) (s : string) (caps : captures)
  (k : string -> captures -> option R) : option R :=
  match r with
  | Lit c =>
      match s with
      | String a s' => if Ascii.eqb a c then k s' caps else None
      | EmptyString => None
      end
  | Seq r1 r2 => rmatch r1 s caps (fun s' caps' => rmatch r2 s' caps' k)
  | Opt r1 =>
      match rmatch r1 s caps k with
      | Some x => Some x
      | None => k s caps
      end
  | Plus c => cls_plus c s (fun s' => k s' caps)
  | Star c => cls_star c s (fun s' => k s' caps)
  | Group i r1 =>
      rmatch r1 s caps (fun s' caps' => k s' (<[i := consumed s s']> caps'))
  end.

(** [str.match(re)] for a regular expression without the [g] flag: the
    leftmost start position at which the expression matches; the result is
    the table of capture groups, [None] for [null]. *)
Fixpoint str_match (r : regex) (s : string) : option captures :=
  match rmatch r s ∅ (fun _ caps => Some caps) with
  | Some caps => Some caps
  | None =>
      match s with
      | String _ s' => str_match r s'
      | EmptyString => None
      end
  end.

(** [parseInt] on a string without sign or leading white space (the capture
    groups are runs of digits): the value of the leading digits, [None]
    ([NaN]) when there is none.  [parseInt(undefined)] is [NaN].  The
    result of the code is a double: it is this value as long as the value is
    below [2 ^ 53], and so are the sums, products and decimal digits that the
    code computes from it. *)
Fixpoint parseInt_go (acc : N) (s : string) : N :=
  match s with
  | String a s' =>
      if in_class Digit a
      then parseInt_go (acc * 10 + (N_of_ascii a - 48))%N s'
      else acc
  | EmptyString => acc
  end.

Definition parseInt (s : option string) : option N :=
  match s with
  | Some (String a _ as str) =>
      if in_class Digit a then Some (parseInt_go 0 str) else None
  | _ => None
  end.

(** A string of digits only. *)
Fixpoint digit_run (s : string) : bool :=
  match s with
  | String a s' => in_class Digit a && digit_run s'
  | EmptyString => true
  end.

(** A string that is empty or starts with a character outside the class. *)
Definition stops_class (c : cclass) (s : string) : bool :=
  match s with
  | String a _ => negb (in_class c a)
  | EmptyString => true
  end.

(** A string in which the character [c] does not occur. *)
Fixpoint lacks (c : ascii) (s : string) : bool :=
  match s with
  | String a s' => negb (Ascii.eqb a c) && lacks c s'
  | EmptyString => true
  end.

(** ** lib/flightTransformers.ts: durations *)

(** [/PT(?:(\d+)H)?(?:(\d+)M)?/] *)
Definition re_iso_duration : regex :=
  Seq (Lit "P") (Seq (Lit "T")
    (Seq (Opt (Seq (Group 1 (Plus Digit)) (Lit "H")))
         (Opt (Seq (Group 2 (Plus Digit)) (Lit "M"))))).

Definition parseDuration (duration : string) : string :=
  match str_match re_iso_duration duration with
  | None => duration
  | Some m =>
      let hours := if truthy_opt (m !! 1%nat) then parseInt (m !! 1%nat) else Some 0%N in
      let minutes := if truthy_opt (m !! 2%nat) then parseInt (m !! 2%nat) else Some 0%N in
      if truthy_num hours && truthy_num minutes then
        pretty (default 0%N hours) +:+ "h " +:+ pretty (default 0%N minutes) +:+ "m"
      else if truthy_num hours then
        pretty (default 0%N hours) +:+ "h"
      else if truthy_num minutes then
        pretty (default 0%N minutes) +:+ "m"
      else duration
  end.

(** [/(\d+)h\s*(\d+)?m?/] *)
Definition re_duration_label : regex :=
  Seq (Group 1 (Plus Digit)) (Seq (Lit "h")
    (Seq (Star Space) (Seq (Opt (Group 2 (Plus Digit))) (Opt (Lit "m"))))).

(** [x || 0] on a number. *)
Definition num_or_0 (x : option N) : N :=
  if truthy_num x then default 0%N x else 0%N.

Definition parseDurationToMinutes (duration : string) : N :=
  match str_match re_duration_label duration with
  | None => 0%N
  | Some m =>
      let hours := num_or_0 (parseInt (m !! 1%nat)) in
      let minutes := num_or_0 (parseInt (m !! 2%nat)) in
      (hours * 60 + minutes)%N
  end.

(** ** types/flight.ts

    Each interface is a record in a module of its name, so that the fields
    keep the names of the source ([at] is a keyword and becomes [at_]).  Of
    [FlightOffer] and of the provider response, the fields the transformers
    read are kept. *)

Module Endpoint.
Record t : Type := mk
  { iataCode : string; terminal : option string; at_ : string }.
End Endpoint.

Module FlightSegment.
Record t : Type := mk
  { id : string;
    departure : Endpoint.t;
    arrival : Endpoint.t;
    carrierCode : string;
    carrierName : string;
    number : string;
    aircraft : string;  (* [aircraft.code] *)
    duration : string;
    numberOfStops : Z }.
End FlightSegment.

Module FlightItinerary.
Record t : Type := mk
  { segments : list FlightSegment.t; duration : string }.
End FlightItinerary.

Module Price.
Record t : Type := mk { currency : string; grandTotal : string }.
End Price.

Module FlightOffer.
Record t : Type := mk
  { id : string;
    itineraries : list FlightItinerary.t;
    price : Price.t;
    validatingAirlineCodes : list string }.
End FlightOffer.

Module PriceRange.
Record t : Type := mk { min : Q; max : Q }.
End PriceRange.

Inductive SortBy : Type :=
| by_price
| by_duration
| by_departure
| by_arrival.

Module FlightFilters.
Record t : Type := mk
  { priceRange : PriceRange.t;
    stops : list Z;
    airlines : list string;
    sortBy : SortBy }.
End FlightFilters.

Module FlightCardData.
Record t : Type := mk
  { id : string;
    airline : string;
    airlineLogo : string;
    departureTime : string;
    arrivalTime : string;
    departureAirport : string;
    arrivalAirport : string;
    duration : string;
    stops : Z;
    price : Q;
    currency : string;
    segments : list FlightSegment.t;
    layovers : list string }.
End FlightCardData.

Module PriceDataPoint.
Record t : Type := mk
  { time : string;
    price : Q;
    flightId : string;
    stops : Z;
    airline : string }.
End PriceDataPoint.

Module AmadeusFlightOffersResponse.
Record t : Type := mk
  { data : list FlightOffer.t;
    (* [dictionaries?.carriers] *)
    carriers : option (gmap string string) }.
End AmadeusFlightOffersResponse.

(** ** lib/constants.ts *)

Definition AIRLINE_NAMES : gmap string string :=
  list_to_map
    [ ("AA", "American Airlines"); ("DL", "Delta Air Lines");
      ("UA", "United Airlines"); ("BA", "British Airways");
      ("LH", "Lufthansa"); ("AF", "Air France"); ("KL", "KLM");
      ("EK", "Emirates"); ("QR", "Qatar Airways");
      ("SQ", "Singapore Airlines"); ("CX", "Cathay Pacific");
      ("QF", "Qantas"); ("AC", "Air Canada"); ("NH", "ANA");
      ("JL", "Japan Airlines"); ("TK", "Turkish Airlines");
      ("EY", "Etihad Airways"); ("SV", "Saudi Arabian Airlines");
      ("WN", "Southwest Airlines"); ("B6", "JetBlue");
      ("AS", "Alaska Airlines"); ("F9", "Frontier Airlines");
      ("NK", "Spirit Airlines") ].

Definition AIRLINE_LOGO_URL (carrierCode : string) : string :=
  "https://images.kiwi.com/airlines/64/" +:+ carrierCode +:+ ".png".

(** ** lib/flightTransformers.ts: pure helpers *)

Definition calculateStops (segments : list FlightSegment.t) : Z :=
  Z.max 0 (Z.of_nat (length segments) - 1).

(** The names of the properties that every object inherits from
    [Object.prototype].  [obj[key]] finds them when [obj] has no own
    property [key]; their values are functions (an object for [__proto__]),
    not strings, and they are truthy. *)
Definition Object_prototype_names : list string :=
  [ "constructor"; "__defineGetter__"; "__defineSetter__"; "hasOwnProperty";
    "__lookupGetter__"; "__lookupSetter__"; "isPrototypeOf";
    "propertyIsEnumerable"; "toString"; "valueOf"; "__proto__";
    "toLocaleString" ].

(** Whether [key] names an inherited property. *)
Definition inherited (key : string) : bool :=
  existsb (String.eqb key) Object_prototype_names.

(** [dictionaries?.[carrierCode]], the own property of the dictionary.  The
    maps hold the own properties of the objects; for a code with
    [inherited carrierCode = true] and no own property the code reads the
    inherited value instead, which no string renders: the lookups of
    [dictEntry] and of [AIRLINE_NAMES] are those of the code for every
    other carrier code. *)
Definition dictEntry (carrierCode : string)
  (dictionaries : option (gmap string string)) : option string :=
  d ← dictionaries; d !! carrierCode.

(** [dictionaries?.[carrierCode] || AIRLINE_NAMES[carrierCode] || carrierCode] *)
Definition getAirlineName (carrierCode : string)
  (dictionaries : option (gmap string string)) : string :=
  default carrierCode
    (or_else (or_else (dictEntry carrierCode dictionaries)
                (AIRLINE_NAMES !! carrierCode))
       (Some carrierCode)).

(** The text of one layover, from [differenceInMinutes(...)]; [None] is the
    [NaN] that an invalid date gives.  [Math.floor(x / 60)] is [Z.div], the
    remainder [x % 60] has the sign of [x] and is [Z.rem]. *)
Definition layoverText (layoverMinutes : option Z) : string :=
  match layoverMinutes with
  | None => "NaNm"
  | Some layoverMinutes =>
      let layoverHours := layoverMinutes / 60 in
      let layoverMins := Z.rem layoverMinutes 60 in
      if 0 <? layoverHours
      then pretty layoverHours +:+ "h " +:+ pretty layoverMins +:+ "m"
      else pretty layoverMins +:+ "m"
  end.

(** ** A reference instance of the imported functions

    [date-fns], [parseFloat] and [localeCompare] are not part of the
    repository; the development is parametric in them.  This instance is
    used to run the model on concrete offers: a date is its number of
    milliseconds since the epoch ([None] for an invalid date), time stamps
    have the form [YYYY-MM-DDTHH:MM:SS] and are read in UTC. *)

Module Ref.

Definition Date : Type := option Z.

Definition days_from_civil (y m d : Z) : Z :=
  let y' := if m <=? 2 then y - 1 else y in
  let era := y' / 400 in
  let yoe := y' - era * 400 in
  let doy := (153 * (m + (if 2 <? m then -3 else 9)) + 2) / 5 + d - 1 in
  let doe := yoe * 365 + yoe / 4 - yoe / 100 + doy in
  era * 146097 + doe - 719468.

Definition all_digits (s : string) : bool :=
  forallb (in_class Digit) (list_ascii_of_string s).

(** The number written at [s[i .. i+n)], when these are [n] digits. *)
Definition field (s : string) (i n : nat) : option Z :=
  let f := substring i n s in
  if (String.length f =? n)%nat && all_digits f
  then Some (Z.of_N (parseInt_go 0 f))
  else None.

Definition sep (s : string) (i : nat) (c : ascii) : bool :=
  match get i s with
  | Some a => Ascii.eqb a c
  | None => false
  end.

Definition parseISO (s : string) : Date :=
  y ← field s 0 4; mo ← field s 5 2; d ← field s 8 2;
  h ← field s 11 2; mi ← field s 14 2; se ← field s 17 2;
  if (String.length s =? 19)%nat
     && sep s 4 "-" && sep s 7 "-" && sep s 10 "T"
     && sep s 13 ":" && sep s 16 ":"
     && (1 <=? mo) && (mo <=? 12) && (1 <=? d) && (d <=? 31)
     && (h <=? 23) && (mi <=? 59) && (se <=? 59)
  then Some ((((days_from_civil y mo d * 24 + h) * 60 + mi) * 60 + se) * 1000)
  else None.

Definition two_digits (n : Z) : string :=
  if n <? 10 then "0" +:+ pretty n else pretty n.

(** [format(date, "HH:mm")]; an invalid date makes [format] throw a
    [RangeError].  Other patterns are not rendered by this instance. *)
Definition format (d : Date) (pattern : string) : result string :=
  match d with
  | None => Throw RangeError
  | Some ms =>
      let minutes := ms / 60000 in
      if String.eqb pattern "HH:mm"
      then Ok (two_digits ((minutes / 60) mod 24) +:+ ":"
               +:+ two_digits (minutes mod 60))
      else Ok pattern
  end.

(** The difference in milliseconds over 60000, truncated towards zero. *)
Definition differenceInMinutes (dateLeft dateRight : Date) : option Z :=
  l ← dateLeft; r ← dateRight; Some (Z.quot (l - r) 60000).

(** Digits with an optional fraction. *)
Definition parseFloat (s : string) : Q :=
  match index 0 "." s with
  | Some i =>
      let whole := substring 0 i s in
      let frac := substring (S i) (String.length s - S i) s in
      (inject_Z (Z.of_N (parseInt_go 0 whole))
       + inject_Z (Z.of_N (parseInt_go 0 frac))
         / inject_Z (10 ^ Z.of_nat (String.length frac)))%Q
  | None => inject_Z (Z.of_N (parseInt_go 0 s))
  end.

(** Comparison by code units. *)
Definition localeCompare (a b : string) : Z :=
  match String.compare a b with
  | Lt => -1
  | Eq => 0
  | Gt => 1
  end.

End Ref.

(** ** lib/flightTransformers.ts *)

(** [Array.prototype.sort(compareFn)]: the sort is stable, and a stable sort
    by a consistent comparator has one result; it is computed here by stable
    insertion.  [x] goes before the first [y] with [compareFn(x, y) <= 0]. *)
Fixpoint sort_insert {A : Type} (compareFn : A -> A -> Q) (x : A)
  (l : list A) : list A :=
  match l with
  | [] => [x]
  | y :: l' =>
      if Qle_bool (compareFn x y) 0 then x :: l
      else y :: sort_insert compareFn x l'
  end.

Definition array_sort {A : Type} (compareFn : A -> A -> Q) (l : list A)
  : list A :=
  foldr (sort_insert compareFn) [] l.

(** The comparator of [sort()] without argument on strings: code units. *)
Definition default_compare (a b : string) : Q :=
  match String.compare a b with
  | Lt => (-1)%Q
  | Eq => 0%Q
  | Gt => 1%Q
  end.

(** [Array.from(new Set(l))]: the distinct elements in the order of their
    first occurrence. *)
Fixpoint set_from (seen : list string) (l : list string) : list string :=
  match l with
  | [] => []
  | x :: l' =>
      if existsb (String.eqb x) seen then set_from seen l'
      else x :: set_from (x :: seen) l'
  end.

(** [Math.min(...l)] and [Math.max(...l)] of a non-empty argument list. *)
Definition Math_min (x : Q) (l : list Q) : Q := fold_left Qmin l x.
Definition Math_max (x : Q) (l : list Q) : Q := fold_left Qmax l x.

Definition Qlt_bool (x y : Q) : bool := negb (Qle_bool y x).

Definition generatePriceChartData (flights : list FlightCardData.t)
  : list PriceDataPoint.t :=
  map (fun flight =>
         {| PriceDataPoint.time := FlightCardData.departureTime flight;
            PriceDataPoint.price := FlightCardData.price flight;
            PriceDataPoint.flightId := FlightCardData.id flight;
            PriceDataPoint.stops := FlightCardData.stops flight;
            PriceDataPoint.airline := FlightCardData.airline flight |})
      flights.

Definition extractUniqueAirlines (flights : list FlightCardData.t)
  : list string :=
  let airlines := set_from [] (map FlightCardData.airline flights) in
  array_sort default_compare airlines.

Definition extractPriceRange (flights : list FlightCardData.t)
  : PriceRange.t :=
  match map FlightCardData.price flights with
  | [] => {| PriceRange.min := 0; PriceRange.max := 1000 |}
  | p :: prices =>
      {| PriceRange.min := inject_Z (Qfloor (Math_min p prices));
         PriceRange.max := inject_Z (Qceiling (Math_max p prices)) |}
  end.

(** The callback of [filters.stops.some(...)]. *)
Definition matchesBucket (flightStops : Z) (stopCount : Z) : bool :=
  if stopCount =? 2 then 2 <=? flightStops
  else flightStops =? stopCount.

(** The callback of [flights.filter(...)].  The criteria are the fields
    [priceRange], [stops] and [airlines] of the filters; [sortBy] is not
    read. *)
Definition passesFilters (filters : FlightFilters.t)
  (flight : FlightCardData.t) : bool :=
  let range := FlightFilters.priceRange filters in
  if Qlt_bool (FlightCardData.price flight) (PriceRange.min range)
     || Qlt_bool (PriceRange.max range) (FlightCardData.price flight)
  then false
  else if (0 <? length (FlightFilters.stops filters))%nat
          && negb (existsb (matchesBucket (FlightCardData.stops flight))
                     (FlightFilters.stops filters))
  then false
  else if (0 <? length (FlightFilters.airlines filters))%nat
          && negb (existsb (String.eqb (FlightCardData.airline flight))
                     (FlightFilters.airlines filters))
  then false
  else true.

Definition filterFlights (flights : list FlightCardData.t)
  (filters : FlightFilters.t) : list FlightCardData.t :=
  List.filter (passesFilters filters) flights.

Module PartialFilters.
(** [Partial<FlightFilters>]: [None] is a key that the object does not
    have (a key that is present with the value [undefined] is not
    modelled). *)
Record t : Type := mk
  { priceRange : option PriceRange.t;
    stops : option (list Z);
    airlines : option (list string);
    sortBy : option SortBy }.
End PartialFilters.

Module FlightState.
Record t : Type := mk
  { allFlights : list FlightCardData.t;
    isLoading : bool;
    error : option string;
    filters : FlightFilters.t;
    filteredFlights : list FlightCardData.t;
    chartData : list PriceDataPoint.t;
    availableAirlines : list string;
    absolutePriceRange : PriceRange.t }.
End FlightState.

(** Arrays as mutable objects: a store of arrays by reference, for the
    functions that copy and sort in place. *)
Abbreviation loc := positive (only parsing).
Abbreviation heap := (gmap positive (list FlightCardData.t)) (only parsing).

(** A new array object holding [v]. *)
Definition alloc (v : list FlightCardData.t) (h : heap) : loc * heap :=
  let l := fresh (dom h) in (l, <[l := v]> h).

(** The elements of the array at [l] (no elements for a dangling reference,
    which the code never holds). *)
Definition deref (h : heap) (l : loc) : list FlightCardData.t :=
  default [] (h !! l).

Module RefState.
(** The store with its two flight arrays held by reference. *)
Record t : Type := mk
  { allFlights : loc;
    isLoading : bool;
    error : option string;
    filters : FlightFilters.t;
    filteredFlights : loc;
    chartData : list PriceDataPoint.t;
    availableAirlines : list string;
    absolutePriceRange : PriceRange.t }.
End RefState.

Inductive FilterAction : Type :=
| UpdateFilters (partialFilters : PartialFilters.t)
| ResetFilters.

(** ** Concrete offers

    A three-segment itinerary JFK - ORD - DEN - LAX with connections of 90
    and 45 minutes, variants of its last segment, and offers without
    itineraries or without segments. *)

Module Sample.

Definition endpoint (iataCode at_ : string) : Endpoint.t :=
  {| Endpoint.iataCode := iataCode; Endpoint.terminal := None;
     Endpoint.at_ := at_ |}.

Definition segment (carrierCode : string) (departure arrival : Endpoint.t)
  : FlightSegment.t :=
  {| FlightSegment.id := "1";
     FlightSegment.departure := departure;
     FlightSegment.arrival := arrival;
     FlightSegment.carrierCode := carrierCode;
     FlightSegment.carrierName := "";
     FlightSegment.number := "100";
     FlightSegment.aircraft := "320";
     FlightSegment.duration := "PT2H";
     FlightSegment.numberOfStops := 0 |}.

Definition jfk_ord : FlightSegment.t :=
  segment "AA" (endpoint "JFK" "2024-03-01T08:00:00")
               (endpoint "ORD" "2024-03-01T10:00:00").
Definition ord_den : FlightSegment.t :=
  segment "AA" (endpoint "ORD" "2024-03-01T11:30:00")
               (endpoint "DEN" "2024-03-01T13:00:00").
Definition den_lax : FlightSegment.t :=
  segment "UA" (endpoint "DEN" "2024-03-01T13:45:00")
               (endpoint "LAX" "2024-03-01T15:00:00").
(** Leaves DEN half an hour before the previous segment arrives. *)
Definition den_lax_early : FlightSegment.t :=
  segment "UA" (endpoint "DEN" "2024-03-01T12:30:00")
               (endpoint "LAX" "2024-03-01T15:00:00").
(** Leaves DEN at the minute the previous segment arrives. *)
Definition den_lax_tight : FlightSegment.t :=
  segment "UA" (endpoint "DEN" "2024-03-01T13:00:00")
               (endpoint "LAX" "2024-03-01T15:00:00").

Definition offer (id : string) (itineraries : list FlightItinerary.t)
  : FlightOffer.t :=
  {| FlightOffer.id := id;
     FlightOffer.itineraries := itineraries;
     FlightOffer.price :=
       {| Price.currency := "USD"; Price.grandTotal := "345.50" |};
     FlightOffer.validatingAirlineCodes := ["AA"] |}.

Definition two_stops : FlightOffer.t :=
  offer "1" [ {| FlightItinerary.segments := [jfk_ord; ord_den; den_lax];
                 FlightItinerary.duration := "PT7H" |} ].
Definition direct : FlightOffer.t :=
  offer "2" [ {| FlightItinerary.segments := [jfk_ord];
                 FlightItinerary.duration := "PT2H" |} ].
Definition no_itineraries : FlightOffer.t := offer "3" [].
Definition no_segments : FlightOffer.t :=
  offer "4" [ {| FlightItinerary.segments := [];
                 FlightItinerary.duration := "PT0M" |} ].

Definition batch (data : list FlightOffer.t)
  : AmadeusFlightOffersResponse.t :=
  {| AmadeusFlightOffersResponse.data := data;
     AmadeusFlightOffersResponse.carriers := None |}.

Definition card (id airline duration : string) (stops : Z) (price : Q)
  : FlightCardData.t :=
  {| FlightCardData.id := id;
     FlightCardData.airline := airline;
     FlightCardData.airlineLogo := "";
     FlightCardData.departureTime := "08:00";
     FlightCardData.arrivalTime := "15:00";
     FlightCardData.departureAirport := "JFK";
     FlightCardData.arrivalAirport := "LAX";
     FlightCardData.duration := duration;
     FlightCardData.stops := stops;
     FlightCardData.price := price;
     FlightCardData.currency := "USD";
     FlightCardData.segments := [];
     FlightCardData.layovers := [] |}.

Definition cheap : FlightCardData.t := card "a" "Delta Air Lines" "5h 10m" 1 (1995 # 10).
Definition mid : FlightCardData.t := card "b" "American Airlines" "45m" 0 (250 # 1).
Definition dear : FlightCardData.t := card "c" "KLM" "12h" 3 (9001 # 10).

End Sample.

(** A string in which [PT] occurs. *)
Fixpoint occurs_PT (s : string) : bool :=
  match s with
  | String a s' =>
      match s' with
      | String b _ => (Ascii.eqb a "P" && Ascii.eqb b "T") || occurs_PT s'
      | EmptyString => false
      end
  | EmptyString => false
  end.

(** ** lib/amadeus.ts: the client

    The module-level variables [cachedToken] and [tokenExpiryTime] are a
    state that is passed along; [Date.now()] and the replies of the two HTTP
    requests are inputs.  One call runs at a time.  An [Error] is its
    message. *)

Inductive outcome (A : Type) : Type :=
| Returns (a : A)
| Raises (message : string).
Arguments Returns {A} a.
Arguments Raises {A} message.

Module TokenCache.
Record t : Type := mk
  { cachedToken : option string;      (* [null] is [None] *)
    tokenExpiryTime : option Z }.
End TokenCache.

(** The reply to [POST /v1/security/oauth2/token]: the fields
    [access_token] and [expires_in] of the body, or a failure. *)
Inductive AuthReply : Type :=
| AuthGranted (access_token : string) (expires_in : Z)
| AuthRejected.

(** The reply to [GET /v2/shopping/flight-offers]: the body; an error of
    axios with [error.response?.status] and
    [error.response?.data?.errors?.[0]?.detail]; or another error. *)
Inductive SearchReply : Type :=
| SearchData (data : AmadeusFlightOffersResponse.t)
| SearchAxiosError (status : option Z) (detail : option string)
| SearchOtherError.

(** [API_CONFIG] *)
Definition TOKEN_EXPIRY_BUFFER : Z := 60.
Definition MAX_RESULTS : Z := 50.
Definition DEFAULT_CURRENCY : string := "USD".

(** [cachedToken && tokenExpiryTime && now < tokenExpiryTime] *)
Definition tokenValid (now : Z) (cache : TokenCache.t) : bool :=
  truthy_opt (TokenCache.cachedToken cache)
  && match TokenCache.tokenExpiryTime cache with
     | Some expiry => negb (expiry =? 0) && (now <? expiry)
     | None => false
     end.

Definition getAccessToken (now : Z) (reply : AuthReply)
  (cache : TokenCache.t) : outcome string * TokenCache.t :=
  if tokenValid now cache
  then (Returns (default "" (TokenCache.cachedToken cache)), cache)
  else
    match reply with
    | AuthGranted access_token expires_in =>
        (Returns access_token,
         {| TokenCache.cachedToken := Some access_token;
            TokenCache.tokenExpiryTime :=
              Some (now + (expires_in - TOKEN_EXPIRY_BUFFER) * 1000) |})
    | AuthRejected =>
        (Raises "Authentication failed. Please check your API credentials.",
         cache)
    end.

(** A JavaScript number that holds a whole number, or [NaN] ([None]). *)
Definition number_toString (n : option Z) : string :=
  match n with
  | Some z => pretty z
  | None => "NaN"
  end.

Definition truthy_number (n : option Z) : bool :=
  match n with
  | Some z => negb (z =? 0)
  | None => false
  end.

Module FlightSearchParams.
Record t : Type := mk
  { originLocationCode : string;
    destinationLocationCode : string;
    departureDate : string;
    returnDate : option string;
    adults : option Z;
    children : option (option Z);   (* absent, or a number *)
    infants : option (option Z);
    travelClass : option string;
    nonStop : option bool;
    currencyCode : option string;
    max : option (option Z) }.
End FlightSearchParams.

(** [URLSearchParams]: the pairs in the order in which they were added;
    [get] gives the first value of a name, [None] for [null]. *)
Fixpoint params_get (name : string) (params : list (string * string))
  : option string :=
  match params with
  | [] => None
  | (k, v) :: params' => if String.eqb k name then Some v else params_get name params'
  end.

(** [if (cond) queryParams.append(name, value)] *)
Definition append_if (cond : bool) (name value : string)
  (params : list (string * string)) : list (string * string) :=
  if cond then params ++ [(name, value)] else params.

(** The query parameters that [searchFlights] builds. *)
Definition buildQuery (params : FlightSearchParams.t)
  : list (string * string) :=
  let max := default None (FlightSearchParams.max params) in
  let queryParams :=
    [ ("originLocationCode", FlightSearchParams.originLocationCode params);
      ("destinationLocationCode",
       FlightSearchParams.destinationLocationCode params);
      ("departureDate", FlightSearchParams.departureDate params);
      ("adults", number_toString (FlightSearchParams.adults params));
      ("max", number_toString
                (if truthy_number max then max else Some MAX_RESULTS));
      ("currencyCode",
       default DEFAULT_CURRENCY
         (or_else (FlightSearchParams.currencyCode params)
            (Some DEFAULT_CURRENCY))) ] in
  let queryParams :=
    append_if (truthy_opt (FlightSearchParams.returnDate params))
      "returnDate" (default "" (FlightSearchParams.returnDate params))
      queryParams in
  let children := default None (FlightSearchParams.children params) in
  let queryParams :=
    append_if (truthy_number children) "children" (number_toString children)
      queryParams in
  let infants := default None (FlightSearchParams.infants params) in
  let queryParams :=
    append_if (truthy_number infants) "infants" (number_toString infants)
      queryParams in
  let queryParams :=
    append_if (truthy_opt (FlightSearchParams.travelClass params))
      "travelClass" (default "" (FlightSearchParams.travelClass params))
      queryParams in
  append_if (default false (FlightSearchParams.nonStop params))
    "nonStop" "true" queryParams.

(** [data?.errors?.[0]?.detail || fallback] *)
Definition detail_or (detail : option string) (fallback : string) : string :=
  default fallback (or_else detail (Some fallback)).

(** [searchFlights]: [get] answers the request, given the bearer token and
    the query parameters. *)
Definition searchFlights (params : FlightSearchParams.t) (now : Z)
  (auth : AuthReply)
  (get : string -> list (string * string) -> SearchReply)
  (cache : TokenCache.t)
  : outcome AmadeusFlightOffersResponse.t * TokenCache.t :=
  match getAccessToken now auth cache with
  | (Raises _, cache') =>
      (* not an error of axios *)
      (Raises "Network error. Please check your connection.", cache')
  | (Returns token, cache') =>
      match get token (buildQuery params) with
      | SearchData data => (Returns data, cache')
      | SearchAxiosError status detail =>
          if bool_decide (status = Some 401) then
            (Raises "Authentication expired. Please try again.",
             {| TokenCache.cachedToken := None;
                TokenCache.tokenExpiryTime := None |})
          else if bool_decide (status = Some 400) then
            (Raises (detail_or detail
                       "Invalid search parameters. Please check your inputs."),
             cache')
          else if bool_decide (status = Some 429) then
            (Raises "Rate limit exceeded. Please wait a moment and try again.",
             cache')
          else (Raises (detail_or detail "Failed to fetch flights."), cache')
      | SearchOtherError =>
          (Raises "Network error. Please check your connection.", cache')
      end
  end.

(** ** [parseInt(string)] without radix

    Leading white space is skipped, a sign is read, the prefix [0x] or [0X]
    selects base 16, and the longest run of digits of the base is the value;
    [NaN] when there is no digit. *)

Fixpoint trimStart (s : string) : string :=
  match s with
  | String a s' => if in_class Space a then trimStart s' else s
  | EmptyString => s
  end.

Definition hexDigit (a : ascii) : option N :=
  let n := N_of_ascii a in
  if ((48 <=? n) && (n <=? 57))%N then Some (n - 48)%N
  else if ((97 <=? n) && (n <=? 102))%N then Some (n - 87)%N
  else if ((65 <=? n) && (n <=? 70))%N then Some (n - 55)%N
  else None.

Fixpoint parseHex_go (acc : N) (s : string) : N :=
  match s with
  | String a s' =>
      match hexDigit a with
      | Some d => parseHex_go (acc * 16 + d)%N s'
      | None => acc
      end
  | EmptyString => acc
  end.

Definition parseMagnitude (s : string) : option N :=
  match s with
  | String a (String x s') =>
      if Ascii.eqb a "0" && (Ascii.eqb x "x" || Ascii.eqb x "X") then
        match s' with
        | String d _ =>
            match hexDigit d with
            | Some _ => Some (parseHex_go 0 s')
            | None => None
            end
        | EmptyString => None
        end
      else parseInt (Some s)
  | _ => parseInt (Some s)
  end.

Definition parseIntJS (s : string) : option Z :=
  match trimStart s with
  | String a s' =>
      if Ascii.eqb a "-" then (fun n => - Z.of_N n) <$> parseMagnitude s'
      else if Ascii.eqb a "+" then Z.of_N <$> parseMagnitude s'
      else Z.of_N <$> parseMagnitude (String a s')
  | EmptyString => None
  end.

(** ** app/api/flights/route.ts: the search parameters *)

(** [searchParams.get(name) || ""] *)
Definition get_or_empty (name : string) (query : list (string * string))
  : string :=
  default "" (or_else (params_get name query) (Some "")).

(** [searchParams.get(name) || undefined] *)
Definition get_truthy (name : string) (query : list (string * string))
  : option string :=
  if truthy_opt (params_get name query) then params_get name query else None.

(** [searchParams.get(name) ? parseInt(searchParams.get(name)!) : undefined] *)
Definition get_int (name : string) (query : list (string * string))
  : option (option Z) :=
  if truthy_opt (params_get name query)
  then Some (parseIntJS (default "" (params_get name query)))
  else None.

Definition routeParams (query : list (string * string))
  : FlightSearchParams.t :=
  {| FlightSearchParams.originLocationCode := get_or_empty "origin" query;
     FlightSearchParams.destinationLocationCode :=
       get_or_empty "destination" query;
     FlightSearchParams.departureDate := get_or_empty "departureDate" query;
     FlightSearchParams.returnDate := get_truthy "returnDate" query;
     FlightSearchParams.adults :=
       parseIntJS (default "1" (or_else (params_get "adults" query) (Some "1")));
     FlightSearchParams.children := get_int "children" query;
     FlightSearchParams.infants := get_int "infants" query;
     FlightSearchParams.travelClass := get_truthy "travelClass" query;
     FlightSearchParams.nonStop := None;
     FlightSearchParams.currencyCode := None;
     FlightSearchParams.max := Some (Some 50) |}.

(** The message of a validation failure, if any; the three checks in the
    order of the route. *)
Definition validateParams (params : FlightSearchParams.t) : option string :=
  if negb (truthy_str (FlightSearchParams.originLocationCode params))
     || negb (truthy_str (FlightSearchParams.destinationLocationCode params))
  then Some "Origin and destination are required"
  else if negb (truthy_str (FlightSearchParams.departureDate params))
  then Some "Departure date is required"
  else if String.eqb (FlightSearchParams.originLocationCode params)
            (FlightSearchParams.destinationLocationCode params)
  then Some "Origin and destination must be different"
  else None.

(** The message of an error that the route catches: a text of the
    repository, or the message that the runtime gives a built-in error. *)
Inductive Message : Type :=
| Text (s : string)
| RuntimeMessage (e : JsError).

(** The JSON bodies of the route: [{ error }], [{ success: false, error }]
    and [{ success: true, count, data }]. *)
Inductive RouteBody : Type :=
| BodyInvalid (error : string)
| BodyFailure (error : Message)
| BodySuccess (count : nat) (data : list FlightCardData.t).

Module HttpResponse.
Record t : Type := mk { status : Z; body : RouteBody }.
End HttpResponse.

(** ** The search form: [onSubmit] *)

Inductive TravelClass : Type :=
| ECONOMY
| PREMIUM_ECONOMY
| BUSINESS
| FIRST.

Definition travelClassName (c : TravelClass) : string :=
  match c with
  | ECONOMY => "ECONOMY"
  | PREMIUM_ECONOMY => "PREMIUM_ECONOMY"
  | BUSINESS => "BUSINESS"
  | FIRST => "FIRST"
  end.

Module SearchFormData.
(** The passenger counts are whole numbers. *)
Record t : Type := mk
  { origin : string;
    destination : string;
    departureDate : string;
    returnDate : option string;
    adults : Z;
    children : option Z;
    infants : option Z;
    travelClass : option TravelClass }.
End SearchFormData.

(** The pairs of the query string that [onSubmit] navigates to; [roundTrip]
    is [tripType === "roundTrip"]. *)
Definition onSubmit (roundTrip : bool) (data : SearchFormData.t)
  : list (string * string) :=
  let params :=
    [ ("origin", SearchFormData.origin data);
      ("destination", SearchFormData.destination data);
      ("departureDate", SearchFormData.departureDate data);
      ("adults", pretty (SearchFormData.adults data)) ] in
  let params :=
    append_if (roundTrip && truthy_opt (SearchFormData.returnDate data))
      "returnDate" (default "" (SearchFormData.returnDate data)) params in
  let params :=
    append_if (truthy_number (SearchFormData.children data)
               && (0 <? default 0 (SearchFormData.children data)))
      "children" (number_toString (SearchFormData.children data)) params in
  let params :=
    append_if (truthy_number (SearchFormData.infants data)
               && (0 <? default 0 (SearchFormData.infants data)))
      "infants" (number_toString (SearchFormData.infants data)) params in
  append_if
    (match SearchFormData.travelClass data with
     | Some ECONOMY | None => false
     | Some _ => true
     end)
    "travelClass"
    (from_option travelClassName "" (SearchFormData.travelClass data))
    params.


(** [searchSchema]: whether the schema of the form accepts the data.
    [Date_parse] is the time value of [new Date(text)], [None] for an
    invalid date; a comparison with an invalid date is false. *)
Definition searchSchema (Date_parse : string -> option Z)
  (data : SearchFormData.t) : bool :=
  let count_ok (n : option Z) :=
    match n with
    | Some n => (0 <=? n) && (n <=? 9)
    | None => true
    end in
  (3 <=? String.length (SearchFormData.origin data))%nat
  && (String.length (SearchFormData.origin data) <=? 3)%nat
  && (3 <=? String.length (SearchFormData.destination data))%nat
  && (String.length (SearchFormData.destination data) <=? 3)%nat
  && (1 <=? String.length (SearchFormData.departureDate data))%nat
  && (1 <=? SearchFormData.adults data)
  && (SearchFormData.adults data <=? 9)
  && count_ok (SearchFormData.children data)
  && count_ok (SearchFormData.infants data)
  && negb (String.eqb (SearchFormData.origin data)
             (SearchFormData.destination data))
  && (if truthy_opt (SearchFormData.returnDate data)
      then
        match Date_parse (default "" (SearchFormData.returnDate data)),
              Date_parse (SearchFormData.departureDate data)
        with
        | Some r, Some d => d <=? r
        | _, _ => false
        end
      else true).

(** ** components/charts/PriceTrendChart.tsx: the summary *)

Module ChartSummary.
(** What the component shows: the line of the chart, and the lowest price,
    the highest price and the number of flights under it.  These are
    minima, maxima and counts, which are exact.  The average price, which
    the component computes by floating-point addition and division, is not
    a field of this record. *)
Record t : Type := mk
  { line : list PriceDataPoint.t;
    lowestPrice : Q;
    highestPrice : Q;
    totalFlights : nat }.
End ChartSummary.

(** ** Concrete flights, queries and replies *)

Module Demo.

Definition timed (id departureTime arrivalTime : string) (price : Q)
  : FlightCardData.t :=
  {| FlightCardData.id := id;
     FlightCardData.airline := "KLM";
     FlightCardData.airlineLogo := "";
     FlightCardData.departureTime := departureTime;
     FlightCardData.arrivalTime := arrivalTime;
     FlightCardData.departureAirport := "JFK";
     FlightCardData.arrivalAirport := "LAX";
     FlightCardData.duration := "6h";
     FlightCardData.stops := 0;
     FlightCardData.price := price;
     FlightCardData.currency := "USD";
     FlightCardData.segments := [];
     FlightCardData.layovers := [] |}.

Definition morning : FlightCardData.t := timed "m" "06:15" "23:55" (300 # 1).
Definition noon : FlightCardData.t := timed "n" "12:00" "18:00" (280 # 1).
Definition evening : FlightCardData.t := timed "e" "19:40" "01:40" (310 # 1).

(** An offer whose first segment departs at no date. *)
Definition bad_departure : FlightOffer.t :=
  Sample.offer "5"
    [ {| FlightItinerary.segments :=
           [ Sample.segment "AA" (Sample.endpoint "JFK" "tomorrow")
               (Sample.endpoint "ORD" "2024-03-01T10:00:00") ];
         FlightItinerary.duration := "PT2H" |} ].

Definition three_segments : FlightItinerary.t :=
  {| FlightItinerary.segments :=
       [Sample.jfk_ord; Sample.ord_den; Sample.den_lax];
     FlightItinerary.duration := "PT7H" |}.

Definition empty_cache : TokenCache.t :=
  {| TokenCache.cachedToken := None; TokenCache.tokenExpiryTime := None |}.

Definition query : list (string * string) :=
  [ ("origin", "JFK"); ("destination", "LAX");
    ("departureDate", "2024-03-01"); ("adults", "2") ].

Definition same_airport_query : list (string * string) :=
  [ ("origin", "JFK"); ("destination", "JFK");
    ("departureDate", "2024-03-01") ].

(** A provider that answers every search with the given offers. *)
Definition provider (data : list FlightOffer.t)
  (token : string) (queryParams : list (string * string)) : SearchReply :=
  SearchData (Sample.batch data).

(** A provider that refuses every token. *)
Definition refusing (token : string) (queryParams : list (string * string))
  : SearchReply :=
  SearchAxiosError (Some 401) None.

(** A one-way search for two adults and a child in business class. *)
Definition form : SearchFormData.t :=
  {| SearchFormData.origin := "JFK";
     SearchFormData.destination := "LAX";
     SearchFormData.departureDate := "2024-03-01";
     SearchFormData.returnDate := Some "";
     SearchFormData.adults := 2;
     SearchFormData.children := Some 1;
     SearchFormData.infants := Some 0;
     SearchFormData.travelClass := Some BUSINESS |}.

End Demo.
Section Core.

Context {Date : Type}.
Variable parseISO : string -> Date.
Variable format : Date -> string -> result string.
Variable differenceInMinutes : Date -> Date -> option Z.
Variable parseFloat : string -> Q.
Variable localeCompare : string -> string -> Z.

(** One pass of the loop of [getLayovers], for the adjacent segments
    [segments[i]] and [segments[i + 1]]. *)
Definition layoverLabel (segment next : FlightSegment.t) : string :=
  let arrivalTime := parseISO (Endpoint.at_ (FlightSegment.arrival segment)) in
  let nextDepartureTime := parseISO (Endpoint.at_ (FlightSegment.departure next)) in
  let layoverMinutes := differenceInMinutes nextDepartureTime arrivalTime in
  let airport := Endpoint.iataCode (FlightSegment.arrival segment) in
  airport +:+ " (" +:+ layoverText layoverMinutes +:+ ")".

(** The loop [for (i = 0; i < segments.length - 1; i++)] pushes one label
    per adjacent pair. *)
Fixpoint getLayovers (segments : list FlightSegment.t) : list string :=
  match segments with
  | segment :: rest =>
      match rest with
      | next :: _ => layoverLabel segment next :: getLayovers rest
      | [] => []
      end
  | [] => []
  end.

Definition transformFlightOffer (offer : FlightOffer.t)
  (carrierDictionary : option (gmap string string))
  : result FlightCardData.t :=
  (* [itinerary.segments] throws when [offer.itineraries[0]] is undefined *)
  itinerary ← prop_of (FlightOffer.itineraries offer !! 0%nat);
  let segments := FlightItinerary.segments itinerary in
  let firstSegment := segments !! 0%nat in
  (* [segments[segments.length - 1]], undefined for an empty array *)
  let lastSegment := segments !! (length segments - 1)%nat in
  primaryCarrier ←
    (let code := FlightOffer.validatingAirlineCodes offer !! 0%nat in
     if truthy_opt code then Ok (default "" code)
     else first ← prop_of firstSegment; Ok (FlightSegment.carrierCode first));
  first ← prop_of firstSegment;
  departureTime ←
    format (parseISO (Endpoint.at_ (FlightSegment.departure first))) "HH:mm";
  last ← prop_of lastSegment;
  arrivalTime ←
    format (parseISO (Endpoint.at_ (FlightSegment.arrival last))) "HH:mm";
  Ok {| FlightCardData.id := FlightOffer.id offer;
        FlightCardData.airline := getAirlineName primaryCarrier carrierDictionary;
        FlightCardData.airlineLogo := AIRLINE_LOGO_URL primaryCarrier;
        FlightCardData.departureTime := departureTime;
        FlightCardData.arrivalTime := arrivalTime;
        FlightCardData.departureAirport :=
          Endpoint.iataCode (FlightSegment.departure first);
        FlightCardData.arrivalAirport :=
          Endpoint.iataCode (FlightSegment.arrival last);
        FlightCardData.duration :=
          parseDuration (FlightItinerary.duration itinerary);
        FlightCardData.stops := calculateStops segments;
        FlightCardData.price :=
          parseFloat (Price.grandTotal (FlightOffer.price offer));
        FlightCardData.currency := Price.currency (FlightOffer.price offer);
        FlightCardData.segments :=
          map (fun segment =>
                 {| FlightSegment.id := FlightSegment.id segment;
                    FlightSegment.departure := FlightSegment.departure segment;
                    FlightSegment.arrival := FlightSegment.arrival segment;
                    FlightSegment.carrierCode := FlightSegment.carrierCode segment;
                    FlightSegment.carrierName :=
                      getAirlineName (FlightSegment.carrierCode segment)
                        carrierDictionary;
                    FlightSegment.number := FlightSegment.number segment;
                    FlightSegment.aircraft := FlightSegment.aircraft segment;
                    FlightSegment.duration := FlightSegment.duration segment;
                    FlightSegment.numberOfStops :=
                      FlightSegment.numberOfStops segment |})
              segments;
        FlightCardData.layovers := getLayovers segments |}.

Definition transformFlightOffers (response : AmadeusFlightOffersResponse.t)
  : result (list FlightCardData.t) :=
  let carrierDictionary := AmadeusFlightOffersResponse.carriers response in
  map_result (fun offer => transformFlightOffer offer carrierDictionary)
    (AmadeusFlightOffersResponse.data response).

(** An offer without itineraries, or whose first itinerary has no
    segments. *)
Definition malformed (offer : FlightOffer.t) : bool :=
  match FlightOffer.itineraries offer with
  | [] => true
  | itinerary :: _ =>
      match FlightItinerary.segments itinerary with
      | [] => true
      | _ :: _ => false
      end
  end.

(** The batch normaliser in the words of the specification, to compare
    [transformFlightOffers] with: an offer that fails to normalise is
    dropped and counted, and the other records are returned. *)
Fixpoint normalizeAll_spec (carrierDictionary : option (gmap string string))
  (batch : list FlightOffer.t) : list FlightCardData.t * nat :=
  match batch with
  | [] => ([], 0%nat)
  | offer :: batch' =>
      let '(flights, dropped) := normalizeAll_spec carrierDictionary batch' in
      match transformFlightOffer offer carrierDictionary with
      | Ok flight => (flight :: flights, dropped)
      | Throw _ => (flights, S dropped)
      end
  end.

(** The comparator that [sortFlights] passes to [sort] for each key. *)
Definition compareBy (sortBy : SortBy) (a b : FlightCardData.t) : Q :=
  match sortBy with
  | by_price => (FlightCardData.price a - FlightCardData.price b)%Q
  | by_duration =>
      let aDuration := parseDurationToMinutes (FlightCardData.duration a) in
      let bDuration := parseDurationToMinutes (FlightCardData.duration b) in
      inject_Z (Z.of_N aDuration - Z.of_N bDuration)
  | by_departure =>
      inject_Z (localeCompare (FlightCardData.departureTime a)
                  (FlightCardData.departureTime b))
  | by_arrival =>
      inject_Z (localeCompare (FlightCardData.arrivalTime a)
                  (FlightCardData.arrivalTime b))
  end.

(** [sortFlights] on array values: the contents of the array it returns. *)
Definition sortFlights (flights : list FlightCardData.t) (sortBy : SortBy)
  : list FlightCardData.t :=
  let sorted := flights in
  array_sort (compareBy sortBy) sorted.

(** [sortFlights] on array objects: [[...flights]] is a new array, and
    [sorted.sort(...)] sorts that array in place and returns it. *)
Definition sortFlights_ref (flights : loc) (sortBy : SortBy) (h : heap)
  : loc * heap :=
  let '(sorted, h1) := alloc (deref h flights) h in
  (sorted, alter (array_sort (compareBy sortBy)) sorted h1).

(** [Array.prototype.filter] returns a new array. *)
Definition filterFlights_ref (flights : loc) (filters : FlightFilters.t)
  (h : heap) : loc * heap :=
  alloc (filterFlights (deref h flights) filters) h.

(** *** store/flightStore.ts *)

Definition DEFAULT_FILTERS : FlightFilters.t :=
  {| FlightFilters.priceRange :=
       {| PriceRange.min := 0; PriceRange.max := 10000 |};
     FlightFilters.stops := [];
     FlightFilters.airlines := [];
     FlightFilters.sortBy := by_price |}.

Definition applyFiltersAndSort (flights : list FlightCardData.t)
  (filters : FlightFilters.t) : list FlightCardData.t :=
  let result := filterFlights flights filters in
  let result := sortFlights result (FlightFilters.sortBy filters) in
  result.

(** The initial state of [create<FlightState>(...)]. *)
Definition initialState : FlightState.t :=
  {| FlightState.allFlights := [];
     FlightState.isLoading := false;
     FlightState.error := None;
     FlightState.filters := DEFAULT_FILTERS;
     FlightState.filteredFlights := [];
     FlightState.chartData := [];
     FlightState.availableAirlines := [];
     FlightState.absolutePriceRange :=
       {| PriceRange.min := 0; PriceRange.max := 10000 |} |}.

(** [{ ...DEFAULT_FILTERS, priceRange }] *)
Definition withPriceRange (priceRange : PriceRange.t) : FlightFilters.t :=
  {| FlightFilters.priceRange := priceRange;
     FlightFilters.stops := FlightFilters.stops DEFAULT_FILTERS;
     FlightFilters.airlines := FlightFilters.airlines DEFAULT_FILTERS;
     FlightFilters.sortBy := FlightFilters.sortBy DEFAULT_FILTERS |}.

(** [{ ...filters, ...partialFilters }] *)
Definition mergeFilters (filters : FlightFilters.t)
  (partialFilters : PartialFilters.t) : FlightFilters.t :=
  {| FlightFilters.priceRange :=
       default (FlightFilters.priceRange filters)
         (PartialFilters.priceRange partialFilters);
     FlightFilters.stops :=
       default (FlightFilters.stops filters)
         (PartialFilters.stops partialFilters);
     FlightFilters.airlines :=
       default (FlightFilters.airlines filters)
         (PartialFilters.airlines partialFilters);
     FlightFilters.sortBy :=
       default (FlightFilters.sortBy filters)
         (PartialFilters.sortBy partialFilters) |}.

Definition setFlights (flights : list FlightCardData.t)
  (state : FlightState.t) : FlightState.t :=
  let priceRange := extractPriceRange flights in
  let airlines := extractUniqueAirlines flights in
  let newFilters := withPriceRange priceRange in
  let filtered := applyFiltersAndSort flights newFilters in
  let chartData := generatePriceChartData filtered in
  {| FlightState.allFlights := flights;
     FlightState.isLoading := false;
     FlightState.error := None;
     FlightState.filters := newFilters;
     FlightState.filteredFlights := filtered;
     FlightState.chartData := chartData;
     FlightState.availableAirlines := airlines;
     FlightState.absolutePriceRange := priceRange |}.

Definition setLoading (loading : bool) (state : FlightState.t)
  : FlightState.t :=
  {| FlightState.allFlights := FlightState.allFlights state;
     FlightState.isLoading := loading;
     FlightState.error := FlightState.error state;
     FlightState.filters := FlightState.filters state;
     FlightState.filteredFlights := FlightState.filteredFlights state;
     FlightState.chartData := FlightState.chartData state;
     FlightState.availableAirlines := FlightState.availableAirlines state;
     FlightState.absolutePriceRange := FlightState.absolutePriceRange state |}.

Definition setError (error : option string) (state : FlightState.t)
  : FlightState.t :=
  {| FlightState.allFlights := FlightState.allFlights state;
     FlightState.isLoading := false;
     FlightState.error := error;
     FlightState.filters := FlightState.filters state;
     FlightState.filteredFlights := FlightState.filteredFlights state;
     FlightState.chartData := FlightState.chartData state;
     FlightState.availableAirlines := FlightState.availableAirlines state;
     FlightState.absolutePriceRange := FlightState.absolutePriceRange state |}.

(** [set({ filters, filteredFlights, chartData })] on the current state,
    shared by [updateFilters] and [resetFilters]. *)
Definition setView (newFilters : FlightFilters.t) (state : FlightState.t)
  : FlightState.t :=
  let filtered := applyFiltersAndSort (FlightState.allFlights state) newFilters in
  let chartData := generatePriceChartData filtered in
  {| FlightState.allFlights := FlightState.allFlights state;
     FlightState.isLoading := FlightState.isLoading state;
     FlightState.error := FlightState.error state;
     FlightState.filters := newFilters;
     FlightState.filteredFlights := filtered;
     FlightState.chartData := chartData;
     FlightState.availableAirlines := FlightState.availableAirlines state;
     FlightState.absolutePriceRange := FlightState.absolutePriceRange state |}.

Definition updateFilters (partialFilters : PartialFilters.t)
  (state : FlightState.t) : FlightState.t :=
  let newFilters := mergeFilters (FlightState.filters state) partialFilters in
  setView newFilters state.

Definition resetFilters (state : FlightState.t) : FlightState.t :=
  let resetFilters := withPriceRange (FlightState.absolutePriceRange state) in
  setView resetFilters state.

Definition clearSearch (state : FlightState.t) : FlightState.t :=
  {| FlightState.allFlights := [];
     FlightState.isLoading := false;
     FlightState.error := None;
     FlightState.filters := DEFAULT_FILTERS;
     FlightState.filteredFlights := [];
     FlightState.chartData := [];
     FlightState.availableAirlines := [];
     FlightState.absolutePriceRange :=
       {| PriceRange.min := 0; PriceRange.max := 10000 |} |}.

(** A run of filter updates and resets, in order. *)
Definition runAction (a : FilterAction) (state : FlightState.t)
  : FlightState.t :=
  match a with
  | UpdateFilters partialFilters => updateFilters partialFilters state
  | ResetFilters => resetFilters state
  end.

Definition runActions (actions : list FilterAction) (state : FlightState.t)
  : FlightState.t :=
  fold_left (fun s a => runAction a s) actions state.

(** *** The store on array objects

    The same actions with [allFlights] and [filteredFlights] held by
    reference: [filterFlights] and [sortFlights] each return a new array,
    and the store keeps the reference it is given. *)

Definition applyFiltersAndSort_ref (flights : loc)
  (filters : FlightFilters.t) (h : heap) : loc * heap :=
  let '(result, h1) := filterFlights_ref flights filters h in
  sortFlights_ref result (FlightFilters.sortBy filters) h1.

Definition setView_ref (newFilters : FlightFilters.t)
  (state : RefState.t) (h : heap) : RefState.t * heap :=
  let '(filtered, h1) :=
    applyFiltersAndSort_ref (RefState.allFlights state) newFilters h in
  let chartData := generatePriceChartData (deref h1 filtered) in
  ({| RefState.allFlights := RefState.allFlights state;
      RefState.isLoading := RefState.isLoading state;
      RefState.error := RefState.error state;
      RefState.filters := newFilters;
      RefState.filteredFlights := filtered;
      RefState.chartData := chartData;
      RefState.availableAirlines := RefState.availableAirlines state;
      RefState.absolutePriceRange := RefState.absolutePriceRange state |},
   h1).

Definition updateFilters_ref (partialFilters : PartialFilters.t)
  (state : RefState.t) (h : heap) : RefState.t * heap :=
  setView_ref (mergeFilters (RefState.filters state) partialFilters) state h.

Definition resetFilters_ref (state : RefState.t) (h : heap)
  : RefState.t * heap :=
  setView_ref (withPriceRange (RefState.absolutePriceRange state)) state h.

Definition setFlights_ref (flights : loc) (state : RefState.t) (h : heap)
  : RefState.t * heap :=
  let priceRange := extractPriceRange (deref h flights) in
  let airlines := extractUniqueAirlines (deref h flights) in
  let newFilters := withPriceRange priceRange in
  let '(filtered, h1) := applyFiltersAndSort_ref flights newFilters h in
  let chartData := generatePriceChartData (deref h1 filtered) in
  ({| RefState.allFlights := flights;
      RefState.isLoading := false;
      RefState.error := None;
      RefState.filters := newFilters;
      RefState.filteredFlights := filtered;
      RefState.chartData := chartData;
      RefState.availableAirlines := airlines;
      RefState.absolutePriceRange := priceRange |},
   h1).

Definition runAction_ref (a : FilterAction) (sh : RefState.t * heap)
  : RefState.t * heap :=
  match a with
  | UpdateFilters partialFilters => updateFilters_ref partialFilters sh.1 sh.2
  | ResetFilters => resetFilters_ref sh.1 sh.2
  end.

Definition runActions_ref (actions : list FilterAction)
  (sh : RefState.t * heap) : RefState.t * heap :=
  fold_left (fun sh a => runAction_ref a sh) actions sh.

(** The store that a state on array objects stands for. *)
Definition abstract (sh : RefState.t * heap) : FlightState.t :=
  let '(state, h) := sh in
  {| FlightState.allFlights := deref h (RefState.allFlights state);
     FlightState.isLoading := RefState.isLoading state;
     FlightState.error := RefState.error state;
     FlightState.filters := RefState.filters state;
     FlightState.filteredFlights := deref h (RefState.filteredFlights state);
     FlightState.chartData := RefState.chartData state;
     FlightState.availableAirlines := RefState.availableAirlines state;
     FlightState.absolutePriceRange := RefState.absolutePriceRange state |}.

(** *** The actions of the store, as values

    One constructor per action of [useFlightStore]; [dispatch] runs the
    action of that name. *)

Inductive StoreAction : Type :=
| ActSetFlights (flights : list FlightCardData.t)
| ActSetLoading (loading : bool)
| ActSetError (error : option string)
| ActUpdateFilters (partialFilters : PartialFilters.t)
| ActResetFilters
| ActClearSearch.

Definition dispatch (a : StoreAction) (state : FlightState.t)
  : FlightState.t :=
  match a with
  | ActSetFlights flights => setFlights flights state
  | ActSetLoading loading => setLoading loading state
  | ActSetError error => setError error state
  | ActUpdateFilters partialFilters => updateFilters partialFilters state
  | ActResetFilters => resetFilters state
  | ActClearSearch => clearSearch state
  end.

Definition dispatchAll (actions : list StoreAction) (state : FlightState.t)
  : FlightState.t :=
  fold_left (fun s a => dispatch a s) actions state.

(** The action that ingests a working set. *)
Definition isSetFlights (a : StoreAction) : bool :=
  match a with
  | ActSetFlights _ => true
  | _ => false
  end.

(** *** app/search/page.tsx: [fetchFlights]

    What the page reads of the reply of [/api/flights]: the fetch or the
    decoding of the body may fail ([message] is the message of the error when
    it is an [Error]), and otherwise the page reads [response.ok] and the
    fields [error], [success] and [data] of the body. *)

Inductive FetchReply : Type :=
| FetchFailed (message : option string)
| FetchReplied (ok : bool) (error : option string) (success : bool)
    (data : option (list FlightCardData.t)).

(** [setLoading(true); setError(null);] *)
Definition beginFetch (state : FlightState.t) : FlightState.t :=
  setError None (setLoading true state).

(** What [fetchFlights] does once the reply is there: the rest of the
    [try], and the [catch] that stores the message. *)
Definition finishFetch (reply : FetchReply) (state : FlightState.t)
  : FlightState.t :=
  match reply with
  | FetchFailed message =>
      setError (Some (default "Failed to load flights" message)) state
  | FetchReplied ok error success data =>
      if negb ok then
        setError
          (Some (default "Failed to fetch flights"
                   (or_else error (Some "Failed to fetch flights"))))
          state
      else
        match data with
        | Some flights =>
            if success then setFlights flights state
            else setError (Some "Invalid response format") state
        | None => setError (Some "Invalid response format") state
        end
  end.

(** [fetchFlights], when nothing else touches the store while the reply is
    awaited. *)
Definition fetchFlights (reply : FetchReply) (state : FlightState.t)
  : FlightState.t :=
  finishFetch reply (beginFetch state).

(** The invariant of the store: the view and the chart are those of the
    working set under the current filters, the airline list is that of the
    working set, and the bounds are those of the working set, or the
    default bounds of a store without working set. *)
Definition coherent (state : FlightState.t) : Prop :=
  FlightState.filteredFlights state
    = applyFiltersAndSort (FlightState.allFlights state)
        (FlightState.filters state)
  /\ FlightState.chartData state
     = generatePriceChartData (FlightState.filteredFlights state)
  /\ FlightState.availableAirlines state
     = extractUniqueAirlines (FlightState.allFlights state)
  /\ (FlightState.absolutePriceRange state
      = extractPriceRange (FlightState.allFlights state)
      \/ (FlightState.allFlights state = []
          /\ FlightState.absolutePriceRange state
             = {| PriceRange.min := 0; PriceRange.max := 10000 |})).

(** *** components/filters/FilterPanel.tsx: the handlers *)

(** [l.indexOf(x)]; [None] is the result [-1]. *)
Fixpoint indexOf {A : Type} (eqb : A -> A -> bool) (x : A) (l : list A)
  : option nat :=
  match l with
  | [] => None
  | y :: l' => if eqb y x then Some 0%nat else S <$> indexOf eqb x l'
  end.

(** [l.splice(index, 1)] on a copy [l]: the copy without that element. *)
Definition splice1 {A : Type} (index : nat) (l : list A) : list A :=
  take index l ++ drop (S index) l.

(** The body shared by [handleStopsChange] and [handleAirlineChange]: copy
    the list, take the value out where [indexOf] finds it, push it
    otherwise. *)
Definition toggle {A : Type} (eqb : A -> A -> bool) (x : A)
  (current : list A) : list A :=
  match indexOf eqb x current with
  | Some index => splice1 index current
  | None => current ++ [x]
  end.

(** [{ priceRange: newRange }], [{ stops: currentStops }],
    [{ airlines: currentAirlines }] and [{ sortBy }]. *)
Definition onlyPriceRange (newRange : PriceRange.t) : PartialFilters.t :=
  {| PartialFilters.priceRange := Some newRange;
     PartialFilters.stops := None;
     PartialFilters.airlines := None;
     PartialFilters.sortBy := None |}.

Definition onlyStops (currentStops : list Z) : PartialFilters.t :=
  {| PartialFilters.priceRange := None;
     PartialFilters.stops := Some currentStops;
     PartialFilters.airlines := None;
     PartialFilters.sortBy := None |}.

Definition onlyAirlines (currentAirlines : list string) : PartialFilters.t :=
  {| PartialFilters.priceRange := None;
     PartialFilters.stops := None;
     PartialFilters.airlines := Some currentAirlines;
     PartialFilters.sortBy := None |}.

Definition onlySortBy (sortBy : SortBy) : PartialFilters.t :=
  {| PartialFilters.priceRange := None;
     PartialFilters.stops := None;
     PartialFilters.airlines := None;
     PartialFilters.sortBy := Some sortBy |}.

(** [handlePriceChange(type, value)]: the new local range, and the store
    after [updateFilters]; [isMin] is [type === "min"]. *)
Definition handlePriceChange (isMin : bool) (value : Q)
  (localPriceRange : PriceRange.t) (state : FlightState.t)
  : PriceRange.t * FlightState.t :=
  let newRange :=
    if isMin
    then {| PriceRange.min := value;
            PriceRange.max := PriceRange.max localPriceRange |}
    else {| PriceRange.min := PriceRange.min localPriceRange;
            PriceRange.max := value |} in
  (newRange, updateFilters (onlyPriceRange newRange) state).

Definition handleStopsChange (stopCount : Z) (state : FlightState.t)
  : FlightState.t :=
  let currentStops :=
    toggle Z.eqb stopCount (FlightFilters.stops (FlightState.filters state)) in
  updateFilters (onlyStops currentStops) state.

Definition handleAirlineChange (airline : string) (state : FlightState.t)
  : FlightState.t :=
  let currentAirlines :=
    toggle String.eqb airline
      (FlightFilters.airlines (FlightState.filters state)) in
  updateFilters (onlyAirlines currentAirlines) state.

Definition handleSortChange (sortBy : SortBy) (state : FlightState.t)
  : FlightState.t :=
  updateFilters (onlySortBy sortBy) state.

(** *** components/charts/PriceTrendChart.tsx: [groupedData] *)

(** The callback of [chartData.reduce(...)]: [acc.find] gives the first
    point of [acc] with the time of [point]; its [price] and [flightId] are
    overwritten when [point] is cheaper, and a copy of [point] is pushed
    when there is no such point. *)
Fixpoint mergePoint (acc : list PriceDataPoint.t) (point : PriceDataPoint.t)
  : list PriceDataPoint.t :=
  match acc with
  | [] => [point]
  | item :: acc' =>
      if String.eqb (PriceDataPoint.time item) (PriceDataPoint.time point)
      then
        (if Qlt_bool (PriceDataPoint.price point) (PriceDataPoint.price item)
         then {| PriceDataPoint.time := PriceDataPoint.time item;
                 PriceDataPoint.price := PriceDataPoint.price point;
                 PriceDataPoint.flightId := PriceDataPoint.flightId point;
                 PriceDataPoint.stops := PriceDataPoint.stops item;
                 PriceDataPoint.airline := PriceDataPoint.airline item |}
         else item) :: acc'
      else item :: mergePoint acc' point
  end.

(** The points grouped by time, before [groupedData.sort]. *)
Definition groupByTime (chartData : list PriceDataPoint.t)
  : list PriceDataPoint.t :=
  fold_left mergePoint chartData [].

Definition groupedData (chartData : list PriceDataPoint.t)
  : list PriceDataPoint.t :=
  array_sort
    (fun a b =>
       inject_Z (localeCompare (PriceDataPoint.time a) (PriceDataPoint.time b)))
    (groupByTime chartData).

(** The first point of a list with a given time. *)
Definition firstAt (time : string) (points : list PriceDataPoint.t)
  : option PriceDataPoint.t :=
  List.find (fun p => String.eqb (PriceDataPoint.time p) time) points.

(** The component renders nothing for an empty [chartData]; otherwise the
    line is [groupedData] and the numbers are computed from [chartData]:
    [Math.min(...chartData.map((d) => d.price))], [Math.max] of the same
    and [chartData.length]. *)
Definition PriceTrendChart (chartData : list PriceDataPoint.t)
  : option ChartSummary.t :=
  match map PriceDataPoint.price chartData with
  | [] => None
  | p :: prices =>
      Some {| ChartSummary.line := groupedData chartData;
              ChartSummary.lowestPrice := Math_min p prices;
              ChartSummary.highestPrice := Math_max p prices;
              ChartSummary.totalFlights := length chartData |}
  end.

(** *** app/api/flights/route.ts: [GET] *)

Definition GET (query : list (string * string)) (now : Z) (auth : AuthReply)
  (get : string -> list (string * string) -> SearchReply)
  (cache : TokenCache.t) : HttpResponse.t * TokenCache.t :=
  let params := routeParams query in
  match validateParams params with
  | Some error =>
      ({| HttpResponse.status := 400;
          HttpResponse.body := BodyInvalid error |}, cache)
  | None =>
      match searchFlights params now auth get cache with
      | (Raises message, cache') =>
          ({| HttpResponse.status := 500;
              HttpResponse.body := BodyFailure (Text message) |}, cache')
      | (Returns response, cache') =>
          match transformFlightOffers response with
          | Throw e =>
              ({| HttpResponse.status := 500;
                  HttpResponse.body := BodyFailure (RuntimeMessage e) |},
               cache')
          | Ok flights =>
              ({| HttpResponse.status := 200;
                  HttpResponse.body := BodySuccess (length flights) flights |},
               cache')
          end
      end
  end.

(** * Properties *)

(** ** Airline names *)

Lemma or_else_truthy (a b : option string) :
  truthy_opt a = true -> or_else a b = a.
Proof. unfold or_else. intros ->. reflexivity. Qed.

Lemma or_else_falsy (a b : option string) :
  truthy_opt a = false -> or_else a b = b.
Proof. unfold or_else. intros ->. reflexivity. Qed.

Lemma truthy_str_nonempty (s : string) : truthy_str s = true <-> s <> "".
Proof. destruct s; simpl; split; congruence. Qed.

(** Every name of the static table is a non-empty string. *)
Lemma AIRLINE_NAMES_truthy (code name : string) :
  AIRLINE_NAMES !! code = Some name -> truthy_str name = true.
Proof.
  intros H. apply elem_of_list_to_map_2 in H.
  repeat (apply elem_of_cons in H as [H | H]; [by inversion H |]).
  by apply elem_of_nil in H.
Qed.

(** C9 (as amended): airline-name resolution tries the per-search
    dictionary, then the static table [AIRLINE_NAMES], then the code
    itself.  A non-empty dictionary entry is the resolved name whatever the
    static table holds; an entry that is the empty string counts as
    absent.  The code itself is the resolved name when neither holds a
    non-empty entry and the code is not the name of a property inherited
    from [Object.prototype], none of which is a key of the static table.
    With the dictionary [{"AA": "American Air"}] the code [AA] resolves to
    ["American Air"]. *)
Theorem getAirlineName_precedence (carrierCode : string)
  (dictionaries : option (gmap string string)) :
  (forall name, dictEntry carrierCode dictionaries = Some name ->
                name <> "" ->
                getAirlineName carrierCode dictionaries = name)
  /\ (truthy_opt (dictEntry carrierCode dictionaries) = false ->
      forall name, AIRLINE_NAMES !! carrierCode = Some name ->
                   getAirlineName carrierCode dictionaries = name)
  /\ (inherited carrierCode = false ->
      truthy_opt (dictEntry carrierCode dictionaries) = false ->
      AIRLINE_NAMES !! carrierCode = None ->
      getAirlineName carrierCode dictionaries = carrierCode)
  /\ Forall (fun name => AIRLINE_NAMES !! name = None) Object_prototype_names
  /\ getAirlineName "AA" (Some {[ "AA" := "American Air" ]}) = "American Air"
  /\ AIRLINE_NAMES !! "AA" = Some "American Airlines".
Proof.
  unfold getAirlineName.
  split; [| split; [| split; [| split; [| split]]]].
  - intros name -> Hne. apply truthy_str_nonempty in Hne.
    rewrite (or_else_truthy (Some name)) by done.
    by rewrite or_else_truthy.
  - intros Hd name Hs. rewrite (or_else_falsy _ _ Hd), Hs.
    rewrite or_else_truthy; [done |]. simpl. by eapply AIRLINE_NAMES_truthy.
  - intros _ Hd Hs. rewrite (or_else_falsy _ _ Hd), Hs.
    by rewrite or_else_falsy.
  - unfold Object_prototype_names. repeat constructor.
  - reflexivity.
  - reflexivity.
Qed.

(** ** The store: empty state *)

(** An action other than [setFlights] keeps a store without working set
    as it is, but for the flags and the filters. *)
Lemma dispatch_keeps_empty (a : StoreAction) (state : FlightState.t) :
  isSetFlights a = false ->
  FlightState.allFlights state = [] ->
  FlightState.filteredFlights state = [] ->
  FlightState.chartData state = [] ->
  FlightState.absolutePriceRange state
  = {| PriceRange.min := 0; PriceRange.max := 10000 |} ->
  FlightState.allFlights (dispatch a state) = []
  /\ FlightState.filteredFlights (dispatch a state) = []
  /\ FlightState.chartData (dispatch a state) = []
  /\ FlightState.absolutePriceRange (dispatch a state)
     = {| PriceRange.min := 0; PriceRange.max := 10000 |}.
Proof.
  intros Ha Hall Hview Hchart Hbounds.
  destruct a as [flights | loading | error | partialFilters | |];
    [discriminate Ha | | | | |]; cbn [dispatch].
  - done.
  - done.
  - unfold updateFilters, setView.
    cbn [FlightState.allFlights FlightState.filteredFlights
           FlightState.chartData FlightState.absolutePriceRange].
    by rewrite Hall.
  - unfold resetFilters, setView.
    cbn [FlightState.allFlights FlightState.filteredFlights
           FlightState.chartData FlightState.absolutePriceRange].
    by rewrite Hall.
  - done.
Qed.

Lemma dispatchAll_keeps_empty (actions : list StoreAction)
  (state : FlightState.t) :
  forallb (fun a => negb (isSetFlights a)) actions = true ->
  FlightState.allFlights state = [] ->
  FlightState.filteredFlights state = [] ->
  FlightState.chartData state = [] ->
  FlightState.absolutePriceRange state
  = {| PriceRange.min := 0; PriceRange.max := 10000 |} ->
  FlightState.allFlights (dispatchAll actions state) = []
  /\ FlightState.filteredFlights (dispatchAll actions state) = []
  /\ FlightState.chartData (dispatchAll actions state) = []
  /\ FlightState.absolutePriceRange (dispatchAll actions state)
     = {| PriceRange.min := 0; PriceRange.max := 10000 |}.
Proof.
  unfold dispatchAll. revert state.
  induction actions as [| a actions IH]; intros state Hno Hall Hview Hchart Hb.
  - done.
  - cbn [forallb] in Hno. apply andb_prop in Hno as (Ha & Hno).
    apply negb_true_iff in Ha.
    destruct (dispatch_keeps_empty a state Ha Hall Hview Hchart Hb)
      as (Hall' & Hview' & Hchart' & Hb').
    cbn [fold_left]. by apply IH.
Qed.

(** C8 (as amended): in the Empty state the bounds of the store are
    [{min: 0, max: 10000}] and the current view is empty.  The Empty state
    is every state that the store reaches from its initial state, or from
    the state that [clearSearch] leaves, by actions other than [setFlights]:
    [setLoading], [setError], [updateFilters], [resetFilters] and
    [clearSearch], in any number and order.  In all of them there is no
    working set and the chart has no point. *)
Theorem empty_state_bounds (actions : list StoreAction)
  (state : FlightState.t) :
  forallb (fun a => negb (isSetFlights a)) actions = true ->
  let before := dispatchAll actions initialState in
  let cleared := dispatchAll actions (clearSearch state) in
  FlightState.absolutePriceRange before
  = {| PriceRange.min := 0; PriceRange.max := 10000 |}
  /\ FlightState.filteredFlights before = []
  /\ FlightState.absolutePriceRange cleared
     = {| PriceRange.min := 0; PriceRange.max := 10000 |}
  /\ FlightState.filteredFlights cleared = []
  /\ FlightState.allFlights before = []
  /\ FlightState.allFlights cleared = []
  /\ FlightState.chartData before = []
  /\ FlightState.chartData cleared = []
  /\ clearSearch state = initialState.
Proof.
  intros Hno before cleared.
  destruct (dispatchAll_keeps_empty actions initialState Hno)
    as (Hall1 & Hview1 & Hchart1 & Hb1); [done | done | done | done |].
  destruct (dispatchAll_keeps_empty actions (clearSearch state) Hno)
    as (Hall2 & Hview2 & Hchart2 & Hb2); [done | done | done | done |].
  by subst before cleared.
Qed.

(** ** The store: filter updates *)

Lemma runAction_frame (a : FilterAction) (state : FlightState.t) :
  FlightState.allFlights (runAction a state) = FlightState.allFlights state
  /\ FlightState.absolutePriceRange (runAction a state)
     = FlightState.absolutePriceRange state
  /\ FlightState.availableAirlines (runAction a state)
     = FlightState.availableAirlines state.
Proof. destruct a; repeat split. Qed.

Lemma runActions_frame (actions : list FilterAction) (state : FlightState.t) :
  FlightState.allFlights (runActions actions state)
    = FlightState.allFlights state
  /\ FlightState.absolutePriceRange (runActions actions state)
     = FlightState.absolutePriceRange state
  /\ FlightState.availableAirlines (runActions actions state)
     = FlightState.availableAirlines state.
Proof.
  revert state. induction actions as [| a actions IH]; intros state.
  - repeat split.
  - unfold runActions in *. simpl.
    destruct (IH (runAction a state)) as (H1 & H2 & H3).
    destruct (runAction_frame a state) as (F1 & F2 & F3).
    rewrite H1, H2, H3. auto.
Qed.

(** C4: [updateFilters] merges the partial specification into the current
    filters, a field that the partial does not mention keeping its value,
    and recomputes the current view and the chart series from the working
    set; the working set, the bounds and the list of available airlines
    (and the loading and error flags) are those of the state before, after
    one call and after any number of calls. *)
Theorem updateFilters_frame (partialFilters : PartialFilters.t)
  (state : FlightState.t) :
  let state' := updateFilters partialFilters state in
  let filters := FlightState.filters state in
  let filters' := FlightState.filters state' in
  FlightFilters.priceRange filters'
    = match PartialFilters.priceRange partialFilters with
      | Some r => r
      | None => FlightFilters.priceRange filters
      end
  /\ FlightFilters.stops filters'
    = match PartialFilters.stops partialFilters with
      | Some l => l
      | None => FlightFilters.stops filters
      end
  /\ FlightFilters.airlines filters'
    = match PartialFilters.airlines partialFilters with
      | Some l => l
      | None => FlightFilters.airlines filters
      end
  /\ FlightFilters.sortBy filters'
    = match PartialFilters.sortBy partialFilters with
      | Some k => k
      | None => FlightFilters.sortBy filters
      end
  /\ FlightState.filteredFlights state'
    = applyFiltersAndSort (FlightState.allFlights state) filters'
  /\ FlightState.chartData state'
    = generatePriceChartData (FlightState.filteredFlights state')
  /\ FlightState.allFlights state' = FlightState.allFlights state
  /\ FlightState.absolutePriceRange state'
    = FlightState.absolutePriceRange state
  /\ FlightState.availableAirlines state'
    = FlightState.availableAirlines state
  /\ FlightState.isLoading state' = FlightState.isLoading state
  /\ FlightState.error state' = FlightState.error state
  /\ forall updates : list PartialFilters.t,
      let state'' := runActions (map UpdateFilters updates) state in
      FlightState.allFlights state'' = FlightState.allFlights state
      /\ FlightState.absolutePriceRange state''
         = FlightState.absolutePriceRange state
      /\ FlightState.availableAirlines state''
         = FlightState.availableAirlines state.
Proof.
  cbn zeta. repeat split; try apply runActions_frame.
Qed.

(** ** Filtering *)

Lemma Qlt_bool_iff (x y : Q) : Qlt_bool x y = true <-> (x < y)%Q.
Proof.
  unfold Qlt_bool. rewrite negb_true_iff, <- not_true_iff_false, Qle_bool_iff.
  split; [apply Qnot_le_lt | apply Qlt_not_le].
Qed.

Lemma Qlt_bool_false_iff (x y : Q) : Qlt_bool x y = false <-> (y <= x)%Q.
Proof.
  unfold Qlt_bool. rewrite negb_false_iff. apply Qle_bool_iff.
Qed.

Lemma matchesBucket_iff (flightStops stopCount : Z) :
  matchesBucket flightStops stopCount = true
  <-> (stopCount = 2 /\ 2 <= flightStops)
      \/ (stopCount <> 2 /\ flightStops = stopCount).
Proof.
  unfold matchesBucket. destruct (Z.eqb_spec stopCount 2) as [-> | Hne].
  - rewrite Z.leb_le. intuition lia.
  - rewrite Z.eqb_eq. intuition lia.
Qed.

Lemma length_pos_nonempty {A : Type} (l : list A) :
  (0 <? length l)%nat = false <-> l = [].
Proof. destruct l; unfold Nat.ltb; simpl; split; congruence. Qed.

Lemma includes_iff (x : string) (l : list string) :
  existsb (String.eqb x) l = true <-> In x l.
Proof.
  rewrite existsb_exists. split.
  - intros (y & Hin & Heq). apply String.eqb_eq in Heq. by subst.
  - intros Hin. exists x. split; [done | apply String.eqb_refl].
Qed.

(** The three tests of the callback, as propositions. *)
Lemma passesFilters_iff (filters : FlightFilters.t)
  (flight : FlightCardData.t) :
  passesFilters filters flight = true
  <-> (PriceRange.min (FlightFilters.priceRange filters)
         <= FlightCardData.price flight)%Q
      /\ (FlightCardData.price flight
          <= PriceRange.max (FlightFilters.priceRange filters))%Q
      /\ (FlightFilters.stops filters = []
          \/ exists stopCount, In stopCount (FlightFilters.stops filters)
               /\ ((stopCount = 2 /\ 2 <= FlightCardData.stops flight)
                   \/ (stopCount <> 2
                       /\ FlightCardData.stops flight = stopCount)))
      /\ (FlightFilters.airlines filters = []
          \/ In (FlightCardData.airline flight)
               (FlightFilters.airlines filters)).
Proof.
  unfold passesFilters.
  destruct (Qlt_bool (FlightCardData.price flight) _) eqn:Hlo; simpl.
  { apply Qlt_bool_iff in Hlo. split; [done |].
    intros (H & _). exfalso. by apply (Qlt_not_le _ _ Hlo). }
  destruct (Qlt_bool _ (FlightCardData.price flight)) eqn:Hhi; simpl.
  { apply Qlt_bool_iff in Hhi. split; [done |].
    intros (_ & H & _). exfalso. by apply (Qlt_not_le _ _ Hhi). }
  apply Qlt_bool_false_iff in Hlo, Hhi.
  assert (Hstops :
    ((0 <? length (FlightFilters.stops filters))%nat
     && negb (existsb (matchesBucket (FlightCardData.stops flight))
                (FlightFilters.stops filters))) = false
    <-> (FlightFilters.stops filters = []
         \/ exists stopCount, In stopCount (FlightFilters.stops filters)
              /\ ((stopCount = 2 /\ 2 <= FlightCardData.stops flight)
                  \/ (stopCount <> 2
                      /\ FlightCardData.stops flight = stopCount)))).
  { rewrite andb_false_iff, negb_false_iff, length_pos_nonempty, existsb_exists.
    by setoid_rewrite matchesBucket_iff. }
  assert (Hair :
    ((0 <? length (FlightFilters.airlines filters))%nat
     && negb (existsb (String.eqb (FlightCardData.airline flight))
                (FlightFilters.airlines filters))) = false
    <-> (FlightFilters.airlines filters = []
         \/ In (FlightCardData.airline flight)
              (FlightFilters.airlines filters))).
  { by rewrite andb_false_iff, negb_false_iff, length_pos_nonempty, includes_iff. }
  destruct (_ && negb (existsb (matchesBucket _) _)) eqn:Es.
  { split; [done |]. intros (_ & _ & H & _).
    apply Hstops in H. congruence. }
  destruct (_ && negb (existsb (String.eqb _) _)) eqn:Ea.
  { split; [done |]. intros (_ & _ & _ & H).
    apply Hair in H. congruence. }
  split; [| done]. intros _.
  repeat split; [done | done | by apply Hstops | by apply Hair].
Qed.

(** C3: a flight is in the result of [filterFlights] exactly when it is in
    the input, its price lies in the inclusive range
    [priceRange.min .. priceRange.max], the set of stop buckets is empty or
    one selected bucket matches (the bucket 2 matches two stops or more,
    any other bucket [n] matches exactly [n] stops), and the set of
    airlines is empty or holds the airline name of the flight. *)
Theorem filterFlights_spec (flights : list FlightCardData.t)
  (filters : FlightFilters.t) (flight : FlightCardData.t) :
  In flight (filterFlights flights filters)
  <-> In flight flights
      /\ (PriceRange.min (FlightFilters.priceRange filters)
            <= FlightCardData.price flight)%Q
      /\ (FlightCardData.price flight
            <= PriceRange.max (FlightFilters.priceRange filters))%Q
      /\ (FlightFilters.stops filters = []
          \/ exists stopCount, In stopCount (FlightFilters.stops filters)
               /\ ((stopCount = 2 /\ 2 <= FlightCardData.stops flight)
                   \/ (stopCount <> 2
                       /\ FlightCardData.stops flight = stopCount)))
      /\ (FlightFilters.airlines filters = []
          \/ In (FlightCardData.airline flight)
               (FlightFilters.airlines filters)).
Proof.
  unfold filterFlights. rewrite filter_In, passesFilters_iff. reflexivity.
Qed.

(** The result keeps the order of the input. *)
Lemma filterFlights_sublist (flights : list FlightCardData.t)
  (filters : FlightFilters.t) :
  sublist (filterFlights flights filters) flights.
Proof.
  unfold filterFlights. induction flights as [| f flights IH]; simpl.
  - constructor.
  - destruct (passesFilters filters f); by constructor.
Qed.

(** ** Price bounds *)

Lemma Qmin_cases (x y : Q) :
  (Qmin x y = x /\ (x <= y)%Q) \/ (Qmin x y = y /\ (y <= x)%Q).
Proof.
  unfold Qmin, GenericMinMax.gmin. destruct (x ?= y)%Q eqn:E.
  - left. split; [done |]. apply Qeq_alt in E. rewrite E. apply Qle_refl.
  - left. split; [done |]. apply Qlt_alt in E. by apply Qlt_le_weak.
  - right. split; [done |]. apply Qgt_alt in E. by apply Qlt_le_weak.
Qed.

Lemma Qmax_cases (x y : Q) :
  (Qmax x y = x /\ (y <= x)%Q) \/ (Qmax x y = y /\ (x <= y)%Q).
Proof.
  unfold Qmax, GenericMinMax.gmax. destruct (x ?= y)%Q eqn:E.
  - left. split; [done |]. apply Qeq_alt in E. rewrite E. apply Qle_refl.
  - right. split; [done |]. apply Qlt_alt in E. by apply Qlt_le_weak.
  - left. split; [done |]. apply Qgt_alt in E. by apply Qlt_le_weak.
Qed.

(** [Math.min] returns one of its arguments, below all of them. *)
Lemma Math_min_spec (l : list Q) (x : Q) :
  In (Math_min x l) (x :: l)
  /\ forall p, In p (x :: l) -> (Math_min x l <= p)%Q.
Proof.
  unfold Math_min. revert x. induction l as [| y l IH]; intros x; simpl.
  - split; [by left |]. intros p [<- | []]. apply Qle_refl.
  - specialize (IH (Qmin x y)).
    destruct (Qmin_cases x y) as [(E & Hxy) | (E & Hyx)];
      rewrite E in IH |- *; destruct IH as (Hin & Hle).
    + split.
      * destruct Hin as [<- | Hin]; [by left | by right; right].
      * intros p [<- | [<- | Hp]].
        -- apply Hle. left. reflexivity.
        -- eapply Qle_trans; [apply Hle; left; reflexivity | done].
        -- apply Hle. by right.
    + split.
      * destruct Hin as [<- | Hin]; [by right; left | by right; right].
      * intros p [<- | [<- | Hp]].
        -- eapply Qle_trans; [apply Hle; left; reflexivity | done].
        -- apply Hle. left. reflexivity.
        -- apply Hle. by right.
Qed.

(** [Math.max] returns one of its arguments, above all of them. *)
Lemma Math_max_spec (l : list Q) (x : Q) :
  In (Math_max x l) (x :: l)
  /\ forall p, In p (x :: l) -> (p <= Math_max x l)%Q.
Proof.
  unfold Math_max. revert x. induction l as [| y l IH]; intros x; simpl.
  - split; [by left |]. intros p [<- | []]. apply Qle_refl.
  - specialize (IH (Qmax x y)).
    destruct (Qmax_cases x y) as [(E & Hyx) | (E & Hxy)];
      rewrite E in IH |- *; destruct IH as (Hin & Hle).
    + split.
      * destruct Hin as [<- | Hin]; [by left | by right; right].
      * intros p [<- | [<- | Hp]].
        -- apply Hle. left. reflexivity.
        -- eapply Qle_trans; [done | apply Hle; left; reflexivity].
        -- apply Hle. by right.
    + split.
      * destruct Hin as [<- | Hin]; [by right; left | by right; right].
      * intros p [<- | [<- | Hp]].
        -- eapply Qle_trans; [done | apply Hle; left; reflexivity].
        -- apply Hle. left. reflexivity.
        -- apply Hle. by right.
Qed.

(** The bounds of a non-empty list are the floor of the price of a
    cheapest flight and the ceiling of the price of a dearest flight. *)
Lemma extractPriceRange_nonempty (flights : list FlightCardData.t) :
  flights <> [] ->
  exists lo hi,
    In lo flights /\ In hi flights
    /\ (forall f, In f flights ->
          (FlightCardData.price lo <= FlightCardData.price f)%Q
          /\ (FlightCardData.price f <= FlightCardData.price hi)%Q)
    /\ extractPriceRange flights
       = {| PriceRange.min := inject_Z (Qfloor (FlightCardData.price lo));
            PriceRange.max := inject_Z (Qceiling (FlightCardData.price hi)) |}.
Proof.
  destruct flights as [| f0 flights]; [done | intros _].
  unfold extractPriceRange. simpl map.
  destruct (Math_min_spec (map FlightCardData.price flights)
              (FlightCardData.price f0)) as (Hmin & Hle).
  destruct (Math_max_spec (map FlightCardData.price flights)
              (FlightCardData.price f0)) as (Hmax & Hge).
  change (FlightCardData.price f0 :: map FlightCardData.price flights)
    with (map FlightCardData.price (f0 :: flights)) in *.
  apply in_map_iff in Hmin as (lo & Elo & Hlo).
  apply in_map_iff in Hmax as (hi & Ehi & Hhi).
  exists lo, hi. rewrite <- Elo, <- Ehi in *. repeat split; try done.
  - apply Hle. by apply in_map.
  - apply Hge. by apply in_map.
Qed.

(** C2: [setFlights] stores the list as the working set; the bounds are
    [{min: 0, max: 1000}] for the empty list, and otherwise the floor of
    the least price and the ceiling of the greatest price of the list; the
    filters are the defaults (no stop bucket, no airline, sort by price)
    with [priceRange] equal to these bounds.  [setFlights([])] gives the
    bounds [{min: 0, max: 1000}], an empty current view and an empty list
    of available airlines. *)
Theorem setFlights_bounds (flights : list FlightCardData.t)
  (state : FlightState.t) :
  let state' := setFlights flights state in
  let bounds := FlightState.absolutePriceRange state' in
  match flights with
  | [] => bounds = {| PriceRange.min := 0; PriceRange.max := 1000 |}
  | _ :: _ =>
      exists lo hi,
        In lo flights /\ In hi flights
        /\ (forall f, In f flights ->
              (FlightCardData.price lo <= FlightCardData.price f)%Q
              /\ (FlightCardData.price f <= FlightCardData.price hi)%Q)
        /\ bounds
           = {| PriceRange.min := inject_Z (Qfloor (FlightCardData.price lo));
                PriceRange.max := inject_Z (Qceiling (FlightCardData.price hi)) |}
  end
  /\ FlightState.filters state'
     = {| FlightFilters.priceRange := bounds;
          FlightFilters.stops := [];
          FlightFilters.airlines := [];
          FlightFilters.sortBy := by_price |}
  /\ FlightState.allFlights state' = flights
  /\ FlightState.filteredFlights state'
     = applyFiltersAndSort flights (FlightState.filters state')
  /\ FlightState.absolutePriceRange (setFlights [] state)
     = {| PriceRange.min := 0; PriceRange.max := 1000 |}
  /\ FlightState.filteredFlights (setFlights [] state) = []
  /\ FlightState.availableAirlines (setFlights [] state) = [].
Proof.
  cbn zeta. split; [| repeat split].
  destruct flights as [| f0 flights]; [reflexivity |].
  by apply extractPriceRange_nonempty.
Qed.

(** ** Layovers *)

Lemma append_nil_l (s : string) : "" +:+ s = s.
Proof. reflexivity. Qed.

Lemma append_cons (x : ascii) (a b : string) :
  String x a +:+ b = String x (a +:+ b).
Proof. reflexivity. Qed.

Lemma append_assoc (a b c : string) : (a +:+ b) +:+ c = a +:+ b +:+ c.
Proof.
  induction a as [| x a IH]; [done |]. rewrite !append_cons. by f_equal.
Qed.

Lemma getLayovers_cons (segment next : FlightSegment.t)
  (rest : list FlightSegment.t) :
  getLayovers (segment :: next :: rest)
  = layoverLabel segment next :: getLayovers (next :: rest).
Proof. reflexivity. Qed.

(** One label per adjacent pair of segments. *)
Lemma getLayovers_length (segments : list FlightSegment.t) :
  length (getLayovers segments) = (length segments - 1)%nat.
Proof.
  induction segments as [| a [| b rest] IH]; [done | done |].
  rewrite getLayovers_cons. simpl length in *. rewrite IH. lia.
Qed.

Lemma layoverText_nonpositive (gap : Z) :
  gap <= 0 -> layoverText (Some gap) = pretty (Z.rem gap 60) +:+ "m".
Proof.
  intros Hgap. unfold layoverText.
  assert (gap / 60 <= 0) by (apply Z.div_le_upper_bound; lia).
  destruct (Z.ltb_spec 0 (gap / 60)); [lia | done].
Qed.

(** C6 (as amended): for adjacent segments whose gap is zero or negative,
    the layover label is a value (nothing is raised) and reads
    [AIRPORT (Rm)], where [R] is the remainder of the gap by 60 with the
    sign of the gap: [0] for the gap 0 and for a negative multiple of 60,
    and otherwise a negative number between -59 and -1; the gap is not
    clamped to zero. *)
Theorem layoverLabel_nonpositive_gap (segment next : FlightSegment.t)
  (gap : Z) :
  differenceInMinutes
    (parseISO (Endpoint.at_ (FlightSegment.departure next)))
    (parseISO (Endpoint.at_ (FlightSegment.arrival segment))) = Some gap ->
  gap <= 0 ->
  let airport := Endpoint.iataCode (FlightSegment.arrival segment) in
  layoverLabel segment next
    = airport +:+ " (" +:+ pretty (Z.rem gap 60) +:+ "m)"
  /\ -60 < Z.rem gap 60 <= 0
  /\ (Z.rem gap 60 = 0 <-> (60 | gap))
  /\ (gap = 0 -> layoverLabel segment next = airport +:+ " (0m)")
  /\ (-60 < gap -> layoverLabel segment next
                   = airport +:+ " (" +:+ pretty gap +:+ "m)")
  /\ forall rest, getLayovers (segment :: next :: rest)
                  = layoverLabel segment next :: getLayovers (next :: rest).
Proof.
  intros Hdiff Hgap airport.
  assert (Hlabel : layoverLabel segment next
                   = airport +:+ " (" +:+ pretty (Z.rem gap 60) +:+ "m)").
  { unfold layoverLabel. rewrite Hdiff, layoverText_nonpositive by done.
    fold airport. by rewrite append_assoc. }
  assert (Hrem : -60 < Z.rem gap 60 <= 0).
  { rewrite <- (Z.opp_involutive gap), Z.rem_opp_l'.
    pose proof (Z.rem_bound_pos (- gap) 60). lia. }
  repeat split; try done; try apply Hrem.
  - intros H. apply Z.rem_divide; [lia | done].
  - intros H. apply Z.rem_divide; [lia | done].
  - intros ->. by rewrite Hlabel.
  - intros Hsmall. rewrite Hlabel.
    assert (Z.rem gap 60 = gap) as ->; [| done].
    rewrite <- (Z.opp_involutive gap), Z.rem_opp_l', Z.rem_small; lia.
Qed.

Lemma calculateStops_length (segments : list FlightSegment.t) :
  calculateStops segments = Z.of_nat (length segments - 1).
Proof. unfold calculateStops. lia. Qed.

(** C5 (as amended): for an offer whose first itinerary has three
    segments with connections of 90 and 45 minutes, normalisation gives a
    record with two stops and the layovers [AIRPORT1 (1h 30m)] and
    [AIRPORT2 (45m)], where the airports are those at which the first and
    the second segment arrive; the hours are left out of a layover shorter
    than an hour. *)
Theorem transformFlightOffer_three_segments (offer : FlightOffer.t)
  (carrierDictionary : option (gmap string string))
  (itinerary : FlightItinerary.t) (others : list FlightItinerary.t)
  (a b c : FlightSegment.t) (departureTime arrivalTime : string) :
  FlightOffer.itineraries offer = itinerary :: others ->
  FlightItinerary.segments itinerary = [a; b; c] ->
  differenceInMinutes
    (parseISO (Endpoint.at_ (FlightSegment.departure b)))
    (parseISO (Endpoint.at_ (FlightSegment.arrival a))) = Some 90 ->
  differenceInMinutes
    (parseISO (Endpoint.at_ (FlightSegment.departure c)))
    (parseISO (Endpoint.at_ (FlightSegment.arrival b))) = Some 45 ->
  format (parseISO (Endpoint.at_ (FlightSegment.departure a))) "HH:mm"
    = Ok departureTime ->
  format (parseISO (Endpoint.at_ (FlightSegment.arrival c))) "HH:mm"
    = Ok arrivalTime ->
  let layovers :=
    [ Endpoint.iataCode (FlightSegment.arrival a) +:+ " (1h 30m)";
      Endpoint.iataCode (FlightSegment.arrival b) +:+ " (45m)" ] in
  calculateStops [a; b; c] = 2
  /\ getLayovers [a; b; c] = layovers
  /\ exists flight,
       transformFlightOffer offer carrierDictionary = Ok flight
       /\ FlightCardData.stops flight = 2
       /\ FlightCardData.layovers flight = layovers.
Proof.
  intros Hits Hsegs Hab Hbc Hdep Harr layovers.
  assert (Hlay : getLayovers [a; b; c] = layovers).
  { simpl. unfold layoverLabel. by rewrite Hab, Hbc. }
  split; [done |]. split; [done |].
  unfold transformFlightOffer. rewrite Hits. simpl. rewrite Hsegs. simpl.
  destruct (truthy_opt _); simpl; rewrite Hdep; simpl; rewrite Harr; simpl;
    eexists; (split; [reflexivity |]); simpl; by rewrite <- Hlay.
Qed.

(** ** Malformed offers and batches *)

Lemma map_result_ok {A B : Type} (f : A -> result B) (l : list A) :
  (forall x, In x l -> exists y, f x = Ok y) ->
  exists ys, map_result f l = Ok ys /\ Forall2 (fun x y => f x = Ok y) l ys.
Proof.
  induction l as [| x l IH]; intros Hall; simpl.
  - exists []. by split.
  - destruct (Hall x) as (y & Hy); [by left |].
    destruct IH as (ys & Hys & HF); [intros; apply Hall; by right |].
    exists (y :: ys). rewrite Hy. simpl. rewrite Hys. simpl.
    split; [done | by constructor].
Qed.

Lemma map_result_throw {A B : Type} (f : A -> result B)
  (pre post : list A) (x : A) (e : JsError) :
  (forall o, In o pre -> exists y, f o = Ok y) ->
  f x = Throw e ->
  map_result f (pre ++ x :: post) = Throw e.
Proof.
  induction pre as [| o pre IH]; intros Hpre Hx; simpl.
  - by rewrite Hx.
  - destruct (Hpre o) as (y & Hy); [by left |].
    rewrite Hy. simpl. rewrite IH; [done | | done].
    intros; apply Hpre; by right.
Qed.

(** C1 (as amended): for an offer without itineraries, or whose first
    itinerary has no segments, [transformFlightOffer] throws a [TypeError]
    and builds no record.  [transformFlightOffers] drops and counts
    nothing: a batch in which an offer fails fails as a whole, with the
    error of the first offer that fails, and a batch in which every offer
    normalises gives the records of all its offers, in order. *)
Theorem transformFlightOffers_propagates :
  (forall offer carrierDictionary,
      malformed offer = true ->
      transformFlightOffer offer carrierDictionary = Throw TypeError)
  /\ (forall response before offer after e,
        AmadeusFlightOffersResponse.data response
          = before ++ offer :: after ->
        (forall o, In o before ->
           exists flight,
             transformFlightOffer o
               (AmadeusFlightOffersResponse.carriers response) = Ok flight) ->
        transformFlightOffer offer
          (AmadeusFlightOffersResponse.carriers response) = Throw e ->
        transformFlightOffers response = Throw e)
  /\ (forall response,
        (forall o, In o (AmadeusFlightOffersResponse.data response) ->
           exists flight,
             transformFlightOffer o
               (AmadeusFlightOffersResponse.carriers response) = Ok flight) ->
        exists flights,
          transformFlightOffers response = Ok flights
          /\ Forall2
               (fun o flight =>
                  transformFlightOffer o
                    (AmadeusFlightOffersResponse.carriers response)
                  = Ok flight)
               (AmadeusFlightOffersResponse.data response) flights).
Proof.
  split; [| split].
  - intros offer dict Hmal. unfold malformed in Hmal.
    unfold transformFlightOffer.
    destruct (FlightOffer.itineraries offer) as [| itinerary others];
      [done |].
    destruct (FlightItinerary.segments itinerary) as [| s segs] eqn:Hsegs;
      [| done].
    simpl. rewrite Hsegs. simpl. by destruct (truthy_opt _).
  - intros response before offer after e Hdata Hbefore Hoffer.
    unfold transformFlightOffers. rewrite Hdata.
    by apply map_result_throw.
  - intros response Hall. unfold transformFlightOffers.
    by apply map_result_ok.
Qed.

(** ** Sorting and the working set *)

Lemma sort_insert_perm {A : Type} (compareFn : A -> A -> Q) (x : A)
  (l : list A) :
  sort_insert compareFn x l ≡ₚ x :: l.
Proof.
  induction l as [| y l IH]; simpl; [done |].
  destruct (Qle_bool _ _); [done |].
  rewrite IH. apply Permutation_swap.
Qed.

(** Sorting rearranges the elements and neither adds nor loses one. *)
Lemma array_sort_perm {A : Type} (compareFn : A -> A -> Q) (l : list A) :
  array_sort compareFn l ≡ₚ l.
Proof.
  unfold array_sort. induction l as [| x l IH]; simpl; [done |].
  by rewrite sort_insert_perm, IH.
Qed.

Lemma alloc_spec (v : list FlightCardData.t) (h : heap) :
  h !! (alloc v h).1 = None
  /\ (alloc v h).2 = <[(alloc v h).1 := v]> h.
Proof.
  unfold alloc. simpl. split; [| done].
  apply not_elem_of_dom, is_fresh.
Qed.

(** The heap after [sortFlights]: the heap before and one new array, which
    holds the sorted elements. *)
Lemma sortFlights_ref_spec (flights : loc) (sortBy : SortBy) (h : heap) :
  let r := sortFlights_ref flights sortBy h in
  h !! r.1 = None
  /\ r.2 = <[r.1 := sortFlights (deref h flights) sortBy]> h.
Proof.
  unfold sortFlights_ref, alloc, sortFlights.
  cbv beta iota zeta delta [fst snd]. split.
  - apply not_elem_of_dom, is_fresh.
  - apply map_eq. intros l.
    destruct (decide (l = fresh (dom h))) as [-> | Hne].
    + by rewrite lookup_alter_eq, !lookup_insert_eq.
    + by rewrite lookup_alter_ne, !lookup_insert_ne.
Qed.

Lemma filterFlights_ref_spec (flights : loc) (filters : FlightFilters.t)
  (h : heap) :
  let r := filterFlights_ref flights filters h in
  h !! r.1 = None
  /\ r.2 = <[r.1 := filterFlights (deref h flights) filters]> h.
Proof. apply alloc_spec. Qed.

Lemma deref_insert_eq (h : heap) (l : loc) (v : list FlightCardData.t) :
  deref (<[l := v]> h) l = v.
Proof. unfold deref. by rewrite lookup_insert_eq. Qed.

Lemma deref_weaken (h h' : heap) (l : loc) :
  is_Some (h !! l) -> h ⊆ h' -> deref h' l = deref h l.
Proof.
  intros [v Hv] Hsub. unfold deref.
  by rewrite Hv, (lookup_weaken _ _ _ _ Hv Hsub).
Qed.

(** Filtering and sorting by reference: the arrays of the heap before are
    kept as they are, and the array returned holds the view. *)
Lemma applyFiltersAndSort_ref_spec (flights : loc)
  (filters : FlightFilters.t) (h : heap) :
  let r := applyFiltersAndSort_ref flights filters h in
  h ⊆ r.2
  /\ h !! r.1 = None
  /\ r.2 !! r.1 = Some (applyFiltersAndSort (deref h flights) filters).
Proof.
  unfold applyFiltersAndSort_ref.
  destruct (filterFlights_ref_spec flights filters h) as (Hf1 & Hf2).
  destruct (filterFlights_ref flights filters h) as [result h1] eqn:Ef.
  simpl in Hf1, Hf2.
  destruct (sortFlights_ref_spec result (FlightFilters.sortBy filters) h1)
    as (Hs1 & Hs2).
  destruct (sortFlights_ref result (FlightFilters.sortBy filters) h1)
    as [sorted h2] eqn:Es.
  simpl in Hs1, Hs2. simpl.
  assert (Hsub1 : h ⊆ h1) by (subst h1; by apply insert_subseteq).
  assert (Hsub2 : h1 ⊆ h2) by (subst h2; by apply insert_subseteq).
  split; [by etrans |]. split.
  - destruct (h !! sorted) as [v |] eqn:Hv; [| done].
    by rewrite (lookup_weaken _ _ _ _ Hv Hsub1) in Hs1.
  - rewrite Hs2, lookup_insert_eq. unfold applyFiltersAndSort.
    by rewrite Hf2, deref_insert_eq.
Qed.

Lemma setView_ref_spec (newFilters : FlightFilters.t) (state : RefState.t)
  (h : heap) :
  is_Some (h !! RefState.allFlights state) ->
  let r := setView_ref newFilters state h in
  h ⊆ r.2
  /\ RefState.allFlights r.1 = RefState.allFlights state
  /\ abstract r = setView newFilters (abstract (state, h)).
Proof.
  intros Hall. unfold setView_ref.
  destruct (applyFiltersAndSort_ref_spec (RefState.allFlights state)
              newFilters h) as (Hsub & Hnew & Hview).
  destruct (applyFiltersAndSort_ref _ _ _) as [filtered h1].
  simpl in Hsub, Hnew, Hview. simpl. split; [done |]. split; [done |].
  assert (Hfiltered :
    deref h1 filtered
    = applyFiltersAndSort (deref h (RefState.allFlights state)) newFilters)
    by (unfold deref at 1; by rewrite Hview).
  unfold setView. simpl.
  by rewrite Hfiltered, (deref_weaken h h1).
Qed.

Lemma runAction_ref_spec (a : FilterAction) (sh : RefState.t * heap) :
  is_Some (sh.2 !! RefState.allFlights sh.1) ->
  sh.2 ⊆ (runAction_ref a sh).2
  /\ RefState.allFlights (runAction_ref a sh).1 = RefState.allFlights sh.1
  /\ abstract (runAction_ref a sh) = runAction a (abstract sh).
Proof.
  destruct sh as [state h]. intros Hall. simpl in Hall.
  destruct a as [partialFilters |].
  - exact (setView_ref_spec _ state h Hall).
  - exact (setView_ref_spec _ state h Hall).
Qed.

(** The store on array objects and the store on array values agree, and a
    run of filter actions keeps all arrays that exist before it. *)
Lemma runActions_ref_spec (actions : list FilterAction)
  (sh : RefState.t * heap) :
  is_Some (sh.2 !! RefState.allFlights sh.1) ->
  sh.2 ⊆ (runActions_ref actions sh).2
  /\ RefState.allFlights (runActions_ref actions sh).1
     = RefState.allFlights sh.1
  /\ abstract (runActions_ref actions sh) = runActions actions (abstract sh).
Proof.
  revert sh. induction actions as [| a actions IH]; intros sh Hall.
  - done.
  - destruct (runAction_ref_spec a sh Hall) as (Hsub & Hloc & Habs).
    assert (Hall' : is_Some ((runAction_ref a sh).2
                             !! RefState.allFlights (runAction_ref a sh).1)).
    { rewrite Hloc. destruct Hall as [v Hv]. exists v.
      by apply (lookup_weaken _ _ _ _ Hv Hsub). }
    destruct (IH _ Hall') as (Hsub' & Hloc' & Habs').
    unfold runActions_ref, runActions in *. simpl.
    split; [by etrans |]. split; [congruence |].
    by rewrite Habs', Habs.
Qed.

(** [setFlights] keeps the reference it is given as the working set, and
    agrees with the store on array values. *)
Lemma setFlights_ref_spec (flights : loc) (state : RefState.t) (h : heap) :
  is_Some (h !! flights) ->
  let r := setFlights_ref flights state h in
  h ⊆ r.2
  /\ RefState.allFlights r.1 = flights
  /\ abstract r = setFlights (deref h flights) (abstract (state, h)).
Proof.
  intros Hall. unfold setFlights_ref.
  destruct (applyFiltersAndSort_ref_spec flights
              (withPriceRange (extractPriceRange (deref h flights))) h)
    as (Hsub & Hnew & Hview).
  destruct (applyFiltersAndSort_ref _ _ _) as [filtered h1].
  simpl in Hsub, Hnew, Hview. simpl. split; [done |]. split; [done |].
  assert (Hfiltered :
    deref h1 filtered
    = applyFiltersAndSort (deref h flights)
        (withPriceRange (extractPriceRange (deref h flights))))
    by (unfold deref at 1; by rewrite Hview).
  unfold setFlights. simpl.
  by rewrite Hfiltered, (deref_weaken h h1).
Qed.

(** C10: [sortFlights] returns an array that did not exist before the
    call, holding the sorted elements, a rearrangement of the elements of
    its input; the input array, like every array that existed before,
    holds the same elements in the same order after the call.  So across
    any run of [updateFilters] and [resetFilters] the store refers to the
    same working-set array, and that array holds the same elements in the
    same order. *)
Theorem sortFlights_leaves_input (h : heap) (flights : loc)
  (sortBy : SortBy) (v : list FlightCardData.t) :
  h !! flights = Some v ->
  let r := sortFlights_ref flights sortBy h in
  h !! r.1 = None
  /\ r.1 <> flights
  /\ r.2 !! r.1 = Some (sortFlights v sortBy)
  /\ sortFlights v sortBy ≡ₚ v
  /\ r.2 !! flights = Some v
  /\ (forall l w, h !! l = Some w -> r.2 !! l = Some w)
  /\ forall (actions : list FilterAction) (state : RefState.t),
       RefState.allFlights state = flights ->
       let r' := runActions_ref actions (state, h) in
       RefState.allFlights r'.1 = flights
       /\ r'.2 !! flights = Some v
       /\ FlightState.allFlights (abstract r') = v.
Proof.
  intros Hv r.
  destruct (sortFlights_ref_spec flights sortBy h) as (Hnew & Hheap).
  fold r in Hnew, Hheap.
  assert (Hne : r.1 <> flights) by congruence.
  assert (Hderef : deref h flights = v) by (unfold deref; by rewrite Hv).
  rewrite Hderef in Hheap.
  split; [done |]. split; [done |].
  split; [by rewrite Hheap, lookup_insert_eq |].
  split; [apply array_sort_perm |].
  split; [by rewrite Hheap, lookup_insert_ne |].
  split.
  { intros l w Hl. rewrite Hheap, lookup_insert_ne; [done | congruence]. }
  intros actions state Hstate r'.
  destruct (runActions_ref_spec actions (state, h)) as (Hsub & Hloc & Habs).
  { simpl. rewrite Hstate. by exists v. }
  fold r' in Hsub, Hloc, Habs. simpl in Hsub, Hloc.
  split; [by rewrite Hloc |].
  split; [by apply (lookup_weaken _ _ _ _ Hv Hsub) |].
  rewrite Habs.
  destruct (runActions_frame actions (abstract (state, h))) as (-> & _).
  simpl. by rewrite Hstate.
Qed.

(** ** Duration labels *)

Lemma pretty_N_char_digit (x : N) :
  (x < 10)%N ->
  in_class Digit (pretty_N_char x) = true
  /\ (N_of_ascii (pretty_N_char x) - 48)%N = x.
Proof.
  intros Hx.
  assert (x = 0 \/ x = 1 \/ x = 2 \/ x = 3 \/ x = 4 \/ x = 5 \/ x = 6
          \/ x = 7 \/ x = 8 \/ x = 9)%N as Hcases by lia.
  repeat (destruct Hcases as [-> | Hcases]; [by vm_compute |]).
  subst x. by vm_compute.
Qed.

(** The digits that [pretty_N_go] puts in front of its accumulator. *)
Lemma pretty_N_go_digits (x : N) (s : string) :
  exists ds, pretty_N_go x s = ds +:+ s
             /\ digit_run ds = true
             /\ ((0 < x)%N -> ds <> "").
Proof.
  revert s. induction (N.lt_wf_0 x) as [x _ IH]. intros s.
  destruct (N.eq_dec x 0%N) as [-> | Hx].
  - exists "". rewrite pretty_N_go_0. repeat split; lia.
  - rewrite pretty_N_go_step by lia.
    assert (Hlt : (x `div` 10 < x)%N) by (apply N.div_lt; lia).
    destruct (IH _ Hlt (String (pretty_N_char (x `mod` 10)) s))
      as (ds & E & Hd & _).
    exists (ds +:+ String (pretty_N_char (x `mod` 10)) "").
    rewrite E, append_assoc. repeat split.
    + clear E. induction ds as [| a ds IHds].
      * rewrite append_nil_l. cbn [digit_run]. rewrite andb_true_r.
        apply pretty_N_char_digit, N.mod_lt. lia.
      * rewrite append_cons. cbn [digit_run] in *.
        apply andb_prop in Hd as (Ha & Hd). rewrite Ha. by apply IHds.
    + intros _. by destruct ds.
Qed.

Lemma pretty_N_digits (x : N) :
  digit_run (pretty x) = true /\ pretty x <> "".
Proof.
  unfold pretty, pretty_N. case_decide as Hx; [done |].
  destruct (pretty_N_go_digits x "") as (ds & E & Hd & Hne).
  rewrite E. assert (ds +:+ "" = ds) as ->.
  { clear. induction ds as [| a ds IH]; [done |].
    by rewrite append_cons, IH. }
  split; [done | apply Hne; lia].
Qed.

Lemma parseInt_go_stop (acc : N) (s : string) :
  stops_class Digit s = true -> parseInt_go acc s = acc.
Proof.
  destruct s as [| a s]; [done |]. cbn [stops_class parseInt_go].
  intros H. apply negb_true_iff in H. by rewrite H.
Qed.

Lemma parseInt_go_pretty (x : N) (s : string) :
  parseInt_go 0 (pretty_N_go x s) = parseInt_go x s.
Proof.
  revert s. induction (N.lt_wf_0 x) as [x _ IH]. intros s.
  destruct (N.eq_dec x 0%N) as [-> | Hx].
  - by rewrite pretty_N_go_0.
  - rewrite pretty_N_go_step by lia.
    rewrite IH by (apply N.div_lt; lia).
    destruct (pretty_N_char_digit (x `mod` 10)) as (Hd & Hv).
    { apply N.mod_lt. lia. }
    cbn [parseInt_go]. rewrite Hd, Hv. f_equal.
    rewrite (N.div_mod x 10) at 3 by lia. lia.
Qed.

(** [parseInt] reads back the number that was printed. *)
Lemma parseInt_pretty (x : N) : parseInt (Some (pretty x)) = Some x.
Proof.
  destruct (pretty_N_digits x) as (Hd & Hne).
  unfold parseInt. destruct (pretty x) as [| a s] eqn:E; [done |].
  cbn [digit_run] in Hd. apply andb_prop in Hd as (-> & _). f_equal.
  rewrite <- E. unfold pretty, pretty_N. case_decide as Hx.
  - by subst x.
  - by rewrite parseInt_go_pretty.
Qed.

Lemma string_length_app (a b : string) :
  String.length (a +:+ b) = (String.length a + String.length b)%nat.
Proof.
  induction a as [| x a IH]; [done |].
  rewrite append_cons. simpl. by rewrite IH.
Qed.

Lemma substring_prefix (a b : string) :
  substring 0 (String.length a) (a +:+ b) = a.
Proof.
  induction a as [| x a IH].
  - simpl. by destruct b.
  - rewrite append_cons. simpl. by rewrite IH.
Qed.

Lemma consumed_app (a b : string) : consumed (a +:+ b) b = a.
Proof.
  unfold consumed. rewrite string_length_app.
  replace (String.length a + String.length b - String.length b)%nat
    with (String.length a) by lia.
  apply substring_prefix.
Qed.

(** A greedy run that stops where the continuation succeeds. *)
Lemma cls_star_digits {R : Type} (ds rest : string)
  (k : string -> option R) (r : R) :
  digit_run ds = true -> stops_class Digit rest = true ->
  k rest = Some r ->
  cls_star Digit (ds +:+ rest) k = Some r.
Proof.
  intros Hd Hstop Hk. induction ds as [| a ds IH].
  - rewrite append_nil_l. destruct rest as [| b rest]; [done |].
    cbn [cls_star stops_class] in *.
    apply negb_true_iff in Hstop. by rewrite Hstop.
  - rewrite append_cons. cbn [cls_star digit_run] in *.
    apply andb_prop in Hd as (Ha & Hd). rewrite Ha. by rewrite IH.
Qed.

Lemma rmatch_group_digits {R : Type} (i : nat) (ds rest : string)
  (caps : gmap nat string) (k : string -> gmap nat string -> option R)
  (r : R) :
  digit_run ds = true -> ds <> "" -> stops_class Digit rest = true ->
  k rest (<[i := ds]> caps) = Some r ->
  rmatch (Group i (Plus Digit)) (ds +:+ rest) caps k = Some r.
Proof.
  intros Hd Hne Hstop Hk. cbn [rmatch]. unfold cls_plus.
  destruct ds as [| a ds]; [done |].
  rewrite append_cons. cbn [digit_run] in Hd.
  apply andb_prop in Hd as (Ha & Hd). rewrite Ha.
  apply cls_star_digits; [done | done |].
  rewrite <- append_cons. by rewrite consumed_app.
Qed.

Lemma str_match_here (r : regex) (s : string) (caps : gmap nat string) :
  rmatch r s ∅ (fun _ caps => Some caps) = Some caps ->
  str_match r s = Some caps.
Proof. intros H. destruct s; simpl; by rewrite H. Qed.

Lemma digit_not_space (a : ascii) :
  in_class Digit a = true -> in_class Space a = false.
Proof.
  unfold in_class. intros H. apply andb_prop in H as (H1 & H2).
  apply N.leb_le in H1, H2.
  repeat (apply orb_false_intro); [apply andb_false_intro2 | |];
    first [apply N.leb_gt | apply N.eqb_neq]; lia.
Qed.

(** The equations of the matcher. *)
Lemma rmatch_Seq {R : Type} (r1 r2 : regex) (s : string)
  (caps : gmap nat string) (k : string -> gmap nat string -> option R) :
  rmatch (Seq r1 r2) s caps k
  = rmatch r1 s caps (fun s' caps' => rmatch r2 s' caps' k).
Proof. reflexivity. Qed.

Lemma rmatch_Lit {R : Type} (c a : ascii) (s : string)
  (caps : gmap nat string) (k : string -> gmap nat string -> option R) :
  rmatch (Lit c) (String a s) caps k
  = if Ascii.eqb a c then k s caps else None.
Proof. reflexivity. Qed.

Lemma rmatch_Opt {R : Type} (r : regex) (s : string)
  (caps : gmap nat string) (k : string -> gmap nat string -> option R) :
  rmatch (Opt r) s caps k
  = match rmatch r s caps k with
    | Some x => Some x
    | None => k s caps
    end.
Proof. reflexivity. Qed.

Lemma rmatch_Star {R : Type} (c : cclass) (s : string)
  (caps : gmap nat string) (k : string -> gmap nat string -> option R) :
  rmatch (Star c) s caps k = cls_star c s (fun s' => k s' caps).
Proof. reflexivity. Qed.

Lemma rmatch_Group {R : Type} (i : nat) (r : regex) (s : string)
  (caps : gmap nat string) (k : string -> gmap nat string -> option R) :
  rmatch (Group i r) s caps k
  = rmatch r s caps (fun s' caps' => k s' (<[i := consumed s s']> caps')).
Proof. reflexivity. Qed.

Lemma cls_star_cons {R : Type} (c : cclass) (a : ascii) (s : string)
  (k : string -> option R) :
  cls_star c (String a s) k
  = if in_class c a then
      match cls_star c s k with
      | Some r => Some r
      | None => k (String a s)
      end
    else k (String a s).
Proof. reflexivity. Qed.

(** The capture groups of the label [{h}h {m}m]. *)
Lemma str_match_hours_minutes (H M : string) :
  digit_run H = true -> H <> "" -> digit_run M = true -> M <> "" ->
  str_match re_duration_label (H +:+ "h " +:+ M +:+ "m")
  = Some (<[2%nat := M]> (<[1%nat := H]> ∅)).
Proof.
  intros HdH HneH HdM HneM. apply str_match_here.
  unfold re_duration_label. rewrite rmatch_Seq.
  apply rmatch_group_digits; [done | done | done |].
  change ("h " +:+ M +:+ "m") with (String "h" (String " " (M +:+ "m"))).
  rewrite rmatch_Seq, rmatch_Lit, Ascii.eqb_refl.
  rewrite rmatch_Seq, rmatch_Star, cls_star_cons.
  change (in_class Space " ") with true. cbv iota.
  assert (Hstar : forall (k : string -> option (gmap nat string)),
             cls_star Space (M +:+ "m") k = k (M +:+ "m")).
  { intros k. destruct M as [| a M]; [done |].
    cbn [digit_run] in HdM. apply andb_prop in HdM as (Ha & _).
    by rewrite append_cons, cls_star_cons, (digit_not_space a Ha). }
  rewrite Hstar, rmatch_Seq, rmatch_Opt.
  by rewrite (rmatch_group_digits 2 M "m" _ _
                (<[2%nat := M]> (<[1%nat := H]> ∅))).
Qed.

(** The capture groups of the label [{h}h]. *)
Lemma str_match_hours (H : string) :
  digit_run H = true -> H <> "" ->
  str_match re_duration_label (H +:+ "h") = Some (<[1%nat := H]> ∅).
Proof.
  intros HdH HneH. apply str_match_here.
  unfold re_duration_label. rewrite rmatch_Seq.
  by apply rmatch_group_digits.
Qed.

Lemma num_or_0_Some (x : N) : num_or_0 (Some x) = x.
Proof.
  unfold num_or_0, truthy_num. destruct (N.eqb_spec x 0); by subst.
Qed.

(** The label [{h}h {m}m] parses to [h * 60 + m] minutes. *)
Lemma parseDurationToMinutes_hours_minutes (h m : N) :
  parseDurationToMinutes (pretty h +:+ "h " +:+ pretty m +:+ "m")
  = (h * 60 + m)%N.
Proof.
  destruct (pretty_N_digits h) as (HdH & HneH).
  destruct (pretty_N_digits m) as (HdM & HneM).
  unfold parseDurationToMinutes.
  rewrite str_match_hours_minutes by done.
  rewrite lookup_insert_ne, !lookup_insert_eq by done.
  by rewrite !parseInt_pretty, !num_or_0_Some.
Qed.

(** The label [{h}h] parses to [h * 60] minutes. *)
Lemma parseDurationToMinutes_hours (h : N) :
  parseDurationToMinutes (pretty h +:+ "h") = (h * 60)%N.
Proof.
  destruct (pretty_N_digits h) as (HdH & HneH).
  unfold parseDurationToMinutes.
  rewrite str_match_hours by done.
  rewrite lookup_insert_eq, lookup_insert_ne, lookup_empty by done.
  rewrite parseInt_pretty, num_or_0_Some.
  change (num_or_0 (parseInt None)) with 0%N. lia.
Qed.

(** The rendered form of [PT2H30M] parses to 150 minutes. *)
Lemma duration_round_trip :
  parseDuration "PT2H30M" = "2h 30m"
  /\ parseDurationToMinutes (parseDuration "PT2H30M") = 150%N.
Proof. split; by vm_compute. Qed.

Lemma lacks_app (c : ascii) (a b : string) :
  lacks c (a +:+ b) = lacks c a && lacks c b.
Proof.
  induction a as [| x a IH]; [done |].
  rewrite append_cons. cbn [lacks]. by rewrite IH, andb_assoc.
Qed.

Lemma digit_run_lacks (c : ascii) (s : string) :
  in_class Digit c = false -> digit_run s = true -> lacks c s = true.
Proof.
  intros Hc. induction s as [| a s IH]; [done |]. cbn [digit_run lacks].
  intros (Ha & Hs)%andb_prop. rewrite (IH Hs), andb_true_r.
  destruct (Ascii.eqb_spec a c) as [-> | _]; [congruence | done].
Qed.

(** A greedy run fails when the continuation fails wherever the run may
    stop. *)
Lemma cls_star_none {R : Type} (c : cclass) (x : ascii) (s : string)
  (k : string -> option R) :
  lacks x s = true ->
  (forall s', lacks x s' = true -> k s' = None) ->
  cls_star c s k = None.
Proof.
  intros Hs Hk. induction s as [| a s IH]; [by apply Hk |].
  rewrite cls_star_cons. pose proof (Hk _ Hs) as Hhere.
  cbn [lacks] in Hs. apply andb_prop in Hs as (_ & Hs).
  rewrite (IH Hs), Hhere. by destruct (in_class c a).
Qed.

Lemma rmatch_Lit_none {R : Type} (x : ascii) (s : string)
  (caps : gmap nat string) (k : string -> gmap nat string -> option R) :
  lacks x s = true -> rmatch (Lit x) s caps k = None.
Proof.
  destruct s as [| a s]; [done |]. cbn [lacks]. intros (Ha & _)%andb_prop.
  apply negb_true_iff in Ha. by rewrite rmatch_Lit, Ha.
Qed.

(** Digits do not match [(\d+)] followed by something that fails on
    every string without the character [x], in a string without [x]. *)
Lemma rmatch_group_none {R : Type} (i : nat) (x : ascii) (s : string)
  (caps : gmap nat string) (k : string -> gmap nat string -> option R) :
  lacks x s = true ->
  (forall s' caps', lacks x s' = true -> k s' caps' = None) ->
  rmatch (Group i (Plus Digit)) s caps k = None.
Proof.
  intros Hs Hk. rewrite rmatch_Group. cbn [rmatch].
  unfold cls_plus. destruct s as [| a s]; [done |].
  destruct (in_class Digit a); [| done].
  cbn [lacks] in Hs. apply andb_prop in Hs as (_ & Hs).
  apply (cls_star_none Digit x); [done |].
  intros s' Hs'. by apply Hk.
Qed.

(** A string without the letter [h] has no match for the pattern of
    [parseDurationToMinutes]. *)
Lemma str_match_label_none (s : string) :
  lacks "h" s = true -> str_match re_duration_label s = None.
Proof.
  induction s as [| a s IH]; intros Hs.
  - reflexivity.
  - cbn [str_match]. unfold re_duration_label at 1.
    rewrite rmatch_Seq, (rmatch_group_none 1 "h"); [| done |].
    2:{ intros s' caps' Hs'. by rewrite rmatch_Seq, rmatch_Lit_none. }
    cbn [lacks] in Hs. apply andb_prop in Hs as (_ & Hs). by apply IH.
Qed.

(** The rendering of a duration of minutes only. *)
Lemma parseDuration_minutes_only (minutes : N) :
  (0 < minutes)%N ->
  parseDuration ("PT" +:+ pretty minutes +:+ "M") = pretty minutes +:+ "m".
Proof.
  intros Hpos. destruct (pretty_N_digits minutes) as (Hd & Hne).
  assert (Hm : str_match re_iso_duration ("PT" +:+ pretty minutes +:+ "M")
               = Some (<[2%nat := pretty minutes]> ∅)).
  { apply str_match_here. unfold re_iso_duration.
    change ("PT" +:+ pretty minutes +:+ "M")
      with (String "P" (String "T" (pretty minutes +:+ "M"))).
    rewrite rmatch_Seq, rmatch_Lit, Ascii.eqb_refl.
    rewrite rmatch_Seq, rmatch_Lit, Ascii.eqb_refl.
    rewrite rmatch_Seq, rmatch_Opt.
    rewrite rmatch_Seq, (rmatch_group_none 1 "H").
    2:{ rewrite lacks_app, (digit_run_lacks "H") by done. done. }
    2:{ intros s' caps' Hs'. by rewrite rmatch_Lit_none. }
    rewrite rmatch_Opt, rmatch_Seq.
    by rewrite (rmatch_group_digits 2 (pretty minutes) "M" _ _
                  (<[2%nat := pretty minutes]> ∅)). }
  unfold parseDuration. rewrite Hm.
  rewrite lookup_insert_ne, lookup_empty, lookup_insert_eq by done.
  assert (truthy_opt (Some (pretty minutes)) = true) as ->.
  { cbn [truthy_opt]. by apply truthy_str_nonempty. }
  rewrite parseInt_pretty. cbn [truthy_opt truthy_num default].
  change (0 =? 0)%N with true. cbn [negb andb].
  destruct (N.eqb_spec minutes 0) as [-> | _]; [lia | done].
Qed.

(** A label of minutes only has no match and counts as 0 minutes. *)
Lemma parseDurationToMinutes_minutes (m : N) :
  parseDurationToMinutes (pretty m +:+ "m") = 0%N.
Proof.
  unfold parseDurationToMinutes. rewrite str_match_label_none; [done |].
  rewrite lacks_app, (digit_run_lacks "h"); [done | done |].
  apply pretty_N_digits.
Qed.

(** A duration of [m] minutes, rendered and parsed back, is 0 minutes. *)
Lemma minutes_only_round_trip (minutes : N) :
  (0 < minutes)%N ->
  parseDurationToMinutes (parseDuration ("PT" +:+ pretty minutes +:+ "M"))
  = 0%N.
Proof.
  intros Hpos. rewrite parseDuration_minutes_only by done.
  apply parseDurationToMinutes_minutes.
Qed.

(** C7: the labels [{h}h {m}m] and [{h}h] parse to [h * 60 + m] minutes
    and the rendered form of [PT2H30M] parses to 150 minutes, but a label
    [{m}m] of minutes only parses to 0 minutes and not to [m]: the pattern
    of [parseDurationToMinutes] needs the hours.  The label ["45m"], which
    is how [parseDuration] renders [PT45M], parses to 0. *)
Theorem parseDurationToMinutes_minutes_only (h m : N) :
  parseDurationToMinutes (pretty h +:+ "h " +:+ pretty m +:+ "m")
    = (h * 60 + m)%N
  /\ parseDurationToMinutes (pretty h +:+ "h") = (h * 60)%N
  /\ parseDurationToMinutes (parseDuration "PT2H30M") = 150%N
  /\ parseDurationToMinutes (pretty m +:+ "m") = 0%N
  /\ parseDuration "PT45M" = "45m"
  /\ parseDurationToMinutes "45m" = 0%N.
Proof.
  split; [apply parseDurationToMinutes_hours_minutes |].
  split; [apply parseDurationToMinutes_hours |].
  split; [apply duration_round_trip |].
  split; [apply parseDurationToMinutes_minutes |].
  split; by vm_compute.
Qed.


(** * Further properties of the transformers and of the store *)

(** ** [Array.prototype.sort] with a consistent comparator *)

Section Sorting.

Context {A : Type}.
Variable compareFn : A -> A -> Q.

(** [a] may stand before [b]. *)
Let before (a b : A) : Prop := Qle_bool (compareFn a b) 0 = true.

Hypothesis before_total : forall a b, before a b \/ before b a.
Hypothesis before_trans : forall a b c, before a b -> before b c -> before a c.

Lemma sort_insert_sorted (x : A) (l : list A) :
  StronglySorted before l -> StronglySorted before (sort_insert compareFn x l).
Proof.
  induction 1 as [| y l Hsorted IH Hy]; simpl.
  - repeat constructor.
  - destruct (Qle_bool (compareFn x y) 0) eqn:Hxy.
    + constructor; [by constructor |].
      constructor; [done |].
      eapply Forall_impl; [exact Hy |]. intros z Hyz. by eapply before_trans.
    + constructor; [done |].
      rewrite (sort_insert_perm compareFn x l). constructor; [| done].
      destruct (before_total x y) as [H | H]; [| done].
      unfold before in H. congruence.
Qed.

Lemma array_sort_sorted (l : list A) :
  StronglySorted before (array_sort compareFn l).
Proof.
  unfold array_sort. induction l as [| x l IH]; simpl.
  - constructor.
  - by apply sort_insert_sorted.
Qed.

End Sorting.

Lemma StronglySorted_weaken {A : Type} (R R' : A -> A -> Prop) (l : list A) :
  (forall a b, R a b -> R' a b) -> StronglySorted R l -> StronglySorted R' l.
Proof.
  intros Himpl. induction 1 as [| x l Hsorted IH Hx]; constructor; [done |].
  eapply Forall_impl; [exact Hx | auto].
Qed.

(** Elements that the comparator does not tell apart keep their order. *)
Lemma array_sort_stable {A : Type} (compareFn : A -> A -> Q)
  (P : A -> bool) (l : list A) :
  (forall x y, P x = true -> P y = true ->
               Qle_bool (compareFn x y) 0 = true) ->
  List.filter P (array_sort compareFn l) = List.filter P l.
Proof.
  intros Hsame. unfold array_sort.
  assert (Hins : forall x l', List.filter P (sort_insert compareFn x l')
                              = List.filter P (x :: l')).
  { intros x l'. induction l' as [| y l' IH]; [done |].
    cbn [sort_insert]. destruct (Qle_bool (compareFn x y) 0) eqn:Hxy; [done |].
    cbn [List.filter] in *. rewrite IH.
    destruct (P x) eqn:Px, (P y) eqn:Py; try done.
    rewrite Hsame in Hxy; done. }
  induction l as [| x l IH]; [done |].
  cbn [foldr]. rewrite Hins. cbn [List.filter]. by rewrite IH.
Qed.

Lemma Qminus_le_0 (a b : Q) : (a - b <= 0)%Q <-> (a <= b)%Q.
Proof.
  rewrite <- (Qplus_le_l _ _ b).
  assert (E1 : (a - b + b == a)%Q) by ring.
  assert (E2 : (0 + b == b)%Q) by ring.
  by rewrite E1, E2.
Qed.

Lemma compareBy_price_le (a b : FlightCardData.t) :
  Qle_bool (compareBy by_price a b) 0 = true
  <-> (FlightCardData.price a <= FlightCardData.price b)%Q.
Proof. cbn [compareBy]. by rewrite Qle_bool_iff, Qminus_le_0. Qed.

Lemma compareBy_duration_le (a b : FlightCardData.t) :
  Qle_bool (compareBy by_duration a b) 0 = true
  <-> (parseDurationToMinutes (FlightCardData.duration a)
       <= parseDurationToMinutes (FlightCardData.duration b))%N.
Proof.
  cbn [compareBy]. rewrite Qle_bool_iff.
  change 0%Q with (inject_Z 0). rewrite <- Zle_Qle. lia.
Qed.

(** X1: [sortFlights] by price returns the flights in ascending order of
    price, and by duration in ascending order of the minutes that
    [parseDurationToMinutes] reads from the duration label; in both cases
    the result is a rearrangement of the input. *)
Theorem sortFlights_sorted (flights : list FlightCardData.t) :
  StronglySorted
    (fun a b => (FlightCardData.price a <= FlightCardData.price b)%Q)
    (sortFlights flights by_price)
  /\ StronglySorted
       (fun a b =>
          (parseDurationToMinutes (FlightCardData.duration a)
           <= parseDurationToMinutes (FlightCardData.duration b))%N)
       (sortFlights flights by_duration)
  /\ sortFlights flights by_price ≡ₚ flights
  /\ sortFlights flights by_duration ≡ₚ flights.
Proof.
  split; [| split; [| split; apply array_sort_perm]].
  - apply (StronglySorted_weaken
             (fun a b => Qle_bool (compareBy by_price a b) 0 = true)).
    { intros a b. apply compareBy_price_le. }
    apply array_sort_sorted.
    + intros a b. rewrite !compareBy_price_le.
      destruct (Qlt_le_dec (FlightCardData.price b) (FlightCardData.price a));
        [right; by apply Qlt_le_weak | by left].
    + intros a b c. rewrite !compareBy_price_le. apply Qle_trans.
  - apply (StronglySorted_weaken
             (fun a b => Qle_bool (compareBy by_duration a b) 0 = true)).
    { intros a b. apply compareBy_duration_le. }
    apply array_sort_sorted.
    + intros a b. rewrite !compareBy_duration_le. lia.
    + intros a b c. rewrite !compareBy_duration_le. lia.
Qed.

(** X2: [sortFlights] is stable: among the flights of one price, sorting by
    price keeps the order of the input, and so does sorting by duration
    among the flights whose labels parse to the same number of minutes. *)
Theorem sortFlights_stable (flights : list FlightCardData.t) :
  (forall p : Q,
      List.filter (fun f => Qeq_bool (FlightCardData.price f) p)
        (sortFlights flights by_price)
      = List.filter (fun f => Qeq_bool (FlightCardData.price f) p) flights)
  /\ (forall m : N,
        List.filter
          (fun f => N.eqb (parseDurationToMinutes (FlightCardData.duration f)) m)
          (sortFlights flights by_duration)
        = List.filter
            (fun f => N.eqb (parseDurationToMinutes (FlightCardData.duration f)) m)
            flights).
Proof.
  split.
  - intros p. apply array_sort_stable. intros x y Hx Hy.
    apply Qeq_bool_iff in Hx, Hy. apply compareBy_price_le.
    rewrite Hx, Hy. apply Qle_refl.
  - intros m. apply array_sort_stable. intros x y Hx Hy.
    apply N.eqb_eq in Hx, Hy. apply compareBy_duration_le. lia.
Qed.

(** X3: when [localeCompare] orders strings consistently (any two strings
    are comparable, and the order is transitive), [sortFlights] by departure
    and by arrival return the flights in ascending order of the time label
    for [localeCompare]. *)
Theorem sortFlights_by_time_sorted (flights : list FlightCardData.t) :
  (forall a b, localeCompare a b <= 0 \/ localeCompare b a <= 0) ->
  (forall a b c, localeCompare a b <= 0 -> localeCompare b c <= 0 ->
                 localeCompare a c <= 0) ->
  StronglySorted
    (fun a b => localeCompare (FlightCardData.departureTime a)
                  (FlightCardData.departureTime b) <= 0)
    (sortFlights flights by_departure)
  /\ StronglySorted
       (fun a b => localeCompare (FlightCardData.arrivalTime a)
                     (FlightCardData.arrivalTime b) <= 0)
       (sortFlights flights by_arrival).
Proof.
  intros Htotal Htrans.
  assert (Hle : forall z : Z, Qle_bool (inject_Z z) 0 = true <-> z <= 0).
  { intros z. rewrite Qle_bool_iff. change 0%Q with (inject_Z 0).
    by rewrite <- Zle_Qle. }
  split.
  - apply (StronglySorted_weaken
             (fun a b => Qle_bool (compareBy by_departure a b) 0 = true)).
    { intros a b. apply Hle. }
    apply array_sort_sorted.
    + intros a b. cbn [compareBy]. rewrite !Hle. apply Htotal.
    + intros a b c. cbn [compareBy]. rewrite !Hle. apply Htrans.
  - apply (StronglySorted_weaken
             (fun a b => Qle_bool (compareBy by_arrival a b) 0 = true)).
    { intros a b. apply Hle. }
    apply array_sort_sorted.
    + intros a b. cbn [compareBy]. rewrite !Hle. apply Htotal.
    + intros a b c. cbn [compareBy]. rewrite !Hle. apply Htrans.
Qed.

(** ** The airline list *)

Lemma set_from_In (seen l : list string) (a : string) :
  In a (set_from seen l) <-> In a l /\ ~ In a seen.
Proof.
  clear parseISO format differenceInMinutes parseFloat localeCompare.
  revert seen. induction l as [| x l IH]; intros seen; cbn [set_from].
  - simpl. tauto.
  - destruct (existsb (String.eqb x) seen) eqn:Hx.
    + apply includes_iff in Hx. rewrite IH. simpl.
      split; [tauto |]. intros [[-> | H] Hn]; tauto.
    + assert (Hnx : ~ In x seen).
      { intros H. apply includes_iff in H. congruence. }
      simpl. rewrite IH. simpl.
      destruct (String.eq_dec x a) as [-> | Hne]; [tauto |].
      split; [tauto |]. intros [[? | H] Hn]; [done |]. right. tauto.
Qed.

Lemma set_from_NoDup (seen l : list string) : List.NoDup (set_from seen l).
Proof.
  clear parseISO format differenceInMinutes parseFloat localeCompare.
  revert seen. induction l as [| x l IH]; intros seen; cbn [set_from].
  - constructor.
  - destruct (existsb (String.eqb x) seen); [apply IH |].
    constructor; [| apply IH].
    rewrite set_from_In. simpl. tauto.
Qed.

Lemma default_compare_le (a b : string) :
  Qle_bool (default_compare a b) 0 = true <-> String.le a b.
Proof.
  unfold default_compare, String.le, String.leb.
  destruct (String.compare a b); simpl; split; done.
Qed.

(** X4: the airline list that [extractUniqueAirlines] returns holds exactly
    the airline names of the flights, each once, in ascending order of code
    units. *)
Theorem extractUniqueAirlines_spec (flights : list FlightCardData.t) :
  (forall a, In a (extractUniqueAirlines flights)
             <-> exists f, In f flights /\ FlightCardData.airline f = a)
  /\ List.NoDup (extractUniqueAirlines flights)
  /\ StronglySorted String.le (extractUniqueAirlines flights).
Proof.
  clear parseISO format differenceInMinutes parseFloat localeCompare.
  unfold extractUniqueAirlines.
  pose proof (array_sort_perm default_compare
                (set_from [] (map FlightCardData.airline flights))) as Hperm.
  split; [| split].
  - intros a. rewrite <- !list_elem_of_In, Hperm, !list_elem_of_In.
    rewrite set_from_In, in_map_iff. simpl.
    split; [intros [(f & ? & ?) _]; eauto | intros (f & ? & ?); eauto].
  - apply NoDup_ListNoDup. rewrite Hperm. apply NoDup_ListNoDup, set_from_NoDup.
  - apply (StronglySorted_weaken
             (fun a b => Qle_bool (default_compare a b) 0 = true)).
    { intros a b. apply default_compare_le. }
    apply array_sort_sorted.
    + intros a b. rewrite !default_compare_le. apply total, _.
    + intros a b c. rewrite !default_compare_le. apply transitivity.
Qed.

(** ** Bounds and the initial view *)

(** Every price lies within the bounds of a non-empty list. *)
Lemma extractPriceRange_within (flights : list FlightCardData.t)
  (f : FlightCardData.t) :
  In f flights ->
  (PriceRange.min (extractPriceRange flights) <= FlightCardData.price f)%Q
  /\ (FlightCardData.price f <= PriceRange.max (extractPriceRange flights))%Q.
Proof.
  intros Hf. assert (Hne : flights <> []) by (intros ->; done).
  destruct (extractPriceRange_nonempty flights Hne)
    as (lo & hi & Hlo & Hhi & Hall & Hb).
  rewrite Hb. cbn [PriceRange.min PriceRange.max].
  destruct (Hall f Hf) as (H1 & H2). split.
  - eapply Qle_trans; [apply Qfloor_le | done].
  - eapply Qle_trans; [done | apply Qle_ceiling].
Qed.

(** X5: the bounds that [extractPriceRange] computes for a non-empty list
    are whole numbers that enclose every price of the list, each less than
    1 away from the least and from the greatest price. *)
Theorem extractPriceRange_encloses (flights : list FlightCardData.t) :
  flights <> [] ->
  let bounds := extractPriceRange flights in
  (forall f, In f flights ->
     (PriceRange.min bounds <= FlightCardData.price f)%Q
     /\ (FlightCardData.price f <= PriceRange.max bounds)%Q)
  /\ (PriceRange.min bounds <= PriceRange.max bounds)%Q
  /\ (exists lo hi,
        In lo flights /\ In hi flights
        /\ (FlightCardData.price lo < PriceRange.min bounds + 1)%Q
        /\ (PriceRange.max bounds - 1 < FlightCardData.price hi)%Q)
  /\ (exists lo hi : Z,
        PriceRange.min bounds = inject_Z lo
        /\ PriceRange.max bounds = inject_Z hi).
Proof.
  intros Hne bounds.
  split; [intros f Hf; by apply extractPriceRange_within |].
  destruct (extractPriceRange_nonempty flights Hne)
    as (lo & hi & Hlo & Hhi & Hall & Hb).
  split.
  { destruct (extractPriceRange_within flights lo Hlo) as (H1 & H2).
    by eapply Qle_trans. }
  subst bounds. rewrite Hb. cbn [PriceRange.min PriceRange.max].
  split; [| by eexists _, _].
  exists lo, hi. split; [done |]. split; [done |]. split.
  - pose proof (Qlt_floor (FlightCardData.price lo)) as H.
    by rewrite inject_Z_plus in H.
  - pose proof (Qceiling_lt (FlightCardData.price hi)) as H.
    unfold Z.sub in H. rewrite inject_Z_plus in H. exact H.
Qed.

Lemma filter_all {A : Type} (P : A -> bool) (l : list A) :
  (forall x, In x l -> P x = true) -> List.filter P l = l.
Proof.
  induction l as [| x l IH]; intros H; [done |]. simpl.
  rewrite (H x) by (by left). f_equal. apply IH. intros; apply H; by right.
Qed.

(** X6: right after [setFlights] no flight is filtered out: the current
    view is the whole working set sorted by price, and the chart has one
    point per flight. *)
Theorem setFlights_shows_all (flights : list FlightCardData.t)
  (state : FlightState.t) :
  let state' := setFlights flights state in
  FlightState.filteredFlights state' = sortFlights flights by_price
  /\ FlightState.filteredFlights state' ≡ₚ flights
  /\ length (FlightState.chartData state') = length flights
  /\ map PriceDataPoint.flightId (FlightState.chartData state')
     = map FlightCardData.id (FlightState.filteredFlights state').
Proof.
  cbn zeta.
  assert (Hview : FlightState.filteredFlights (setFlights flights state)
                  = sortFlights flights by_price).
  { unfold setFlights, applyFiltersAndSort. cbn [FlightState.filteredFlights].
    f_equal. unfold filterFlights. apply filter_all. intros f Hf.
    apply passesFilters_iff. cbn.
    destruct (extractPriceRange_within flights f Hf). auto. }
  assert (Hchart : FlightState.chartData (setFlights flights state)
                   = generatePriceChartData
                       (FlightState.filteredFlights (setFlights flights state)))
    by reflexivity.
  rewrite Hchart, Hview. unfold generatePriceChartData.
  rewrite length_map, map_map.
  split; [done |]. split; [apply array_sort_perm |].
  split; [apply Permutation_length, array_sort_perm | done].
Qed.

(** ** The store as a state machine *)

Lemma dispatch_coherent (a : StoreAction) (state : FlightState.t) :
  coherent state -> coherent (dispatch a state).
Proof.
  intros (Hview & Hchart & Hair & Hbounds).
  destruct a; unfold coherent; cbn; by repeat split; auto.
Qed.

Lemma dispatchAll_coherent (actions : list StoreAction)
  (state : FlightState.t) :
  coherent state -> coherent (dispatchAll actions state).
Proof.
  revert state. induction actions as [| a actions IH]; intros state H; [done |].
  apply (IH (dispatch a state)). by apply dispatch_coherent.
Qed.

(** X7: whatever actions are dispatched from the initial state, in any
    order, the store stays coherent: the current view is the working set
    filtered and sorted by the current filters, the chart has the points of
    the view, the airline list is that of the working set, and every flight
    of the view is a flight of the working set. *)
Theorem store_coherent (actions : list StoreAction) :
  let state := dispatchAll actions initialState in
  FlightState.filteredFlights state
    = applyFiltersAndSort (FlightState.allFlights state)
        (FlightState.filters state)
  /\ FlightState.chartData state
     = generatePriceChartData (FlightState.filteredFlights state)
  /\ FlightState.availableAirlines state
     = extractUniqueAirlines (FlightState.allFlights state)
  /\ (forall f, In f (FlightState.filteredFlights state) ->
                In f (FlightState.allFlights state))
  /\ (length (FlightState.filteredFlights state)
      <= length (FlightState.allFlights state))%nat.
Proof.
  intros state.
  assert (Hc : coherent state).
  { apply dispatchAll_coherent. repeat split. by right. }
  destruct Hc as (Hview & Hchart & Hair & _).
  split; [done |]. split; [done |]. split; [done |].
  rewrite Hview. unfold applyFiltersAndSort, sortFlights.
  split.
  - intros f Hf. apply list_elem_of_In in Hf.
    rewrite array_sort_perm in Hf. apply list_elem_of_In in Hf.
    by apply filterFlights_spec in Hf as (? & _).
  - rewrite (Permutation_length (array_sort_perm _ _)).
    apply sublist_length, filterFlights_sublist.
Qed.

Lemma runAction_flags (a : FilterAction) (state : FlightState.t) :
  FlightState.isLoading (runAction a state) = FlightState.isLoading state
  /\ FlightState.error (runAction a state) = FlightState.error state.
Proof. by destruct a. Qed.

Lemma runActions_flags (actions : list FilterAction) (state : FlightState.t) :
  FlightState.isLoading (runActions actions state)
    = FlightState.isLoading state
  /\ FlightState.error (runActions actions state) = FlightState.error state.
Proof.
  revert state. induction actions as [| a actions IH]; intros state; [done |].
  unfold runActions in *. simpl.
  destruct (IH (runAction a state)) as (H1 & H2).
  destruct (runAction_flags a state) as (F1 & F2).
  rewrite H1, H2. auto.
Qed.

(** X8: after a search is ingested, [resetFilters] undoes any run of filter
    updates and resets: the store is again exactly as [setFlights] left
    it. *)
Theorem resetFilters_restores (actions : list FilterAction)
  (flights : list FlightCardData.t) (state : FlightState.t) :
  resetFilters (runActions actions (setFlights flights state))
  = setFlights flights state.
Proof.
  destruct (runActions_frame actions (setFlights flights state))
    as (Hall & Hbounds & Hair).
  destruct (runActions_flags actions (setFlights flights state))
    as (Hload & Herr).
  unfold resetFilters, setView. rewrite Hall, Hbounds, Hair, Hload, Herr.
  reflexivity.
Qed.

Lemma filter_sublist_impl {A : Type} (P P' : A -> bool) (l : list A) :
  (forall x, P' x = true -> P x = true) ->
  sublist (List.filter P' l) (List.filter P l).
Proof.
  intros Himpl. induction l as [| x l IH]; simpl; [constructor |].
  destruct (P' x) eqn:HP'.
  - rewrite (Himpl x HP'). by constructor.
  - destruct (P x); [by constructor | done].
Qed.

(** X9: narrowing the price range never brings a flight into the view:
    after [updateFilters] with a range inside the range of the update
    before, every flight of the view was in the view before, and the view
    is not longer. *)
Theorem updateFilters_narrowing (state : FlightState.t)
  (wide narrow : PriceRange.t) :
  (PriceRange.min wide <= PriceRange.min narrow)%Q ->
  (PriceRange.max narrow <= PriceRange.max wide)%Q ->
  let before := updateFilters (onlyPriceRange wide) state in
  let after := updateFilters (onlyPriceRange narrow) before in
  (forall f, In f (FlightState.filteredFlights after) ->
             In f (FlightState.filteredFlights before))
  /\ (length (FlightState.filteredFlights after)
      <= length (FlightState.filteredFlights before))%nat.
Proof.
  intros Hmin Hmax before after.
  set (fw := mergeFilters (FlightState.filters state) (onlyPriceRange wide)).
  set (fn := mergeFilters fw (onlyPriceRange narrow)).
  assert (Hb : FlightState.filteredFlights before
               = applyFiltersAndSort (FlightState.allFlights state) fw)
    by reflexivity.
  assert (Ha : FlightState.filteredFlights after
               = applyFiltersAndSort (FlightState.allFlights state) fn)
    by reflexivity.
  assert (Hsub : sublist (filterFlights (FlightState.allFlights state) fn)
                   (filterFlights (FlightState.allFlights state) fw)).
  { apply filter_sublist_impl. intros f. rewrite !passesFilters_iff. cbn.
    intros (H1 & H2 & H3 & H4). repeat split; try done.
    - by eapply Qle_trans.
    - by eapply Qle_trans. }
  rewrite Ha, Hb. unfold applyFiltersAndSort, sortFlights. split.
  - intros f Hf. apply list_elem_of_In in Hf. apply list_elem_of_In.
    rewrite array_sort_perm in *. by eapply elem_of_sublist.
  - rewrite !(Permutation_length (array_sort_perm _ _)).
    by apply sublist_length.
Qed.

(** X10: the search page's [fetchFlights].  [setError(null)] resets the
    loading flag that [setLoading(true)] has just set, so [isLoading] is
    false while the reply is awaited, and it is false afterwards.  A reply
    that is not a success ([response.ok], [data.success] and [data.data])
    leaves the working set, the filters and the view of the store as they
    are and records an error message; a success replaces the working set
    and clears the error.  This holds whatever filter actions run while the
    reply is awaited. *)
Theorem fetchFlights_outcome (reply : FetchReply)
  (actions : list FilterAction) (state : FlightState.t) :
  let waiting := runActions actions (beginFetch state) in
  let state' := finishFetch reply waiting in
  FlightState.isLoading (beginFetch state) = false
  /\ FlightState.isLoading state' = false
  /\ match reply with
     | FetchReplied true _ true (Some flights) =>
         state' = setFlights flights waiting
         /\ FlightState.allFlights state' = flights
         /\ FlightState.error state' = None
     | _ =>
         FlightState.allFlights state' = FlightState.allFlights state
         /\ FlightState.filters state' = FlightState.filters waiting
         /\ FlightState.filteredFlights state'
            = FlightState.filteredFlights waiting
         /\ exists message, FlightState.error state' = Some message
     end.
Proof.
  intros waiting state'.
  assert (Hall : FlightState.allFlights waiting = FlightState.allFlights state).
  { unfold waiting. by destruct (runActions_frame actions (beginFetch state))
      as (-> & _). }
  split; [done |]. subst state'.
  destruct reply as [message | [|] error [|] [flights |]]; cbn;
    repeat split; try done; eauto.
Qed.

(** ** The handlers of the filter panel *)

Section Toggle.

Context {A : Type}.
Variable eqb : A -> A -> bool.
Hypothesis eqb_eq : forall a b, eqb a b = true <-> a = b.

Lemma indexOf_None (x : A) (l : list A) :
  indexOf eqb x l = None <-> ~ In x l.
Proof.
  induction l as [| y l IH]; simpl; [tauto |].
  destruct (eqb y x) eqn:E.
  - apply eqb_eq in E. split; [done |]. intros H. exfalso. apply H. by left.
  - assert (y <> x) by (intros Heq; apply eqb_eq in Heq; congruence).
    rewrite fmap_None, IH. tauto.
Qed.

Lemma indexOf_Some (x : A) (l : list A) (i : nat) :
  indexOf eqb x l = Some i ->
  exists l1 l2, l = l1 ++ x :: l2 /\ length l1 = i /\ ~ In x l1.
Proof.
  revert i. induction l as [| y l IH]; intros i; simpl; [done |].
  destruct (eqb y x) eqn:E.
  - apply eqb_eq in E as ->. intros [= <-]. exists [], l.
    repeat split. intros [].
  - assert (y <> x) by (intros Heq; apply eqb_eq in Heq; congruence).
    destruct (indexOf eqb x l) as [j |]; [| done]. simpl. intros [= <-].
    destruct (IH j eq_refl) as (l1 & l2 & -> & <- & Hn).
    exists (y :: l1), l2. repeat split. simpl. intros [? | ?]; done.
Qed.

Lemma splice1_middle (l1 l2 : list A) (x : A) :
  splice1 (length l1) (l1 ++ x :: l2) = l1 ++ l2.
Proof.
  unfold splice1. induction l1 as [| y l1 IH]; simpl.
  - by rewrite drop_0.
  - by rewrite IH.
Qed.

Lemma toggle_absent (x : A) (l : list A) :
  ~ In x l -> toggle eqb x l = l ++ [x].
Proof. intros H. unfold toggle. by apply indexOf_None in H as ->. Qed.

Lemma toggle_present (x : A) (l : list A) :
  In x l ->
  exists l1 l2, l = l1 ++ x :: l2 /\ ~ In x l1 /\ toggle eqb x l = l1 ++ l2.
Proof.
  intros Hin. unfold toggle.
  destruct (indexOf eqb x l) as [i |] eqn:E.
  - destruct (indexOf_Some x l i E) as (l1 & l2 & -> & <- & Hn).
    exists l1, l2. by rewrite splice1_middle.
  - by apply indexOf_None in E.
Qed.

Lemma toggle_facts (x : A) (l : list A) :
  List.NoDup l ->
  List.NoDup (toggle eqb x l)
  /\ (In x (toggle eqb x l) <-> ~ In x l)
  /\ (forall y, y <> x -> In y (toggle eqb x l) <-> In y l)
  /\ toggle eqb x (toggle eqb x l) ≡ₚ l
  /\ (~ In x l -> toggle eqb x (toggle eqb x l) = l).
Proof.
  intros Hnd.
  assert (Hdec : In x l \/ ~ In x l).
  { destruct (indexOf eqb x l) eqn:E.
    - left. destruct (indexOf_Some _ _ _ E) as (l1 & l2 & -> & _).
      apply in_or_app. right. by left.
    - right. by apply indexOf_None. }
  destruct Hdec as [Hin | Hnin].
  - destruct (toggle_present x l Hin) as (l1 & l2 & -> & Hn1 & ->).
    apply NoDup_ListNoDup in Hnd.
    apply NoDup_app in Hnd as (Hnd1 & Hdisj & Hnd2).
    apply NoDup_cons in Hnd2 as (Hn2 & Hnd2).
    rewrite <- list_elem_of_In in Hn1. 
    assert (Hn : ~ In x (l1 ++ l2)).
    { rewrite <- list_elem_of_In, elem_of_app. tauto. }
    split.
    { apply NoDup_ListNoDup, NoDup_app. repeat split; [done | | done].
      intros y Hy1 Hy2. apply (Hdisj y Hy1). by right. }
    split; [tauto |]. split.
    { intros y Hy. rewrite !in_app_iff. simpl. split; [tauto |].
      intros [? | [? | ?]]; [tauto | congruence | tauto]. }
    split; [| tauto].
    rewrite (toggle_absent x (l1 ++ l2) Hn).
    rewrite <- app_assoc. apply Permutation_app_head.
    symmetry. apply Permutation_cons_append.
  - rewrite (toggle_absent x l Hnin).
    assert (Htwice : toggle eqb x (l ++ [x]) = l).
    { unfold toggle.
      destruct (indexOf eqb x (l ++ [x])) as [i |] eqn:E.
      - destruct (indexOf_Some _ _ _ E) as (l1 & l2 & Heq & <- & Hn1).
        destruct l2 as [| z l2].
        + apply app_inj_tail in Heq as (<- & _).
          change (l ++ [x]) with (l ++ x :: []).
          by rewrite splice1_middle, app_nil_r.
        + exfalso. apply Hnin.
          assert (Hx : In x (removelast (l ++ [x]))).
          { rewrite Heq. rewrite removelast_app by done.
            apply in_or_app. right. simpl. by left. }
          by rewrite removelast_last in Hx.
      - apply indexOf_None in E. exfalso. apply E, in_or_app. right. by left. }
    split.
    { apply NoDup_ListNoDup, NoDup_app. apply NoDup_ListNoDup in Hnd.
      repeat split; [done | | apply NoDup_singleton].
      intros y Hy ->%list_elem_of_singleton. by apply list_elem_of_In in Hy. }
    split.
    { split; [done |]. intros _. apply in_or_app. right. by left. }
    split.
    { intros y Hy. rewrite in_app_iff. simpl. split; [| tauto].
      intros [? | [? | []]]; [done | congruence]. }
    rewrite Htwice. done.
Qed.

(** X11: the toggle behind the stop and airline check boxes, on a list
    without repetition: the value toggled changes sides (it is in the new
    list exactly when it was not in the old one), every other value stays
    where it was, the new list has no repetition, and toggling the same value
    twice gives back the same values. *)
Theorem toggle_spec (x : A) (l : list A) :
  List.NoDup l ->
  List.NoDup (toggle eqb x l)
  /\ (In x (toggle eqb x l) <-> ~ In x l)
  /\ (forall y, y <> x -> In y (toggle eqb x l) <-> In y l)
  /\ toggle eqb x (toggle eqb x l) ≡ₚ l
  /\ (~ In x l -> toggle eqb x (toggle eqb x l) = l).
Proof. apply toggle_facts. Qed.

End Toggle.

Lemma existsb_perm {A : Type} (P : A -> bool) (l1 l2 : list A) :
  l1 ≡ₚ l2 -> existsb P l1 = existsb P l2.
Proof.
  induction 1 as [| x l1 l2 _ IH | x y l | l1 l2 l3 _ IH1 _ IH2]; simpl.
  - done.
  - by rewrite IH.
  - by destruct (P x), (P y).
  - by rewrite IH1.
Qed.

(** The filter tests read the stop buckets and the airlines as sets. *)
Lemma passesFilters_perm (f1 f2 : FlightFilters.t) (flight : FlightCardData.t) :
  FlightFilters.priceRange f1 = FlightFilters.priceRange f2 ->
  FlightFilters.stops f1 ≡ₚ FlightFilters.stops f2 ->
  FlightFilters.airlines f1 ≡ₚ FlightFilters.airlines f2 ->
  passesFilters f1 flight = passesFilters f2 flight.
Proof.
  intros Hr Hs Ha. unfold passesFilters.
  by rewrite Hr, (existsb_perm _ _ _ Hs), (existsb_perm _ _ _ Ha),
    (Permutation_length Hs), (Permutation_length Ha).
Qed.

Lemma applyFiltersAndSort_perm (flights : list FlightCardData.t)
  (f1 f2 : FlightFilters.t) :
  FlightFilters.priceRange f1 = FlightFilters.priceRange f2 ->
  FlightFilters.stops f1 ≡ₚ FlightFilters.stops f2 ->
  FlightFilters.airlines f1 ≡ₚ FlightFilters.airlines f2 ->
  FlightFilters.sortBy f1 = FlightFilters.sortBy f2 ->
  applyFiltersAndSort flights f1 = applyFiltersAndSort flights f2.
Proof.
  intros Hr Hs Ha Hk. unfold applyFiltersAndSort, filterFlights.
  rewrite Hk. f_equal. apply filter_ext. intros flight.
  by apply passesFilters_perm.
Qed.

(** X12: ticking a stop box or an airline box twice gives back the view:
    when the selected buckets (the selected airlines) hold no value twice,
    after two calls of [handleStopsChange] ([handleAirlineChange]) with the
    same value the selection holds the same values, and the current view
    is the working set filtered and sorted by the filters from before the
    two calls. *)
Theorem handlers_toggle_twice (state : FlightState.t) :
  (forall stopCount,
      List.NoDup (FlightFilters.stops (FlightState.filters state)) ->
      let state' := handleStopsChange stopCount
                      (handleStopsChange stopCount state) in
      FlightFilters.stops (FlightState.filters state')
        ≡ₚ FlightFilters.stops (FlightState.filters state)
      /\ FlightState.filteredFlights state'
         = applyFiltersAndSort (FlightState.allFlights state)
             (FlightState.filters state))
  /\ (forall airline,
        List.NoDup (FlightFilters.airlines (FlightState.filters state)) ->
        let state' := handleAirlineChange airline
                        (handleAirlineChange airline state) in
        FlightFilters.airlines (FlightState.filters state')
          ≡ₚ FlightFilters.airlines (FlightState.filters state)
        /\ FlightState.filteredFlights state'
           = applyFiltersAndSort (FlightState.allFlights state)
               (FlightState.filters state)).
Proof.
  split.
  - intros stopCount Hnd state'.
    destruct (toggle_facts Z.eqb Z.eqb_eq stopCount _ Hnd)
      as (_ & _ & _ & Hperm & _).
    split; [exact Hperm |].
    change (FlightState.filteredFlights state')
      with (applyFiltersAndSort (FlightState.allFlights state)
              (FlightState.filters state')).
    by apply applyFiltersAndSort_perm.
  - intros airline Hnd state'.
    destruct (toggle_facts String.eqb String.eqb_eq airline _ Hnd)
      as (_ & _ & _ & Hperm & _).
    split; [exact Hperm |].
    change (FlightState.filteredFlights state')
      with (applyFiltersAndSort (FlightState.allFlights state)
              (FlightState.filters state')).
    by apply applyFiltersAndSort_perm.
Qed.

(** ** The chart: grouping by departure time *)

Lemma mergePoint_new (acc : list PriceDataPoint.t) (x : PriceDataPoint.t) :
  ~ In (PriceDataPoint.time x) (map PriceDataPoint.time acc) ->
  mergePoint acc x = acc ++ [x].
Proof.
  induction acc as [| item acc IH]; intros Hn; [done |]. cbn [mergePoint].
  destruct (String.eqb_spec (PriceDataPoint.time item) (PriceDataPoint.time x))
    as [E | _].
  - exfalso. apply Hn. left. done.
  - rewrite IH; [done |]. intros H. apply Hn. by right.
Qed.

Lemma mergePoint_times (acc : list PriceDataPoint.t) (x : PriceDataPoint.t) :
  In (PriceDataPoint.time x) (map PriceDataPoint.time acc) ->
  map PriceDataPoint.time (mergePoint acc x) = map PriceDataPoint.time acc.
Proof.
  induction acc as [| item acc IH]; intros Hin; [done |]. cbn [mergePoint].
  destruct (String.eqb_spec (PriceDataPoint.time item) (PriceDataPoint.time x))
    as [E | Hne].
  - by destruct (Qlt_bool _ _).
  - cbn [map]. f_equal. apply IH. destruct Hin as [? | ?]; [congruence | done].
Qed.

(** Where a point of [mergePoint acc x] comes from. *)
Lemma mergePoint_elem (acc : list PriceDataPoint.t)
  (x item' : PriceDataPoint.t) :
  List.NoDup (map PriceDataPoint.time acc) ->
  In item' (mergePoint acc x) ->
  (In item' acc /\ PriceDataPoint.time item' <> PriceDataPoint.time x)
  \/ (item' = x /\ ~ In (PriceDataPoint.time x) (map PriceDataPoint.time acc))
  \/ (exists item,
        In item acc
        /\ PriceDataPoint.time item = PriceDataPoint.time x
        /\ PriceDataPoint.time item' = PriceDataPoint.time x
        /\ PriceDataPoint.airline item' = PriceDataPoint.airline item
        /\ PriceDataPoint.stops item' = PriceDataPoint.stops item
        /\ (((PriceDataPoint.price x < PriceDataPoint.price item)%Q
             /\ PriceDataPoint.price item' = PriceDataPoint.price x
             /\ PriceDataPoint.flightId item' = PriceDataPoint.flightId x)
            \/ ((PriceDataPoint.price item <= PriceDataPoint.price x)%Q
                /\ item' = item))).
Proof.
  induction acc as [| item acc IH]; intros Hnd Hin.
  - destruct Hin as [<- | []]. right. left. split; [done | intros []].
  - cbn [map] in Hnd. apply List.NoDup_cons_iff in Hnd as (Hfresh & Hnd).
    cbn [mergePoint] in Hin.
    destruct (String.eqb_spec (PriceDataPoint.time item) (PriceDataPoint.time x))
      as [E | Hne].
    + destruct Hin as [<- | Hin].
      * right. right. exists item. split; [by left |].
        destruct (Qlt_bool _ _) eqn:Hlt.
        -- apply Qlt_bool_iff in Hlt. cbn. repeat split; try done. by left.
        -- apply Qlt_bool_false_iff in Hlt. repeat split; try done. by right.
      * left. split; [by right |]. intros Heq. apply Hfresh.
        rewrite E, <- Heq. by apply in_map.
    + destruct Hin as [<- | Hin]; [left; split; [by left | done] |].
      destruct (IH Hnd Hin) as [(? & ?) | [(-> & Hn) | (it & Hit & Hrest)]].
      * left. split; [by right | done].
      * right. left. split; [done |]. intros [? | ?]; done.
      * right. right. exists it. split; [by right | done].
Qed.

Lemma find_app_Some {A : Type} (P : A -> bool) (l k : list A) (x : A) :
  List.find P l = Some x -> List.find P (l ++ k) = Some x.
Proof.
  induction l as [| y l IH]; [done |]. simpl. by destruct (P y).
Qed.

Lemma find_app_None {A : Type} (P : A -> bool) (l k : list A) :
  (forall y, In y l -> P y = false) ->
  List.find P (l ++ k) = List.find P k.
Proof.
  induction l as [| y l IH]; intros H; [done |]. simpl.
  rewrite (H y) by (by left). apply IH. intros; apply H; by right.
Qed.

(** What the grouping keeps of the points handled so far. *)
Lemma groupByTime_inv (chartData : list PriceDataPoint.t) :
  let grouped := groupByTime chartData in
  List.NoDup (map PriceDataPoint.time grouped)
  /\ (forall p, In p chartData ->
        In (PriceDataPoint.time p) (map PriceDataPoint.time grouped))
  /\ (forall item, In item grouped ->
        (exists first,
            firstAt (PriceDataPoint.time item) chartData = Some first
            /\ PriceDataPoint.airline item = PriceDataPoint.airline first
            /\ PriceDataPoint.stops item = PriceDataPoint.stops first)
        /\ (forall p, In p chartData ->
              PriceDataPoint.time p = PriceDataPoint.time item ->
              (PriceDataPoint.price item <= PriceDataPoint.price p)%Q)
        /\ (exists p, In p chartData
              /\ PriceDataPoint.time p = PriceDataPoint.time item
              /\ PriceDataPoint.price p = PriceDataPoint.price item
              /\ PriceDataPoint.flightId p = PriceDataPoint.flightId item)).
Proof.
  unfold groupByTime.
  induction chartData as [| x l IH] using rev_ind.
  - cbn. split; [constructor |]. split; intros ? [].
  - rewrite fold_left_app. cbn [fold_left].
    set (acc := fold_left mergePoint l []) in *.
    cbn zeta in IH. destruct IH as (Hnd & Hcover & Hitems).
    assert (Hdec : In (PriceDataPoint.time x) (map PriceDataPoint.time acc)
                   \/ ~ In (PriceDataPoint.time x) (map PriceDataPoint.time acc)).
    { destruct (in_dec String.eq_dec (PriceDataPoint.time x)
                  (map PriceDataPoint.time acc)); tauto. }
    assert (Hnone : ~ In (PriceDataPoint.time x) (map PriceDataPoint.time acc) ->
                    forall y, In y l ->
                      String.eqb (PriceDataPoint.time y) (PriceDataPoint.time x)
                      = false).
    { intros Hn y Hy. apply String.eqb_neq. intros E. apply Hn.
      rewrite <- E. by apply Hcover. }
    cbn zeta. split; [| split].
    + destruct Hdec as [Hin | Hn].
      * by rewrite mergePoint_times.
      * rewrite mergePoint_new, map_app by done. cbn [map].
        apply NoDup_ListNoDup, NoDup_app. apply NoDup_ListNoDup in Hnd.
        repeat split; [done | | apply NoDup_singleton].
        intros t Ht ->%list_elem_of_singleton. by apply list_elem_of_In in Ht.
    + intros p Hp. apply in_app_or in Hp.
      destruct Hdec as [Hin | Hn].
      * rewrite mergePoint_times by done.
        destruct Hp as [Hp | [<- | []]]; [by apply Hcover | done].
      * rewrite mergePoint_new, map_app by done. apply in_or_app.
        destruct Hp as [Hp | [<- | []]]; [left; by apply Hcover |].
        right. by left.
    + intros item' Hitem'.
      destruct (mergePoint_elem acc x item' Hnd Hitem')
        as [(Hold & Htime) | [(-> & Hn) | (item & Hitem & Et & Et' & Ea & Es & Hcase)]].
      * destruct (Hitems item' Hold) as ((first & Hfirst & Hfa) & Hmin & Hwit).
        split; [| split].
        -- exists first. split; [| done]. by apply find_app_Some.
        -- intros p Hp Etp. apply in_app_or in Hp as [Hp | [<- | []]];
             [by apply Hmin | congruence].
        -- destruct Hwit as (p & Hp & Hrest). exists p.
           split; [apply in_or_app; by left | done].
      * split; [| split].
        -- exists x. split; [| done]. unfold firstAt.
           rewrite find_app_None by (by apply Hnone).
           cbn. by rewrite String.eqb_refl.
        -- intros p Hp Etp. apply in_app_or in Hp as [Hp | [<- | []]].
           ++ specialize (Hnone Hn p Hp). apply String.eqb_neq in Hnone. done.
           ++ apply Qle_refl.
        -- exists x. split; [apply in_or_app; right; by left | done].
      * destruct (Hitems item Hitem) as ((first & Hfirst & Hfa & Hfs) & Hmin & Hwit).
        split; [| split].
        -- exists first. rewrite Et', <- Et. split; [by apply find_app_Some |].
           split; congruence.
        -- intros p Hp Etp. rewrite Et', <- Et in Etp.
           apply in_app_or in Hp as [Hp | [<- | []]].
           ++ specialize (Hmin p Hp Etp).
              destruct Hcase as [(Hlt & -> & _) | (_ & ->)]; [| done].
              eapply Qle_trans; [by apply Qlt_le_weak | done].
           ++ destruct Hcase as [(_ & -> & _) | (Hle & ->)];
                [apply Qle_refl | done].
        -- destruct Hcase as [(Hlt & Ep & Ef) | (_ & ->)].
           ++ exists x. split; [apply in_or_app; right; by left |].
              split; [congruence | done].
           ++ destruct Hwit as (p & Hp & Hrest). exists p.
              split; [apply in_or_app; by left | done].
Qed.

(** X13: the chart groups the points by departure time.  [groupedData] has
    one point per time that occurs; the price of that point is the lowest
    price at that time and its [flightId] is that of a flight with this
    price at this time, while its airline and its stop count are those of
    the first point of the view with this time, which need not be the
    cheapest one. *)
Theorem groupedData_spec (chartData : list PriceDataPoint.t) :
  let grouped := groupedData chartData in
  List.NoDup (map PriceDataPoint.time grouped)
  /\ (forall p, In p chartData ->
        exists item, In item grouped
          /\ PriceDataPoint.time item = PriceDataPoint.time p
          /\ (PriceDataPoint.price item <= PriceDataPoint.price p)%Q)
  /\ (forall item, In item grouped ->
        (exists p, In p chartData
           /\ PriceDataPoint.time p = PriceDataPoint.time item
           /\ PriceDataPoint.price p = PriceDataPoint.price item
           /\ PriceDataPoint.flightId p = PriceDataPoint.flightId item)
        /\ (exists first,
              firstAt (PriceDataPoint.time item) chartData = Some first
              /\ PriceDataPoint.airline item = PriceDataPoint.airline first
              /\ PriceDataPoint.stops item = PriceDataPoint.stops first))
  /\ (length grouped <= length chartData)%nat.
Proof.
  intros grouped.
  destruct (groupByTime_inv chartData) as (Hnd & Hcover & Hitems).
  assert (Hperm : grouped ≡ₚ groupByTime chartData) by apply array_sort_perm.
  assert (Hin : forall item, In item grouped <-> In item (groupByTime chartData)).
  { intros item. by rewrite <- !list_elem_of_In, Hperm. }
  split; [| split; [| split]].
  - apply NoDup_ListNoDup. rewrite Hperm. by apply NoDup_ListNoDup.
  - intros p Hp. specialize (Hcover p Hp).
    apply in_map_iff in Hcover as (item & Et & Hitem).
    exists item. split; [by apply Hin |]. split; [done |].
    destruct (Hitems item Hitem) as (_ & Hmin & _). by apply Hmin.
  - intros item Hitem. apply Hin in Hitem.
    destruct (Hitems item Hitem) as (Hfirst & _ & Hwit). by split.
  - rewrite (Permutation_length Hperm), <- (length_map PriceDataPoint.time),
      <- (length_map PriceDataPoint.time chartData).
    apply NoDup_incl_length; [done |].
    intros t Ht. apply in_map_iff in Ht as (item & <- & Hitem).
    destruct (Hitems item Hitem) as (_ & _ & (p & Hp & Et & _)).
    rewrite <- Et. by apply in_map.
Qed.

(** ** The normalised record *)

Lemma getLayovers_count (segments : list FlightSegment.t) :
  Z.of_nat (length (getLayovers segments)) = calculateStops segments.
Proof. rewrite getLayovers_length, calculateStops_length. done. Qed.

(** The carrier that [transformFlightOffer] takes as primary. *)
Lemma getAirlineName_nonempty (carrierCode : string)
  (dictionaries : option (gmap string string)) :
  carrierCode <> "" -> getAirlineName carrierCode dictionaries <> "".
Proof.
  intros Hne. unfold getAirlineName, or_else.
  destruct (dictEntry carrierCode dictionaries) as [[| c s] |];
    destruct (AIRLINE_NAMES !! carrierCode) as [[| c' s'] |];
    cbn; try done; by destruct carrierCode.
Qed.

Lemma transformFlightOffer_fields (offer : FlightOffer.t)
  (carrierDictionary : option (gmap string string))
  (flight : FlightCardData.t) :
  transformFlightOffer offer carrierDictionary = Ok flight ->
  exists itinerary first last,
    FlightOffer.itineraries offer !! 0%nat = Some itinerary
    /\ FlightItinerary.segments itinerary !! 0%nat = Some first
    /\ list.last (FlightItinerary.segments itinerary) = Some last
    /\ FlightCardData.id flight = FlightOffer.id offer
    /\ FlightCardData.stops flight
       = Z.of_nat (length (FlightItinerary.segments itinerary)) - 1
    /\ Z.of_nat (length (FlightCardData.layovers flight))
       = FlightCardData.stops flight
    /\ length (FlightCardData.segments flight)
       = length (FlightItinerary.segments itinerary)
    /\ FlightCardData.departureAirport flight
       = Endpoint.iataCode (FlightSegment.departure first)
    /\ FlightCardData.arrivalAirport flight
       = Endpoint.iataCode (FlightSegment.arrival last)
    /\ FlightCardData.duration flight
       = parseDuration (FlightItinerary.duration itinerary)
    /\ (let primaryCarrier :=
          match FlightOffer.validatingAirlineCodes offer with
          | code :: _ =>
              if truthy_str code then code else FlightSegment.carrierCode first
          | [] => FlightSegment.carrierCode first
          end in
        FlightCardData.airline flight
          = getAirlineName primaryCarrier carrierDictionary
        /\ FlightCardData.airlineLogo flight = AIRLINE_LOGO_URL primaryCarrier).
Proof.
  unfold transformFlightOffer. intros H.
  destruct (FlightOffer.itineraries offer) as [| itinerary others]; [done |].
  change ((itinerary :: others) !! 0%nat) with (Some itinerary) in H.
  cbn [mbind result_bind prop_of] in H. cbv zeta in H.
  destruct (FlightItinerary.segments itinerary) as [| first rest] eqn:Hsegs.
  { cbn in H. by destruct (truthy_opt _). }
  assert (Hlast : exists last,
             list.last (first :: rest) = Some last
             /\ (first :: rest) !! (length (first :: rest) - 1)%nat = Some last).
  { destruct (list.last (first :: rest)) as [last |] eqn:E.
    - exists last. split; [done |]. by rewrite Nat.sub_1_r, <- last_lookup.
    - by apply last_None in E. }
  destruct Hlast as (last & Hlast' & Hlast).
  rewrite Hlast in H.
  change ((first :: rest) !! 0%nat) with (Some first) in H.
  cbn [mbind result_bind prop_of] in H.
  set (primaryCarrier :=
         match FlightOffer.validatingAirlineCodes offer with
         | code :: _ =>
             if truthy_str code then code else FlightSegment.carrierCode first
         | [] => FlightSegment.carrierCode first
         end).
  assert (Hprimary :
    (if truthy_opt (FlightOffer.validatingAirlineCodes offer !! 0%nat)
     then Ok (default "" (FlightOffer.validatingAirlineCodes offer !! 0%nat))
     else Ok (FlightSegment.carrierCode first))
    = Ok primaryCarrier).
  { subst primaryCarrier.
    destruct (FlightOffer.validatingAirlineCodes offer) as [| code codes];
      [done |]. cbn. by destruct (truthy_str code). }
  rewrite Hprimary in H. cbn [mbind result_bind] in H.
  destruct (format (parseISO (Endpoint.at_ (FlightSegment.departure first)))
              "HH:mm") as [departureTime | e]; [| done].
  destruct (format (parseISO (Endpoint.at_ (FlightSegment.arrival last)))
              "HH:mm") as [arrivalTime | e]; [| done].
  injection H as <-.
  exists itinerary, first, last.
  rewrite Hsegs. cbn [FlightCardData.id FlightCardData.stops
    FlightCardData.layovers FlightCardData.segments
    FlightCardData.departureAirport FlightCardData.arrivalAirport
    FlightCardData.duration FlightCardData.airline FlightCardData.airlineLogo].
  repeat split; try done.
  - unfold calculateStops. cbn [length]. lia.
  - change (match rest with
            | [] => []
            | next :: _ => layoverLabel first next :: getLayovers rest
            end) with (getLayovers (first :: rest)).
    apply getLayovers_count.
  - cbn [length]. by rewrite length_map.
Qed.

(** X14: the record that [transformFlightOffer] returns, when it returns
    one: it is built from the first itinerary, which has a segment; the stop
    count is the number of segments minus one and equals the number of
    layovers; there is one segment record per segment; the airports are the
    origin of the first segment and the destination of the last; and the
    airline is the name of the first validating airline code, or of the
    carrier of the first segment when that code is missing or empty. *)
Theorem transformFlightOffer_record (offer : FlightOffer.t)
  (carrierDictionary : option (gmap string string))
  (flight : FlightCardData.t) :
  transformFlightOffer offer carrierDictionary = Ok flight ->
  exists itinerary first last,
    FlightOffer.itineraries offer !! 0%nat = Some itinerary
    /\ FlightItinerary.segments itinerary !! 0%nat = Some first
    /\ list.last (FlightItinerary.segments itinerary) = Some last
    /\ FlightCardData.id flight = FlightOffer.id offer
    /\ FlightCardData.stops flight
       = Z.of_nat (length (FlightItinerary.segments itinerary)) - 1
    /\ Z.of_nat (length (FlightCardData.layovers flight))
       = FlightCardData.stops flight
    /\ length (FlightCardData.segments flight)
       = length (FlightItinerary.segments itinerary)
    /\ FlightCardData.departureAirport flight
       = Endpoint.iataCode (FlightSegment.departure first)
    /\ FlightCardData.arrivalAirport flight
       = Endpoint.iataCode (FlightSegment.arrival last)
    /\ FlightCardData.duration flight
       = parseDuration (FlightItinerary.duration itinerary)
    /\ (let primaryCarrier :=
          match FlightOffer.validatingAirlineCodes offer with
          | code :: _ =>
              if truthy_str code then code else FlightSegment.carrierCode first
          | [] => FlightSegment.carrierCode first
          end in
        FlightCardData.airline flight
          = getAirlineName primaryCarrier carrierDictionary
        /\ FlightCardData.airlineLogo flight = AIRLINE_LOGO_URL primaryCarrier).
Proof. apply transformFlightOffer_fields. Qed.

(** X15: a time stamp that [format] refuses makes the whole normalisation
    fail.  For an offer whose first itinerary has a segment, the error that
    [format] throws for the departure of the first segment, or else for the
    arrival of the last segment, is the error of [transformFlightOffer];
    when both are formatted the record is returned with these two labels. *)
Theorem transformFlightOffer_times (offer : FlightOffer.t)
  (carrierDictionary : option (gmap string string))
  (itinerary : FlightItinerary.t) (others : list FlightItinerary.t)
  (first last : FlightSegment.t) (rest : list FlightSegment.t) :
  FlightOffer.itineraries offer = itinerary :: others ->
  FlightItinerary.segments itinerary = first :: rest ->
  list.last (first :: rest) = Some last ->
  match format (parseISO (Endpoint.at_ (FlightSegment.departure first))) "HH:mm",
        format (parseISO (Endpoint.at_ (FlightSegment.arrival last))) "HH:mm"
  with
  | Throw e, _ => transformFlightOffer offer carrierDictionary = Throw e
  | Ok _, Throw e => transformFlightOffer offer carrierDictionary = Throw e
  | Ok departureTime, Ok arrivalTime =>
      exists flight,
        transformFlightOffer offer carrierDictionary = Ok flight
        /\ FlightCardData.departureTime flight = departureTime
        /\ FlightCardData.arrivalTime flight = arrivalTime
  end.
Proof.
  intros Hits Hsegs Hlast. unfold transformFlightOffer. rewrite Hits.
  change ((itinerary :: others) !! 0%nat) with (Some itinerary).
  cbn [mbind result_bind prop_of]. cbv zeta. rewrite Hsegs.
  rewrite Nat.sub_1_r, <- last_lookup, Hlast.
  change ((first :: rest) !! 0%nat) with (Some first).
  cbn [mbind result_bind prop_of].
  assert (Hprimary : exists primaryCarrier,
    (if truthy_opt (FlightOffer.validatingAirlineCodes offer !! 0%nat)
     then Ok (default "" (FlightOffer.validatingAirlineCodes offer !! 0%nat))
     else Ok (FlightSegment.carrierCode first))
    = Ok primaryCarrier).
  { destruct (truthy_opt _); eauto. }
  destruct Hprimary as (primaryCarrier & ->). cbn [mbind result_bind].
  destruct (format (parseISO (Endpoint.at_ (FlightSegment.departure first)))
              "HH:mm") as [departureTime | e];
    destruct (format (parseISO (Endpoint.at_ (FlightSegment.arrival last)))
                "HH:mm") as [arrivalTime | e']; try done.
  by eexists.
Qed.

Lemma map_result_Ok_inv {A B : Type} (f : A -> result B) (l : list A)
  (ys : list B) :
  map_result f l = Ok ys -> Forall2 (fun x y => f x = Ok y) l ys.
Proof.
  revert ys. induction l as [| x l IH]; intros ys; cbn [map_result].
  - intros [= <-]. constructor.
  - destruct (f x) as [y | e] eqn:Hx; [| done]. cbn [mbind result_bind].
    destruct (map_result f l) as [ys' | e]; [| done]. cbn [mbind result_bind].
    intros [= <-]. constructor; [done | by apply IH].
Qed.

(** X16: what a successful batch holds.  When [transformFlightOffers]
    returns a list, it has one record per offer of the response, in the
    order of the offers and with their ids, and no offer of the response is
    without itineraries or without segments; an empty response gives the
    empty list. *)
Theorem transformFlightOffers_records
  (response : AmadeusFlightOffersResponse.t)
  (flights : list FlightCardData.t) :
  transformFlightOffers response = Ok flights ->
  length flights = length (AmadeusFlightOffersResponse.data response)
  /\ map FlightCardData.id flights
     = map FlightOffer.id (AmadeusFlightOffersResponse.data response)
  /\ Forall (fun offer => malformed offer = false)
       (AmadeusFlightOffersResponse.data response)
  /\ (AmadeusFlightOffersResponse.data response = [] -> flights = []).
Proof.
  unfold transformFlightOffers. intros H. apply map_result_Ok_inv in H.
  induction H as [| offer flight offers flights' Hx _ IH].
  - repeat split. constructor.
  - destruct IH as (Hlen & Hids & Hmal & _).
    destruct (transformFlightOffer_fields _ _ _ Hx)
      as (it & first & last & Hit & Hfirst & _ & Hid & _).
    cbn [length map]. rewrite Hlen, Hids, Hid.
    repeat split; [| done]. constructor; [| done].
    unfold malformed. destruct (FlightOffer.itineraries offer); [done |].
    cbn in Hit. injection Hit as ->.
    by destruct (FlightItinerary.segments it).
Qed.

(** X17: the label of a layover of zero minutes or more.  A gap of an hour
    or more is rendered as [AIRPORT (Hh Mm)] with [H] the whole hours and
    [M] the remaining minutes, below 60; a shorter gap as [AIRPORT (Mm)];
    and a gap that cannot be computed, because a time stamp is not a date,
    as [AIRPORT (NaNm)]. *)
Theorem layoverLabel_gap (segment next : FlightSegment.t) :
  let gap :=
    differenceInMinutes
      (parseISO (Endpoint.at_ (FlightSegment.departure next)))
      (parseISO (Endpoint.at_ (FlightSegment.arrival segment))) in
  let airport := Endpoint.iataCode (FlightSegment.arrival segment) in
  match gap with
  | None => layoverLabel segment next = airport +:+ " (NaNm)"
  | Some minutes =>
      (60 <= minutes ->
       layoverLabel segment next
       = airport +:+ " (" +:+ pretty (minutes / 60) +:+ "h "
           +:+ pretty (minutes mod 60) +:+ "m)"
       /\ 0 <= minutes mod 60 < 60
       /\ minutes = 60 * (minutes / 60) + minutes mod 60)
      /\ (0 <= minutes < 60 ->
          layoverLabel segment next
          = airport +:+ " (" +:+ pretty minutes +:+ "m)")
  end.
Proof.
  intros gap airport. unfold layoverLabel. fold gap airport.
  destruct gap as [minutes |]; [| done].
  unfold layoverText. split.
  - intros Hbig.
    assert (0 < minutes / 60) by (apply Z.div_str_pos; lia).
    destruct (Z.ltb_spec 0 (minutes / 60)); [| lia].
    rewrite Z.rem_mod_nonneg by lia.
    split; [by rewrite !append_assoc |].
    split; [apply Z.mod_pos_bound; lia | apply Z.div_mod; lia].
  - intros Hsmall.
    rewrite Z.div_small by done. cbn [Z.ltb Z.compare].
    rewrite Z.rem_small by done. by rewrite !append_assoc.
Qed.

(** ** Durations *)

(** The capture groups of [PT{h}H{m}M], of [PT{h}H] and of a string in
    which [PT] does not occur. *)
Lemma iso_match_both (H M : string) :
  digit_run H = true -> H <> "" -> digit_run M = true -> M <> "" ->
  str_match re_iso_duration ("PT" +:+ H +:+ "H" +:+ M +:+ "M")
  = Some (<[2%nat := M]> (<[1%nat := H]> ∅)).
Proof.
  intros HdH HneH HdM HneM. apply str_match_here. unfold re_iso_duration.
  change ("PT" +:+ H +:+ "H" +:+ M +:+ "M")
    with (String "P" (String "T" (H +:+ "H" +:+ M +:+ "M"))).
  rewrite rmatch_Seq, rmatch_Lit, Ascii.eqb_refl.
  rewrite rmatch_Seq, rmatch_Lit, Ascii.eqb_refl.
  rewrite rmatch_Seq, rmatch_Opt, rmatch_Seq.
  rewrite (rmatch_group_digits 1 H ("H" +:+ M +:+ "M") _ _
             (<[2%nat := M]> (<[1%nat := H]> ∅))); [done | done | done | done |].
  change ("H" +:+ M +:+ "M") with (String "H" (M +:+ "M")).
  rewrite rmatch_Lit, Ascii.eqb_refl, rmatch_Opt, rmatch_Seq.
  by rewrite (rmatch_group_digits 2 M "M" _ _
                (<[2%nat := M]> (<[1%nat := H]> ∅))).
Qed.

Lemma iso_match_hours (H : string) :
  digit_run H = true -> H <> "" ->
  str_match re_iso_duration ("PT" +:+ H +:+ "H") = Some (<[1%nat := H]> ∅).
Proof.
  intros HdH HneH. apply str_match_here. unfold re_iso_duration.
  change ("PT" +:+ H +:+ "H") with (String "P" (String "T" (H +:+ "H"))).
  rewrite rmatch_Seq, rmatch_Lit, Ascii.eqb_refl.
  rewrite rmatch_Seq, rmatch_Lit, Ascii.eqb_refl.
  rewrite rmatch_Seq, rmatch_Opt, rmatch_Seq.
  by rewrite (rmatch_group_digits 1 H "H" _ _ (<[1%nat := H]> ∅)).
Qed.

Lemma iso_match_none (s : string) :
  occurs_PT s = false -> str_match re_iso_duration s = None.
Proof.
  induction s as [| a s IH]; [done |]. intros Hs.
  cbn [str_match]. unfold re_iso_duration at 1.
  rewrite rmatch_Seq, rmatch_Lit.
  cbn [occurs_PT] in Hs. destruct s as [| b s].
  - by destruct (Ascii.eqb a "P").
  - apply orb_false_elim in Hs as (Hab & Hs). rewrite (IH Hs).
    destruct (Ascii.eqb a "P"); [| done].
    rewrite rmatch_Seq, rmatch_Lit. cbn in Hab. by rewrite Hab.
Qed.

Lemma truthy_num_pos (n : N) : truthy_num (Some n) = (0 <? n)%N.
Proof.
  cbn [truthy_num]. destruct (N.eqb_spec n 0), (N.ltb_spec 0 n); done || lia.
Qed.

Lemma parseDuration_both (h m : N) :
  parseDuration ("PT" +:+ pretty h +:+ "H" +:+ pretty m +:+ "M")
  = if (0 <? h)%N && (0 <? m)%N
    then pretty h +:+ "h " +:+ pretty m +:+ "m"
    else if (0 <? h)%N then pretty h +:+ "h"
    else if (0 <? m)%N then pretty m +:+ "m"
    else "PT" +:+ pretty h +:+ "H" +:+ pretty m +:+ "M".
Proof.
  destruct (pretty_N_digits h) as (HdH & HneH).
  destruct (pretty_N_digits m) as (HdM & HneM).
  unfold parseDuration. rewrite iso_match_both by done.
  rewrite lookup_insert_ne, !lookup_insert_eq by done.
  assert (truthy_opt (Some (pretty h)) = true) as ->
    by (by apply truthy_str_nonempty).
  assert (truthy_opt (Some (pretty m)) = true) as ->
    by (by apply truthy_str_nonempty).
  by rewrite !parseInt_pretty, !truthy_num_pos.
Qed.

Lemma parseDuration_hours (h : N) :
  parseDuration ("PT" +:+ pretty h +:+ "H")
  = if (0 <? h)%N then pretty h +:+ "h" else "PT" +:+ pretty h +:+ "H".
Proof.
  destruct (pretty_N_digits h) as (HdH & HneH).
  unfold parseDuration. rewrite iso_match_hours by done.
  rewrite lookup_insert_eq, lookup_insert_ne, lookup_empty by done.
  assert (truthy_opt (Some (pretty h)) = true) as ->
    by (by apply truthy_str_nonempty).
  rewrite parseInt_pretty, truthy_num_pos.
  cbn [truthy_opt truthy_num andb default]. rewrite andb_false_r.
  by destruct (0 <? h)%N.
Qed.

(** X18: how [parseDuration] renders a duration of [h] hours and [m]
    minutes, both below [2 ^ 53], which [parseInt] reads exactly.
    [PT{h}H{m}M] becomes [{h}h {m}m] when both numbers are positive, [{h}h]
    when only the hours are, [{m}m] when only the minutes are, and stays as
    it is when both are zero; [PT{h}H] becomes [{h}h] and [PT{m}M] becomes
    [{m}m] for positive numbers; a text in which [PT] does not occur is
    returned as it is. *)
Theorem parseDuration_shapes (h m : N) (text : string) :
  (h < 2 ^ 53)%N ->
  (m < 2 ^ 53)%N ->
  parseDuration ("PT" +:+ pretty h +:+ "H" +:+ pretty m +:+ "M")
  = (if (0 <? h)%N && (0 <? m)%N
     then pretty h +:+ "h " +:+ pretty m +:+ "m"
     else if (0 <? h)%N then pretty h +:+ "h"
     else if (0 <? m)%N then pretty m +:+ "m"
     else "PT" +:+ pretty h +:+ "H" +:+ pretty m +:+ "M")
  /\ parseDuration ("PT" +:+ pretty h +:+ "H")
     = (if (0 <? h)%N then pretty h +:+ "h" else "PT" +:+ pretty h +:+ "H")
  /\ ((0 < m)%N ->
      parseDuration ("PT" +:+ pretty m +:+ "M") = pretty m +:+ "m")
  /\ (occurs_PT text = false -> parseDuration text = text).
Proof.
  intros _ _.
  split; [apply parseDuration_both |].
  split; [apply parseDuration_hours |].
  split; [apply parseDuration_minutes_only |].
  intros H. unfold parseDuration. by rewrite iso_match_none.
Qed.

(** X19: a duration rendered by [parseDuration] and read back by
    [parseDurationToMinutes], as the sort by duration does, for hours [h]
    and minutes [m] with [h * 60 + m] below [2 ^ 53], where the numbers of
    the code are exact: the result is [h * 60 + m] minutes when the hours
    are positive, and 0 minutes whenever the hours are zero, whatever the
    minutes. *)
Theorem duration_render_parse (h m : N) :
  (h * 60 + m < 2 ^ 53)%N ->
  parseDurationToMinutes
    (parseDuration ("PT" +:+ pretty h +:+ "H" +:+ pretty m +:+ "M"))
  = (if (0 <? h)%N then h * 60 + m else 0)%N.
Proof.
  intros _.
  rewrite parseDuration_both.
  destruct (N.ltb_spec 0 h) as [Hh | Hh], (N.ltb_spec 0 m) as [Hm | Hm];
    cbn [andb].
  - apply parseDurationToMinutes_hours_minutes.
  - rewrite parseDurationToMinutes_hours. lia.
  - apply parseDurationToMinutes_minutes.
  - unfold parseDurationToMinutes. rewrite str_match_label_none; [done |].
    destruct (pretty_N_digits h) as (HdH & _).
    destruct (pretty_N_digits m) as (HdM & _).
    rewrite !lacks_app.
    rewrite (digit_run_lacks "h" (pretty h) eq_refl HdH).
    by rewrite (digit_run_lacks "h" (pretty m) eq_refl HdM).
Qed.

(** ** The client: the token cache *)

Lemma tokenValid_true (now : Z) (cache : TokenCache.t) :
  tokenValid now cache = true
  <-> exists token expiry,
        TokenCache.cachedToken cache = Some token /\ token <> ""
        /\ TokenCache.tokenExpiryTime cache = Some expiry
        /\ expiry <> 0 /\ now < expiry.
Proof.
  unfold tokenValid.
  destruct (TokenCache.cachedToken cache) as [token |]; cbn [truthy_opt].
  - destruct (TokenCache.tokenExpiryTime cache) as [expiry |].
    + rewrite !andb_true_iff, negb_true_iff, Z.eqb_neq, Z.ltb_lt,
        truthy_str_nonempty.
      split.
      * intros (? & ? & ?). by exists token, expiry.
      * intros (t & e & [= <-] & ? & [= <-] & ? & ?). done.
    + rewrite andb_false_r. split; [done |].
      intros (t & e & _ & _ & [=] & _).
  - cbn. split; [done |]. intros (t & e & [=] & _).
Qed.

(** X20: the token cache.  A token is asked for only when the cache holds
    none that is still valid.  After a token is granted at the time [now]
    with a lifetime of [expires_in] seconds, every call before
    [now + (expires_in - 60) * 1000] returns that token, whatever the server
    would answer, and leaves the cache as it is; a call at that time or
    later asks again.  (The token must not be the empty string, and the
    expiry time not 0.) *)
Theorem getAccessToken_lifetime (now later : Z) (token : string)
  (expires_in : Z) (cache : TokenCache.t) (reply : AuthReply) :
  tokenValid now cache = false ->
  let granted := getAccessToken now (AuthGranted token expires_in) cache in
  let expiry := now + (expires_in - 60) * 1000 in
  granted.1 = Returns token
  /\ (token <> "" -> expiry <> 0 -> later < expiry ->
      getAccessToken later reply granted.2 = (Returns token, granted.2))
  /\ (expiry <= later ->
      getAccessToken later reply granted.2
      = match reply with
        | AuthGranted token' expires_in' =>
            (Returns token',
             {| TokenCache.cachedToken := Some token';
                TokenCache.tokenExpiryTime :=
                  Some (later + (expires_in' - 60) * 1000) |})
        | AuthRejected =>
            (Raises "Authentication failed. Please check your API credentials.",
             granted.2)
        end).
Proof.
  intros Hinvalid granted expiry.
  assert (Hg : granted
               = (Returns token,
                  {| TokenCache.cachedToken := Some token;
                     TokenCache.tokenExpiryTime :=
                       Some (now + (expires_in - TOKEN_EXPIRY_BUFFER) * 1000) |})).
  { unfold granted, getAccessToken. by rewrite Hinvalid. }
  rewrite Hg. cbn [fst snd].
  split; [done |]. split.
  - intros Htoken Hexpiry Hlater. unfold getAccessToken.
    assert (tokenValid later
              {| TokenCache.cachedToken := Some token;
                 TokenCache.tokenExpiryTime :=
                   Some (now + (expires_in - TOKEN_EXPIRY_BUFFER) * 1000) |}
            = true) as ->; [| done].
    apply tokenValid_true. by exists token, expiry.
  - intros Hlater. unfold getAccessToken.
    assert (tokenValid later
              {| TokenCache.cachedToken := Some token;
                 TokenCache.tokenExpiryTime :=
                   Some (now + (expires_in - TOKEN_EXPIRY_BUFFER) * 1000) |}
            = false) as ->; [| done].
    apply not_true_iff_false. intros H. apply tokenValid_true in H.
    destruct H as (t & e & _ & _ & [= <-] & _ & Hlt).
    unfold expiry, TOKEN_EXPIRY_BUFFER in *. lia.
Qed.

(** X21: the errors of [searchFlights].  When the token request fails, the
    caller is told of a network error, not of the failed authentication,
    and the search request is not sent.  When the search request is
    answered with the status 401, the cache is emptied, so that the next
    call asks for a new token even if the old one has not expired; the
    request is not retried. *)
Theorem searchFlights_errors (params : FlightSearchParams.t) (now : Z)
  (get : string -> list (string * string) -> SearchReply)
  (cache : TokenCache.t) :
  (tokenValid now cache = false ->
   searchFlights params now AuthRejected get cache
   = (Raises "Network error. Please check your connection.", cache))
  /\ (forall auth token cache' detail,
        getAccessToken now auth cache = (Returns token, cache') ->
        get token (buildQuery params) = SearchAxiosError (Some 401) detail ->
        let r := searchFlights params now auth get cache in
        r.1 = Raises "Authentication expired. Please try again."
        /\ forall later, tokenValid later r.2 = false)
  /\ (forall auth token cache' data,
        getAccessToken now auth cache = (Returns token, cache') ->
        get token (buildQuery params) = SearchData data ->
        searchFlights params now auth get cache = (Returns data, cache')).
Proof.
  split; [| split].
  - intros Hinvalid. unfold searchFlights, getAccessToken.
    by rewrite Hinvalid.
  - intros auth token cache' detail Htoken Hget r. subst r.
    unfold searchFlights. rewrite Htoken, Hget. done.
  - intros auth token cache' data Htoken Hget.
    unfold searchFlights. by rewrite Htoken, Hget.
Qed.

(** ** The route *)

Lemma map_result_In_throw {A B : Type} (f : A -> result B) (l : list A)
  (x : A) (e : JsError) :
  In x l -> f x = Throw e -> exists e', map_result f l = Throw e'.
Proof.
  induction l as [| y l IH]; [done |]. intros [-> | Hin] Hx; cbn [map_result].
  - rewrite Hx. by eexists.
  - destruct (f y) as [b | e']; [| by eexists]. cbn [mbind result_bind].
    destruct (IH Hin Hx) as (e' & ->). by eexists.
Qed.

Lemma malformed_throws (offer : FlightOffer.t)
  (carrierDictionary : option (gmap string string)) :
  malformed offer = true ->
  transformFlightOffer offer carrierDictionary = Throw TypeError.
Proof.
  intros Hmal. unfold malformed in Hmal. unfold transformFlightOffer.
  destruct (FlightOffer.itineraries offer) as [| itinerary others]; [done |].
  destruct (FlightItinerary.segments itinerary) as [| s segs] eqn:Hsegs;
    [| done].
  simpl. rewrite Hsegs. simpl. by destruct (truthy_opt _).
Qed.

(** X22: the answers of the route.  The status is 400 exactly when the
    origin or the destination is missing or empty, the departure date is
    missing or empty, or origin and destination are equal; the answer is
    then the same whatever the provider would reply, and the token cache is
    not touched.  Otherwise the status is 200 or 500. *)
Theorem GET_validation (query : list (string * string)) (now : Z)
  (auth : AuthReply) (get : string -> list (string * string) -> SearchReply)
  (cache : TokenCache.t) :
  let r := GET query now auth get cache in
  let origin := get_or_empty "origin" query in
  let destination := get_or_empty "destination" query in
  (HttpResponse.status r.1 = 200 \/ HttpResponse.status r.1 = 400
   \/ HttpResponse.status r.1 = 500)
  /\ (HttpResponse.status r.1 = 400
      <-> origin = "" \/ destination = ""
          \/ get_or_empty "departureDate" query = ""
          \/ origin = destination)
  /\ (HttpResponse.status r.1 = 400 ->
      r.2 = cache
      /\ forall now' auth' get', GET query now' auth' get' cache = r).
Proof.
  clear localeCompare.
  intros r origin destination. subst r. unfold GET.
  assert (Hval : validateParams (routeParams query) = None
                 <-> ~ (origin = "" \/ destination = ""
                        \/ get_or_empty "departureDate" query = ""
                        \/ origin = destination)).
  { unfold validateParams.
    cbn [routeParams FlightSearchParams.originLocationCode
           FlightSearchParams.destinationLocationCode
           FlightSearchParams.departureDate].
    fold origin destination.
    destruct origin as [| a o]; [cbn; split; [done | tauto] |].
    destruct destination as [| b d]; [cbn; split; [done | tauto] |].
    destruct (get_or_empty "departureDate" query) as [| c dd];
      [cbn; split; [done | tauto] |].
    cbn [truthy_str negb orb].
    destruct (String.eqb_spec (String a o) (String b d)) as [E | E].
    - split; [done | tauto].
    - split; [| done]. intros _ [? | [? | [? | ?]]]; done. }
  destruct (validateParams (routeParams query)) as [error |] eqn:Hv.
  - cbn [fst snd HttpResponse.status]. split; [auto |]. split.
    + split; [intros _ | done].
      destruct (decide (origin = "" \/ destination = ""
                        \/ get_or_empty "departureDate" query = ""
                        \/ origin = destination)) as [Hd | Hd]; [done |].
      by apply Hval in Hd.
    + done.
  - assert (Hok : ~ (origin = "" \/ destination = ""
                     \/ get_or_empty "departureDate" query = ""
                     \/ origin = destination)) by (by apply Hval).
    destruct (searchFlights (routeParams query) now auth get cache)
      as [[response | message] cache'].
    + destruct (transformFlightOffers response) as [flights | e];
        cbn [fst snd HttpResponse.status];
        (split; [auto |]); split; try done; split; done.
    + cbn [fst snd HttpResponse.status].
      (split; [auto |]); split; try done; split; done.
Qed.

(** X23: what the route answers once the parameters are valid.  An error
    of [searchFlights] gives the status 500 with its message.  When the
    provider replies with offers, one offer without itineraries or without
    segments is enough for the status 500: no flight is delivered, not even
    those of the well-formed offers.  When all offers normalise, the status
    is 200 and [count] is the number of offers of the reply. *)
Theorem GET_outcomes (query : list (string * string)) (now : Z)
  (auth : AuthReply) (get : string -> list (string * string) -> SearchReply)
  (cache : TokenCache.t) :
  validateParams (routeParams query) = None ->
  let r := GET query now auth get cache in
  let searched := searchFlights (routeParams query) now auth get cache in
  r.2 = searched.2
  /\ (forall message,
        searched.1 = Raises message ->
        r.1 = {| HttpResponse.status := 500;
                 HttpResponse.body := BodyFailure (Text message) |})
  /\ (forall response offer,
        searched.1 = Returns response ->
        In offer (AmadeusFlightOffersResponse.data response) ->
        malformed offer = true ->
        exists e,
          r.1 = {| HttpResponse.status := 500;
                   HttpResponse.body := BodyFailure (RuntimeMessage e) |})
  /\ (forall response flights,
        searched.1 = Returns response ->
        transformFlightOffers response = Ok flights ->
        r.1 = {| HttpResponse.status := 200;
                 HttpResponse.body :=
                   BodySuccess
                     (length (AmadeusFlightOffersResponse.data response))
                     flights |}).
Proof.
  intros Hvalid r searched. subst r. unfold GET. rewrite Hvalid.
  fold searched. destruct searched as [[response | message] cache'].
  - cbn [fst snd]. split.
    { by destruct (transformFlightOffers response). }
    split; [done |]. split.
    + intros response' offer [= <-] Hin Hmal.
      destruct (map_result_In_throw
                  (fun o => transformFlightOffer o
                              (AmadeusFlightOffersResponse.carriers response))
                  _ offer TypeError Hin (malformed_throws _ _ Hmal))
        as (e & He).
      exists e. unfold transformFlightOffers. by rewrite He.
    + intros response' flights [= <-] Hok. rewrite Hok. cbn [fst].
      do 2 f_equal. unfold transformFlightOffers in Hok.
      apply map_result_Ok_inv in Hok. symmetry. by eapply Forall2_length.
  - cbn [fst snd]. split; [done |]. split; [by intros ? [= <-] |].
    split; intros; done.
Qed.

(** ** From the form to the route *)

Lemma digit_not_char (c a : ascii) :
  in_class Digit c = false -> in_class Digit a = true -> Ascii.eqb a c = false.
Proof.
  intros Hc Ha. destruct (Ascii.eqb_spec a c) as [-> | _]; [congruence | done].
Qed.

Lemma parseMagnitude_digits (ds : string) :
  digit_run ds = true -> parseMagnitude ds = parseInt (Some ds).
Proof.
  destruct ds as [| a [| x s]]; [done | done |]. cbn [digit_run].
  intros (_ & (Hx & _)%andb_prop)%andb_prop. unfold parseMagnitude.
  by rewrite (digit_not_char "x" x eq_refl Hx),
    (digit_not_char "X" x eq_refl Hx), andb_false_r.
Qed.

Lemma parseIntJS_digits (n : N) : parseIntJS (pretty n) = Some (Z.of_N n).
Proof.
  destruct (pretty_N_digits n) as (Hd & Hne).
  pose proof (parseMagnitude_digits _ Hd) as Hm.
  rewrite parseInt_pretty in Hm.
  unfold parseIntJS. destruct (pretty n) as [| a s]; [done |].
  cbn [digit_run] in Hd. apply andb_prop in Hd as (Ha & _).
  cbn [trimStart]. rewrite (digit_not_space a Ha).
  rewrite (digit_not_char "-" a eq_refl Ha), (digit_not_char "+" a eq_refl Ha).
  by rewrite Hm.
Qed.

(** [parseInt] reads back the whole number that [toString] printed. *)
Lemma parseIntJS_pretty (z : Z) : parseIntJS (pretty z) = Some z.
Proof.
  destruct z as [| p | p].
  - done.
  - apply (parseIntJS_digits (Npos p)).
  - change (pretty (Z.neg p)) with (String "-" (pretty (Npos p))).
    unfold parseIntJS. cbn [trimStart].
    change (in_class Space "-") with false. cbn iota.
    rewrite Ascii.eqb_refl.
    destruct (pretty_N_digits (Npos p)) as (Hd & _).
    by rewrite (parseMagnitude_digits _ Hd), parseInt_pretty.
Qed.

Lemma pretty_Z_truthy (z : Z) : truthy_str (pretty z) = true.
Proof.
  destruct z as [| p | p]; [done | | done].
  apply truthy_str_nonempty, (pretty_N_digits (Npos p)).
Qed.

Lemma params_get_append_if (name : string) (cond : bool) (k v : string)
  (params : list (string * string)) :
  params_get name (append_if cond k v params)
  = match params_get name params with
    | Some x => Some x
    | None => if cond && String.eqb k name then Some v else None
    end.
Proof.
  unfold append_if. destruct cond; cbn [andb].
  - induction params as [| [k' v'] params IH]; cbn [params_get app].
    + done.
    + by destruct (String.eqb k' name).
  - by destruct (params_get name params).
Qed.

(** What the route reads from the query that [onSubmit] builds. *)
Lemma routeParams_of_form (roundTrip : bool) (data : SearchFormData.t) :
  routeParams (onSubmit roundTrip data)
  = {| FlightSearchParams.originLocationCode := SearchFormData.origin data;
       FlightSearchParams.destinationLocationCode :=
         SearchFormData.destination data;
       FlightSearchParams.departureDate := SearchFormData.departureDate data;
       FlightSearchParams.returnDate :=
         if roundTrip && truthy_opt (SearchFormData.returnDate data)
         then SearchFormData.returnDate data else None;
       FlightSearchParams.adults := Some (SearchFormData.adults data);
       FlightSearchParams.children :=
         match SearchFormData.children data with
         | Some c => if 0 <? c then Some (Some c) else None
         | None => None
         end;
       FlightSearchParams.infants :=
         match SearchFormData.infants data with
         | Some i => if 0 <? i then Some (Some i) else None
         | None => None
         end;
       FlightSearchParams.travelClass :=
         match SearchFormData.travelClass data with
         | Some ECONOMY | None => None
         | Some c => Some (travelClassName c)
         end;
       FlightSearchParams.nonStop := None;
       FlightSearchParams.currencyCode := None;
       FlightSearchParams.max := Some (Some 50) |}.
Proof.
  destruct data as [origin destination departureDate returnDate adults
                      children infants travelClass].
  unfold onSubmit, routeParams.
  cbn [SearchFormData.origin SearchFormData.destination
         SearchFormData.departureDate SearchFormData.returnDate
         SearchFormData.adults SearchFormData.children
         SearchFormData.infants SearchFormData.travelClass].
  assert (Hadults : parseIntJS
                      (default "1" (or_else (Some (pretty adults)) (Some "1")))
                    = Some adults).
  { unfold or_else. cbn [truthy_opt]. rewrite pretty_Z_truthy.
    apply parseIntJS_pretty. }
  assert (Hnum : forall n : option Z,
             (if truthy_opt
                   (if truthy_number n && (0 <? default 0 n)
                    then Some (number_toString n) else None)
              then Some (parseIntJS
                           (default ""
                              (if truthy_number n && (0 <? default 0 n)
                               then Some (number_toString n) else None)))
              else None)
             = match n with
               | Some c => if 0 <? c then Some (Some c) else None
               | None => None
               end).
  { intros [c |]; [| done]. change (default 0 (Some c)) with c.
    cbn [number_toString truthy_number].
    destruct (Z.ltb_spec 0 c), (Z.eqb_spec c 0); try lia; try done.
    cbn [negb andb truthy_opt].
    rewrite pretty_Z_truthy.
    change (default "" (Some (pretty c))) with (pretty c).
    by rewrite parseIntJS_pretty. }
  assert (Hid : forall o : option string,
             match o with Some x => Some x | None => None end = o).
  { by intros []. }
  assert (Hor : forall s, default "" (or_else (Some s) (Some "")) = s).
  { by intros []. }
  unfold get_or_empty, get_truthy, get_int.
  rewrite !params_get_append_if.
  cbn [params_get String.eqb Ascii.eqb Bool.eqb andb].
  rewrite !andb_false_r, ?andb_true_r, !Hid, !Hnum, Hadults, !Hor.
  by destruct roundTrip, returnDate as [[| a s] |], travelClass as [[] |].
Qed.

(** X24: the search parameters survive the way from the form to the
    route.  The parameters that the route reads from the query that
    [onSubmit] builds are the origin, the destination, the departure date
    and the number of adults of the form; the return date of a round trip;
    the numbers of children and of infants when they are positive; and the
    travel class unless it is [ECONOMY]. *)
Theorem routeParams_onSubmit (roundTrip : bool) (data : SearchFormData.t) :
  routeParams (onSubmit roundTrip data)
  = {| FlightSearchParams.originLocationCode := SearchFormData.origin data;
       FlightSearchParams.destinationLocationCode :=
         SearchFormData.destination data;
       FlightSearchParams.departureDate := SearchFormData.departureDate data;
       FlightSearchParams.returnDate :=
         if roundTrip && truthy_opt (SearchFormData.returnDate data)
         then SearchFormData.returnDate data else None;
       FlightSearchParams.adults := Some (SearchFormData.adults data);
       FlightSearchParams.children :=
         match SearchFormData.children data with
         | Some c => if 0 <? c then Some (Some c) else None
         | None => None
         end;
       FlightSearchParams.infants :=
         match SearchFormData.infants data with
         | Some i => if 0 <? i then Some (Some i) else None
         | None => None
         end;
       FlightSearchParams.travelClass :=
         match SearchFormData.travelClass data with
         | Some ECONOMY | None => None
         | Some c => Some (travelClassName c)
         end;
       FlightSearchParams.nonStop := None;
       FlightSearchParams.currencyCode := None;
       FlightSearchParams.max := Some (Some 50) |}.
Proof. apply routeParams_of_form. Qed.

(** X25: from the form to the provider.  For the query that [onSubmit]
    builds, the route makes [searchFlights] ask the provider for the
    origin, the destination, the departure date and the adults of the form,
    at most 50 offers in USD, then the return date of a round trip, the
    children and the infants when positive, and the travel class unless it
    is [ECONOMY]; nothing else is asked. *)
Theorem buildQuery_of_form (roundTrip : bool) (data : SearchFormData.t) :
  buildQuery (routeParams (onSubmit roundTrip data))
  = [ ("originLocationCode", SearchFormData.origin data);
      ("destinationLocationCode", SearchFormData.destination data);
      ("departureDate", SearchFormData.departureDate data);
      ("adults", pretty (SearchFormData.adults data));
      ("max", "50");
      ("currencyCode", "USD") ]
    ++ (if roundTrip && truthy_opt (SearchFormData.returnDate data)
        then [("returnDate", default "" (SearchFormData.returnDate data))]
        else [])
    ++ match SearchFormData.children data with
       | Some c => if 0 <? c then [("children", pretty c)] else []
       | None => []
       end
    ++ match SearchFormData.infants data with
       | Some i => if 0 <? i then [("infants", pretty i)] else []
       | None => []
       end
    ++ match SearchFormData.travelClass data with
       | Some ECONOMY | None => []
       | Some c => [("travelClass", travelClassName c)]
       end.
Proof.
  rewrite routeParams_of_form.
  destruct data as [origin destination departureDate returnDate adults
                      children infants travelClass].
  cbn [SearchFormData.origin SearchFormData.destination
         SearchFormData.departureDate SearchFormData.returnDate
         SearchFormData.adults SearchFormData.children
         SearchFormData.infants SearchFormData.travelClass].
  assert (Hpos : forall z, (0 <? z) = true -> truthy_number (Some z) = true).
  { intros z Hz%Z.ltb_lt. cbn. by destruct (Z.eqb_spec z 0); [lia |]. }
  unfold buildQuery.
  cbn [FlightSearchParams.originLocationCode
         FlightSearchParams.destinationLocationCode
         FlightSearchParams.departureDate FlightSearchParams.returnDate
         FlightSearchParams.adults FlightSearchParams.children
         FlightSearchParams.infants FlightSearchParams.travelClass
         FlightSearchParams.nonStop FlightSearchParams.currencyCode
         FlightSearchParams.max].
  destruct roundTrip, returnDate as [[| a s] |];
    (destruct children as [c |]; [destruct (0 <? c) eqn:Ec | ]);
    (destruct infants as [i |]; [destruct (0 <? i) eqn:Ei | ]);
    destruct travelClass as [[] |];
    repeat match goal with
      | H : (0 <? ?z) = true |- _ => apply Hpos in H
      end;
    cbn [default from_option id number_toString truthy_opt truthy_str andb];
    rewrite ?Ec, ?Ei; reflexivity.
Qed.

(** X26: what the route never forwards.  Whatever the query of the
    request, the provider is asked for at most 50 offers in USD and never
    for non-stop flights only.  The number of adults is not validated: a
    missing or empty [adults] is sent as 1, and one that [parseInt] cannot
    read is sent as [NaN].  A count of 0 children is not sent. *)
Theorem GET_forwards (query : list (string * string)) :
  let sent := buildQuery (routeParams query) in
  params_get "max" sent = Some "50"
  /\ params_get "currencyCode" sent = Some "USD"
  /\ params_get "nonStop" sent = None
  /\ (truthy_opt (params_get "adults" query) = false ->
      params_get "adults" sent = Some "1")
  /\ (forall text,
        params_get "adults" query = Some text ->
        truthy_str text = true ->
        params_get "adults" sent = Some (number_toString (parseIntJS text)))
  /\ (params_get "children" query = Some "0" ->
      params_get "children" sent = None).
Proof.
  intros sent. subst sent. unfold buildQuery.
  cbn [routeParams FlightSearchParams.originLocationCode
         FlightSearchParams.destinationLocationCode
         FlightSearchParams.departureDate FlightSearchParams.returnDate
         FlightSearchParams.adults FlightSearchParams.children
         FlightSearchParams.infants FlightSearchParams.travelClass
         FlightSearchParams.nonStop FlightSearchParams.currencyCode
         FlightSearchParams.max].
  rewrite !params_get_append_if.
  cbn [params_get String.eqb Ascii.eqb Bool.eqb andb default from_option id].
  rewrite !andb_false_r, ?andb_true_r.
  split; [done |]. split; [done |]. split; [done |]. split; [| split].
  - intros Hnone. unfold or_else. by rewrite Hnone.
  - intros text Hsome Htext. unfold or_else. rewrite Hsome. cbn [truthy_opt].
    by rewrite Htext.
  - intros Hzero. unfold get_int. rewrite Hzero. done.
Qed.

(** ** The summary of the chart *)

(** X27: the lowest price, the highest price and the total under the
    chart.  The component shows nothing exactly when there is no chart data.
    Otherwise every point of the line lies between the lowest and the
    highest price, the cheapest point of the line is at the lowest price,
    the highest price is that of a flight of the view, which need not be a
    point of the line, and the total counts the flights of the view, not
    the points of the line. *)
Theorem PriceTrendChart_summary (chartData : list PriceDataPoint.t) :
  (PriceTrendChart chartData = None <-> chartData = [])
  /\ forall view,
       PriceTrendChart chartData = Some view ->
       (forall item, In item (ChartSummary.line view) ->
          (ChartSummary.lowestPrice view <= PriceDataPoint.price item)%Q
          /\ (PriceDataPoint.price item <= ChartSummary.highestPrice view)%Q)
       /\ (exists item, In item (ChartSummary.line view)
             /\ (PriceDataPoint.price item == ChartSummary.lowestPrice view)%Q)
       /\ (exists p, In p chartData
             /\ PriceDataPoint.price p = ChartSummary.highestPrice view)
       /\ ChartSummary.totalFlights view = length chartData
       /\ (length (ChartSummary.line view)
           <= ChartSummary.totalFlights view)%nat.
Proof.
  split.
  { unfold PriceTrendChart. destruct chartData; cbn; split; done. }
  intros view. unfold PriceTrendChart.
  destruct (map PriceDataPoint.price chartData) as [| p prices] eqn:Hprices;
    [done |].
  intros [= <-].
  cbn [ChartSummary.line ChartSummary.lowestPrice ChartSummary.highestPrice
         ChartSummary.totalFlights].
  destruct (Math_min_spec prices p) as (Hmin_in & Hmin).
  destruct (Math_max_spec prices p) as (Hmax_in & Hmax).
  rewrite <- Hprices in Hmin_in, Hmin, Hmax_in, Hmax.
  destruct (groupByTime_inv chartData) as (Hnd & Hcover & Hitems).
  assert (Hperm : groupedData chartData ≡ₚ groupByTime chartData)
    by apply array_sort_perm.
  assert (Hin : forall item,
             In item (groupedData chartData)
             <-> In item (groupByTime chartData)).
  { intros item. by rewrite <- !list_elem_of_In, Hperm. }
  assert (Hrange : forall q, In q chartData ->
             (Math_min p prices <= PriceDataPoint.price q
              <= Math_max p prices)%Q).
  { intros q Hq. split; [apply Hmin | apply Hmax]; by apply in_map. }
  split; [| split; [| split; [| split]]].
  - intros item Hitem. apply Hin in Hitem.
    destruct (Hitems item Hitem) as (_ & _ & (q & Hq & _ & Eq & _)).
    rewrite <- Eq. apply Hrange, Hq.
  - apply in_map_iff in Hmin_in as (q & Eq & Hq).
    specialize (Hcover q Hq). apply in_map_iff in Hcover as (item & Et & Hitem).
    exists item. split; [by apply Hin |].
    destruct (Hitems item Hitem) as (_ & Hleast & (q' & Hq' & _ & Eq' & _)).
    apply Qle_antisym.
    + rewrite <- Eq. by apply Hleast.
    + rewrite <- Eq'. apply Hrange, Hq'.
  - apply in_map_iff in Hmax_in as (q & Eq & Hq). by exists q.
  - done.
  - rewrite (Permutation_length Hperm), <- (length_map PriceDataPoint.time),
      <- (length_map PriceDataPoint.time chartData).
    apply NoDup_incl_length; [done |].
    intros t Ht. apply in_map_iff in Ht as (item & <- & Hitem).
    destruct (Hitems item Hitem) as (_ & _ & (q & Hq & Et & _)).
    rewrite <- Et. by apply in_map.
Qed.

(** X28: a form that the schema accepts is not refused by the route.  For
    data that [searchSchema] accepts, the parameters that the route reads
    from the query of [onSubmit] pass its validation, so the status of the
    answer is not 400, whatever the provider replies. *)
Theorem searchSchema_route_accepts (Date_parse : string -> option Z)
  (roundTrip : bool) (data : SearchFormData.t) (now : Z) (auth : AuthReply)
  (get : string -> list (string * string) -> SearchReply)
  (cache : TokenCache.t) :
  searchSchema Date_parse data = true ->
  validateParams (routeParams (onSubmit roundTrip data)) = None
  /\ HttpResponse.status (GET (onSubmit roundTrip data) now auth get cache).1
     <> 400.
Proof.
  clear localeCompare.
  intros Hschema.
  assert (Hvalid : validateParams (routeParams (onSubmit roundTrip data))
                   = None).
  { rewrite routeParams_of_form. unfold searchSchema in Hschema.
    repeat (apply andb_prop in Hschema as (Hschema & ?)).
    unfold validateParams.
    cbn [FlightSearchParams.originLocationCode
           FlightSearchParams.destinationLocationCode
           FlightSearchParams.departureDate].
    destruct (SearchFormData.origin data) as [| a o]; [done |].
    destruct (SearchFormData.destination data) as [| b d]; [done |].
    destruct (SearchFormData.departureDate data) as [| c dd]; [done |].
    cbn [truthy_str negb orb].
    by destruct (String.eqb (String a o) (String b d)). }
  split; [exact Hvalid |].
  unfold GET. rewrite Hvalid.
  destruct (searchFlights _ now auth get cache) as [[response | message] cache'];
    [destruct (transformFlightOffers response) |]; done.
Qed.

(** ** The sort box and the price sliders *)

(** X29: choosing another sort order never changes which flights are
    shown.  In a store whose view is the working set filtered and sorted by
    its filters, the view after [handleSortChange] is a rearrangement of
    the view before, the criteria of the filters are as before, and the
    chart has as many points as before. *)
Theorem handleSortChange_same_flights (sortBy : SortBy)
  (state : FlightState.t) :
  FlightState.filteredFlights state
  = applyFiltersAndSort (FlightState.allFlights state)
      (FlightState.filters state) ->
  let state' := handleSortChange sortBy state in
  FlightState.filteredFlights state' ≡ₚ FlightState.filteredFlights state
  /\ FlightState.filteredFlights state'
     = sortFlights
         (filterFlights (FlightState.allFlights state)
            (FlightState.filters state))
         sortBy
  /\ FlightFilters.sortBy (FlightState.filters state') = sortBy
  /\ FlightFilters.priceRange (FlightState.filters state')
     = FlightFilters.priceRange (FlightState.filters state)
  /\ FlightFilters.stops (FlightState.filters state')
     = FlightFilters.stops (FlightState.filters state)
  /\ FlightFilters.airlines (FlightState.filters state')
     = FlightFilters.airlines (FlightState.filters state)
  /\ length (FlightState.chartData state')
     = length (FlightState.filteredFlights state).
Proof.
  intros Hview state'. subst state'.
  unfold handleSortChange, updateFilters, setView.
  cbn [FlightState.filteredFlights FlightState.filters FlightState.chartData
         FlightState.allFlights].
  assert (Hsame : filterFlights (FlightState.allFlights state)
                    (mergeFilters (FlightState.filters state)
                       (onlySortBy sortBy))
                  = filterFlights (FlightState.allFlights state)
                      (FlightState.filters state)).
  { unfold filterFlights. apply filter_ext. intros flight.
    by apply passesFilters_perm. }
  assert (Hnew : applyFiltersAndSort (FlightState.allFlights state)
                   (mergeFilters (FlightState.filters state)
                      (onlySortBy sortBy))
                 = sortFlights
                     (filterFlights (FlightState.allFlights state)
                        (FlightState.filters state))
                     sortBy).
  { unfold applyFiltersAndSort. by rewrite Hsame. }
  rewrite Hnew, Hview. unfold applyFiltersAndSort, sortFlights.
  split; [by rewrite !array_sort_perm |].
  split; [done |]. split; [done |]. split; [done |]. split; [done |].
  split; [done |].
  unfold generatePriceChartData.
  by rewrite length_map, !(Permutation_length (array_sort_perm _ _)).
Qed.

(** X30: the price sliders.  [handlePriceChange] replaces one end of the
    local range and leaves the other; the new range becomes the price range
    of the filters, and every flight of the view has its price in it.  The
    two ends are not compared: when the new minimum is above the maximum,
    no flight is shown. *)
Theorem handlePriceChange_view (isMin : bool) (value : Q)
  (localPriceRange : PriceRange.t) (state : FlightState.t) :
  let r := handlePriceChange isMin value localPriceRange state in
  (if isMin
   then r.1 = {| PriceRange.min := value;
                 PriceRange.max := PriceRange.max localPriceRange |}
   else r.1 = {| PriceRange.min := PriceRange.min localPriceRange;
                 PriceRange.max := value |})
  /\ FlightFilters.priceRange (FlightState.filters r.2) = r.1
  /\ (forall f, In f (FlightState.filteredFlights r.2) ->
        In f (FlightState.allFlights state)
        /\ (PriceRange.min r.1 <= FlightCardData.price f)%Q
        /\ (FlightCardData.price f <= PriceRange.max r.1)%Q)
  /\ ((PriceRange.max r.1 < PriceRange.min r.1)%Q ->
      FlightState.filteredFlights r.2 = []
      /\ FlightState.chartData r.2 = []).
Proof.
  intros r. subst r. unfold handlePriceChange.
  set (newRange :=
         if isMin
         then {| PriceRange.min := value;
                 PriceRange.max := PriceRange.max localPriceRange |}
         else {| PriceRange.min := PriceRange.min localPriceRange;
                 PriceRange.max := value |}).
  cbn [fst snd]. split; [by destruct isMin |].
  split; [done |].
  assert (Hin : forall f,
             In f (FlightState.filteredFlights
                     (updateFilters (onlyPriceRange newRange) state)) ->
             In f (FlightState.allFlights state)
             /\ (PriceRange.min newRange <= FlightCardData.price f)%Q
             /\ (FlightCardData.price f <= PriceRange.max newRange)%Q).
  { intros f. unfold updateFilters, setView.
    cbn [FlightState.filteredFlights]. unfold applyFiltersAndSort, sortFlights.
    rewrite <- list_elem_of_In, array_sort_perm, list_elem_of_In.
    unfold filterFlights. rewrite filter_In, passesFilters_iff.
    cbn [mergeFilters onlyPriceRange FlightFilters.priceRange
           PartialFilters.priceRange default from_option id].
    intros (Hf & Hlo & Hhi & _). done. }
  split; [exact Hin |].
  intros Hcross.
  assert (Hempty : FlightState.filteredFlights
                     (updateFilters (onlyPriceRange newRange) state) = []).
  { destruct (FlightState.filteredFlights
                (updateFilters (onlyPriceRange newRange) state))
      as [| f view] eqn:Hview; [done |].
    destruct (Hin f) as (_ & Hlo & Hhi); [by left |].
    exfalso. apply (Qlt_not_le _ _ Hcross). by eapply Qle_trans. }
  split; [exact Hempty |].
  unfold updateFilters, setView in *.
  cbn [FlightState.filteredFlights FlightState.chartData] in *.
  by rewrite Hempty.
Qed.
End Core.

(** * The properties on concrete offers and stores

    The imported functions are those of the reference instance. *)

(** C1, on a batch of three offers of which the second has no segments. *)
Lemma transformFlightOffers_propagates_witness :
  transformFlightOffer Ref.parseISO Ref.format Ref.differenceInMinutes
    Ref.parseFloat Sample.no_segments None = Throw TypeError
  /\ transformFlightOffer Ref.parseISO Ref.format Ref.differenceInMinutes
       Ref.parseFloat Sample.no_itineraries None = Throw TypeError
  /\ transformFlightOffers Ref.parseISO Ref.format Ref.differenceInMinutes
       Ref.parseFloat
       (Sample.batch [Sample.direct; Sample.no_segments; Sample.two_stops])
     = Throw TypeError
  /\ exists flights,
       transformFlightOffers Ref.parseISO Ref.format Ref.differenceInMinutes
         Ref.parseFloat (Sample.batch [Sample.direct; Sample.two_stops])
       = Ok flights
       /\ length flights = 2%nat.
Proof.
  destruct (transformFlightOffers_propagates Ref.parseISO Ref.format
              Ref.differenceInMinutes Ref.parseFloat) as (Hmal & Hthrow & Hok).
  split; [apply Hmal; reflexivity |].
  split; [apply Hmal; reflexivity |].
  split.
  - apply (Hthrow _ [Sample.direct] Sample.no_segments [Sample.two_stops]).
    + reflexivity.
    + intros o [<- | []]. eexists. vm_compute. reflexivity.
    + apply Hmal. reflexivity.
  - destruct (Hok (Sample.batch [Sample.direct; Sample.two_stops]))
      as (flights & Hflights & Hall).
    + intros o [<- | [<- | []]]; eexists; vm_compute; reflexivity.
    + exists flights. split; [exact Hflights |].
      symmetry. exact (Forall2_length _ _ _ Hall).
Defined.

(** C1 as stated fails: the offer without segments makes
    [transformFlightOffer] throw a [TypeError], whose name is not
    [MalformedOfferError]; dropping and counting would leave two records and
    the count 1, and [transformFlightOffers] throws instead of returning
    them. *)
Lemma transformFlightOffers_drops_nothing_counterexample :
  let batch := [Sample.direct; Sample.no_segments; Sample.two_stops] in
  let dropped :=
    normalizeAll_spec Ref.parseISO Ref.format Ref.differenceInMinutes
      Ref.parseFloat None batch in
  (exists e,
     transformFlightOffer Ref.parseISO Ref.format Ref.differenceInMinutes
       Ref.parseFloat Sample.no_segments None = Throw e
     /\ error_name e <> "MalformedOfferError")
  /\ length dropped.1 = 2%nat
  /\ dropped.2 = 1%nat
  /\ transformFlightOffers Ref.parseISO Ref.format Ref.differenceInMinutes
       Ref.parseFloat (Sample.batch batch) = Throw TypeError
  /\ transformFlightOffers Ref.parseISO Ref.format Ref.differenceInMinutes
       Ref.parseFloat (Sample.batch batch) <> Ok dropped.1.
Proof.
  cbv zeta. split; [exists TypeError; split; [by vm_compute | discriminate] |].
  split; [by vm_compute |]. split; [by vm_compute |].
  assert (Hthrow :
    transformFlightOffers Ref.parseISO Ref.format Ref.differenceInMinutes
      Ref.parseFloat
      (Sample.batch [Sample.direct; Sample.no_segments; Sample.two_stops])
    = Throw TypeError) by (by vm_compute).
  split; [exact Hthrow |]. rewrite Hthrow. discriminate.
Qed.

(** C2, on three flights priced 199.5, 250 and 900.1. *)
Lemma setFlights_bounds_witness :
  FlightState.absolutePriceRange
    (setFlights Ref.localeCompare [Sample.dear; Sample.cheap; Sample.mid]
       initialState)
  = {| PriceRange.min := 199; PriceRange.max := 901 |}
  /\ FlightState.filters
       (setFlights Ref.localeCompare [Sample.dear; Sample.cheap; Sample.mid]
          initialState)
     = {| FlightFilters.priceRange :=
            {| PriceRange.min := 199; PriceRange.max := 901 |};
          FlightFilters.stops := [];
          FlightFilters.airlines := [];
          FlightFilters.sortBy := by_price |}
  /\ FlightState.absolutePriceRange (setFlights Ref.localeCompare [] initialState)
     = {| PriceRange.min := 0; PriceRange.max := 1000 |}.
Proof.
  destruct (setFlights_bounds Ref.localeCompare
              [Sample.dear; Sample.cheap; Sample.mid] initialState)
    as (_ & Hfilters & _ & _ & Hempty & _).
  split; [reflexivity |]. split; [| exact Hempty].
  rewrite Hfilters. reflexivity.
Defined.

(** C3, on the bucket 2 and a flight with three stops. *)
Lemma filterFlights_spec_witness :
  In Sample.dear
    (filterFlights [Sample.cheap; Sample.mid; Sample.dear]
       {| FlightFilters.priceRange :=
            {| PriceRange.min := 0; PriceRange.max := 10000 |};
          FlightFilters.stops := [2];
          FlightFilters.airlines := [];
          FlightFilters.sortBy := by_price |}).
Proof.
  apply filterFlights_spec. split; [right; right; left; reflexivity |].
  split; [discriminate |]. split; [discriminate |]. split.
  - right. exists 2. split; [left; reflexivity |]. left. split; [reflexivity |].
    simpl. lia.
  - left. reflexivity.
Defined.

(** C5, on the itinerary JFK - ORD - DEN - LAX. *)
Lemma transformFlightOffer_three_segments_witness :
  calculateStops [Sample.jfk_ord; Sample.ord_den; Sample.den_lax] = 2
  /\ getLayovers Ref.parseISO Ref.differenceInMinutes
       [Sample.jfk_ord; Sample.ord_den; Sample.den_lax]
     = ["ORD (1h 30m)"; "DEN (45m)"]
  /\ exists flight,
       transformFlightOffer Ref.parseISO Ref.format Ref.differenceInMinutes
         Ref.parseFloat Sample.two_stops None = Ok flight
       /\ FlightCardData.stops flight = 2
       /\ FlightCardData.layovers flight = ["ORD (1h 30m)"; "DEN (45m)"].
Proof.
  apply (transformFlightOffer_three_segments Ref.parseISO Ref.format
           Ref.differenceInMinutes Ref.parseFloat Sample.two_stops None
           {| FlightItinerary.segments :=
                [Sample.jfk_ord; Sample.ord_den; Sample.den_lax];
              FlightItinerary.duration := "PT7H" |}
           [] Sample.jfk_ord Sample.ord_den Sample.den_lax "08:00" "15:00");
    reflexivity.
Defined.

(** C5 as stated fails: with connections of 90 and 45 minutes the second
    layover reads [DEN (45m)] and not [DEN (0h 45m)]. *)
Lemma getLayovers_short_layover_counterexample :
  Ref.differenceInMinutes
    (Ref.parseISO (Endpoint.at_ (FlightSegment.departure Sample.ord_den)))
    (Ref.parseISO (Endpoint.at_ (FlightSegment.arrival Sample.jfk_ord)))
  = Some 90
  /\ Ref.differenceInMinutes
       (Ref.parseISO (Endpoint.at_ (FlightSegment.departure Sample.den_lax)))
       (Ref.parseISO (Endpoint.at_ (FlightSegment.arrival Sample.ord_den)))
     = Some 45
  /\ getLayovers Ref.parseISO Ref.differenceInMinutes
       [Sample.jfk_ord; Sample.ord_den; Sample.den_lax]
     = ["ORD (1h 30m)"; "DEN (45m)"]
  /\ getLayovers Ref.parseISO Ref.differenceInMinutes
       [Sample.jfk_ord; Sample.ord_den; Sample.den_lax]
     <> ["ORD (1h 30m)"; "DEN (0h 45m)"].
Proof.
  split; [reflexivity |]. split; [reflexivity |]. split; [reflexivity |].
  vm_compute. discriminate.
Qed.

(** C6, on a departure 30 minutes before the arrival. *)
Lemma layoverLabel_nonpositive_gap_witness :
  layoverLabel Ref.parseISO Ref.differenceInMinutes
    Sample.ord_den Sample.den_lax_early = "DEN (-30m)"
  /\ -60 < Z.rem (-30) 60 <= 0
  /\ layoverLabel Ref.parseISO Ref.differenceInMinutes
       Sample.ord_den Sample.den_lax_tight = "DEN (0m)".
Proof.
  destruct (layoverLabel_nonpositive_gap Ref.parseISO Ref.differenceInMinutes
              Sample.ord_den Sample.den_lax_early (-30))
    as (Hlabel & Hrem & _); [reflexivity | lia |].
  destruct (layoverLabel_nonpositive_gap Ref.parseISO Ref.differenceInMinutes
              Sample.ord_den Sample.den_lax_tight 0)
    as (_ & _ & _ & Hzero & _); [reflexivity | lia |].
  split; [rewrite Hlabel; reflexivity |].
  split; [exact Hrem | apply Hzero; reflexivity].
Defined.

(** C6 as stated fails: a gap of -30 minutes is rendered as [-30m], not
    clamped to [0m]. *)
Lemma layoverLabel_negative_counterexample :
  Ref.differenceInMinutes
    (Ref.parseISO (Endpoint.at_ (FlightSegment.departure Sample.den_lax_early)))
    (Ref.parseISO (Endpoint.at_ (FlightSegment.arrival Sample.ord_den)))
  = Some (-30)
  /\ getLayovers Ref.parseISO Ref.differenceInMinutes
       [Sample.ord_den; Sample.den_lax_early] = ["DEN (-30m)"]
  /\ getLayovers Ref.parseISO Ref.differenceInMinutes
       [Sample.ord_den; Sample.den_lax_early] <> ["DEN (0m)"].
Proof.
  split; [reflexivity |]. split; [reflexivity |]. vm_compute. discriminate.
Qed.

(** C8 as stated fails: the bounds of the initial state, and of a cleared
    store, have the maximum 10000 and not 1000. *)
Lemma empty_state_bounds_counterexample :
  FlightState.absolutePriceRange initialState
    <> {| PriceRange.min := 0; PriceRange.max := 1000 |}
  /\ ~ (PriceRange.max (FlightState.absolutePriceRange initialState) == 1000)%Q
  /\ ~ (PriceRange.max
          (FlightState.absolutePriceRange
             (clearSearch
                (setFlights Ref.localeCompare [Sample.cheap] initialState)))
        == 1000)%Q.
Proof.
  split; [discriminate |]. split; intros H; by vm_compute in H.
Qed.

(** C8, on a store that is set to loading, cleared of its error, filtered
    by stops and by price, reset and cleared before any search result
    arrives. *)
Lemma empty_state_bounds_witness :
  let actions :=
    [ ActSetLoading true; ActSetError None;
      ActUpdateFilters (onlyStops [0]);
      ActUpdateFilters
        (onlyPriceRange {| PriceRange.min := 100; PriceRange.max := 500 |});
      ActResetFilters; ActClearSearch; ActSetLoading true ] in
  let before := dispatchAll Ref.localeCompare actions initialState in
  FlightState.absolutePriceRange before
  = {| PriceRange.min := 0; PriceRange.max := 10000 |}
  /\ FlightState.filteredFlights before = []
  /\ FlightState.isLoading before = true.
Proof.
  destruct (empty_state_bounds Ref.localeCompare
              [ ActSetLoading true; ActSetError None;
                ActUpdateFilters (onlyStops [0]);
                ActUpdateFilters
                  (onlyPriceRange
                     {| PriceRange.min := 100; PriceRange.max := 500 |});
                ActResetFilters; ActClearSearch; ActSetLoading true ]
              initialState eq_refl) as (Hbounds & Hview & _).
  split; [exact Hbounds |]. split; [exact Hview | reflexivity].
Defined.

(** C9, on the dictionary [{"AA": "American Air"}] and on codes without a
    dictionary entry. *)
Lemma getAirlineName_precedence_witness :
  getAirlineName "AA" (Some {[ "AA" := "American Air" ]}) = "American Air"
  /\ getAirlineName "KL" (Some {[ "AA" := "American Air" ]}) = "KLM"
  /\ getAirlineName "ZZ" (Some {[ "AA" := "American Air" ]}) = "ZZ".
Proof.
  split; [| split].
  - destruct (getAirlineName_precedence "AA" (Some {[ "AA" := "American Air" ]}))
      as (Hdict & _).
    apply Hdict; [reflexivity | discriminate].
  - destruct (getAirlineName_precedence "KL" (Some {[ "AA" := "American Air" ]}))
      as (_ & Hstatic & _).
    apply Hstatic; reflexivity.
  - destruct (getAirlineName_precedence "ZZ" (Some {[ "AA" := "American Air" ]}))
      as (_ & _ & Hcode & _).
    apply Hcode; reflexivity.
Defined.

(** C9 as stated fails: a dictionary entry that is the empty string is not
    the resolved name; the static table is used. *)
Lemma getAirlineName_empty_entry_counterexample :
  dictEntry "AA" (Some {[ "AA" := "" ]}) = Some ""
  /\ getAirlineName "AA" (Some {[ "AA" := "" ]}) = "American Airlines"
  /\ getAirlineName "AA" (Some {[ "AA" := "" ]}) <> "".
Proof.
  split; [reflexivity |]. split; [reflexivity |]. vm_compute. discriminate.
Qed.

(** C10, on a heap with one array of three flights. *)
Lemma sortFlights_leaves_input_witness :
  let h : gmap positive (list FlightCardData.t) :=
    {[ 1%positive := [Sample.dear; Sample.mid; Sample.cheap] ]} in
  let r := sortFlights_ref Ref.localeCompare 1%positive by_price h in
  r.1 <> 1%positive
  /\ r.2 !! 1%positive = Some [Sample.dear; Sample.mid; Sample.cheap]
  /\ r.2 !! r.1 = Some [Sample.cheap; Sample.mid; Sample.dear].
Proof.
  intros h r.
  destruct (sortFlights_leaves_input Ref.localeCompare h 1%positive by_price
              [Sample.dear; Sample.mid; Sample.cheap])
    as (_ & Hne & Hsorted & _ & Hinput & _).
  - reflexivity.
  - split; [exact Hne |]. split; [exact Hinput |].
    fold r in Hsorted. rewrite Hsorted. reflexivity.
Defined.

(** * The further properties on concrete flights, queries and replies *)

Lemma Ref_localeCompare_le (a b : string) :
  Ref.localeCompare a b <= 0 <-> String.le a b.
Proof.
  unfold Ref.localeCompare, String.le, String.leb.
  destruct (String.compare a b); simpl; split; done || lia.
Qed.

Lemma Ref_localeCompare_total (a b : string) :
  Ref.localeCompare a b <= 0 \/ Ref.localeCompare b a <= 0.
Proof. rewrite !Ref_localeCompare_le. apply total, _. Qed.

Lemma Ref_localeCompare_trans (a b c : string) :
  Ref.localeCompare a b <= 0 -> Ref.localeCompare b c <= 0 ->
  Ref.localeCompare a c <= 0.
Proof. rewrite !Ref_localeCompare_le. apply transitivity. Qed.

(** X3, on three flights that leave at 19:40, 06:15 and 12:00. *)
Lemma sortFlights_by_time_sorted_witness :
  let flights := [Demo.evening; Demo.morning; Demo.noon] in
  sortFlights Ref.localeCompare flights by_departure
  = [Demo.morning; Demo.noon; Demo.evening]
  /\ StronglySorted
       (fun a b => Ref.localeCompare (FlightCardData.departureTime a)
                     (FlightCardData.departureTime b) <= 0)
       (sortFlights Ref.localeCompare flights by_departure)
  /\ StronglySorted
       (fun a b => Ref.localeCompare (FlightCardData.arrivalTime a)
                     (FlightCardData.arrivalTime b) <= 0)
       (sortFlights Ref.localeCompare flights by_arrival).
Proof.
  split; [reflexivity |].
  apply (sortFlights_by_time_sorted Ref.localeCompare
           [Demo.evening; Demo.morning; Demo.noon]
           Ref_localeCompare_total Ref_localeCompare_trans).
Defined.

(** X5, on three flights priced 900.1, 199.5 and 250. *)
Lemma extractPriceRange_encloses_witness :
  extractPriceRange [Sample.dear; Sample.cheap; Sample.mid]
  = {| PriceRange.min := 199; PriceRange.max := 901 |}
  /\ forall f, In f [Sample.dear; Sample.cheap; Sample.mid] ->
       (199 <= FlightCardData.price f)%Q /\ (FlightCardData.price f <= 901)%Q.
Proof.
  split; [reflexivity |].
  destruct (extractPriceRange_encloses [Sample.dear; Sample.cheap; Sample.mid])
    as (Hall & _); [discriminate |].
  exact Hall.
Defined.

(** X9, on the ranges 0 to 1000 and 200 to 500. *)
Lemma updateFilters_narrowing_witness :
  let state :=
    setFlights Ref.localeCompare [Sample.dear; Sample.cheap; Sample.mid]
      initialState in
  let wide := {| PriceRange.min := 0; PriceRange.max := 1000 |} in
  let narrow := {| PriceRange.min := 200; PriceRange.max := 500 |} in
  let before := updateFilters Ref.localeCompare (onlyPriceRange wide) state in
  let after := updateFilters Ref.localeCompare (onlyPriceRange narrow) before in
  (forall f, In f (FlightState.filteredFlights after) ->
             In f (FlightState.filteredFlights before))
  /\ (length (FlightState.filteredFlights after)
      <= length (FlightState.filteredFlights before))%nat.
Proof.
  apply (updateFilters_narrowing Ref.localeCompare
           (setFlights Ref.localeCompare
              [Sample.dear; Sample.cheap; Sample.mid] initialState)
           {| PriceRange.min := 0; PriceRange.max := 1000 |}
           {| PriceRange.min := 200; PriceRange.max := 500 |}).
  - vm_compute. discriminate.
  - vm_compute. discriminate.
Defined.

(** X11, on the stop buckets 0, 1 and 2 and the bucket 1. *)
Lemma toggle_spec_witness :
  List.NoDup (toggle Z.eqb 1 [0; 1; 2])
  /\ (In 1 (toggle Z.eqb 1 [0; 1; 2]) <-> ~ In 1 [0; 1; 2])
  /\ (forall y, y <> 1 -> In y (toggle Z.eqb 1 [0; 1; 2]) <-> In y [0; 1; 2])
  /\ toggle Z.eqb 1 (toggle Z.eqb 1 [0; 1; 2]) ≡ₚ [0; 1; 2]
  /\ (~ In 1 [0; 1; 2] ->
      toggle Z.eqb 1 (toggle Z.eqb 1 [0; 1; 2]) = [0; 1; 2]).
Proof.
  apply (toggle_spec Z.eqb Z.eqb_eq 1 [0; 1; 2]).
  repeat constructor; simpl; lia.
Defined.

(** X12, on the store after a search, with no bucket and no airline
    selected. *)
Lemma handlers_toggle_twice_witness :
  let state :=
    setFlights Ref.localeCompare [Sample.dear; Sample.cheap; Sample.mid]
      initialState in
  FlightState.filteredFlights
    (handleStopsChange Ref.localeCompare 1
       (handleStopsChange Ref.localeCompare 1 state))
  = applyFiltersAndSort Ref.localeCompare (FlightState.allFlights state)
      (FlightState.filters state)
  /\ FlightState.filteredFlights
       (handleAirlineChange Ref.localeCompare "KLM"
          (handleAirlineChange Ref.localeCompare "KLM" state))
     = applyFiltersAndSort Ref.localeCompare (FlightState.allFlights state)
         (FlightState.filters state).
Proof.
  destruct (handlers_toggle_twice Ref.localeCompare
              (setFlights Ref.localeCompare
                 [Sample.dear; Sample.cheap; Sample.mid] initialState))
    as (Hstops & Hairlines).
  split.
  - apply (Hstops 1). constructor.
  - apply (Hairlines "KLM"). constructor.
Defined.

(** X14, on the offer JFK - ORD - DEN - LAX. *)
Lemma transformFlightOffer_record_witness :
  exists flight,
    transformFlightOffer Ref.parseISO Ref.format Ref.differenceInMinutes
      Ref.parseFloat Sample.two_stops None = Ok flight
    /\ FlightCardData.stops flight = 2
    /\ length (FlightCardData.layovers flight) = 2%nat
    /\ length (FlightCardData.segments flight) = 3%nat
    /\ FlightCardData.departureAirport flight = "JFK"
    /\ FlightCardData.arrivalAirport flight = "LAX"
    /\ FlightCardData.duration flight = "7h"
    /\ FlightCardData.airline flight = "American Airlines".
Proof.
  assert (Hok : exists flight,
             transformFlightOffer Ref.parseISO Ref.format
               Ref.differenceInMinutes Ref.parseFloat Sample.two_stops None
             = Ok flight).
  { eexists. vm_compute. reflexivity. }
  destruct Hok as (flight & Hok). exists flight. split; [exact Hok |].
  destruct (transformFlightOffer_record Ref.parseISO Ref.format
              Ref.differenceInMinutes Ref.parseFloat Sample.two_stops None
              flight Hok)
    as (itinerary & first & last & Hit & Hfirst & Hlast & _ & Hstops & Hlay
        & Hsegs & Hdep & Harr & Hdur & Hair & _).
  injection Hit as <-. injection Hfirst as <-. injection Hlast as <-.
  split; [exact Hstops |].
  split; [rewrite Hstops in Hlay; simpl in Hlay; lia |].
  split; [exact Hsegs |]. split; [exact Hdep |]. split; [exact Harr |].
  split; [exact Hdur | exact Hair].
Defined.

(** X15, on the offer JFK - ORD - DEN - LAX and on an offer whose first
    segment departs at no date. *)
Lemma transformFlightOffer_times_witness :
  (exists flight,
     transformFlightOffer Ref.parseISO Ref.format Ref.differenceInMinutes
       Ref.parseFloat Sample.two_stops None = Ok flight
     /\ FlightCardData.departureTime flight = "08:00"
     /\ FlightCardData.arrivalTime flight = "15:00")
  /\ transformFlightOffer Ref.parseISO Ref.format Ref.differenceInMinutes
       Ref.parseFloat Demo.bad_departure None = Throw RangeError.
Proof.
  split.
  - exact (transformFlightOffer_times Ref.parseISO Ref.format
             Ref.differenceInMinutes Ref.parseFloat Sample.two_stops None
             Demo.three_segments [] Sample.jfk_ord Sample.den_lax
             [Sample.ord_den; Sample.den_lax] eq_refl eq_refl eq_refl).
  - exact (transformFlightOffer_times Ref.parseISO Ref.format
             Ref.differenceInMinutes Ref.parseFloat Demo.bad_departure None
             _ [] _ _ [] eq_refl eq_refl eq_refl).
Defined.

(** X16, on a batch of two well-formed offers. *)
Lemma transformFlightOffers_records_witness :
  exists flights,
    transformFlightOffers Ref.parseISO Ref.format Ref.differenceInMinutes
      Ref.parseFloat (Sample.batch [Sample.direct; Sample.two_stops])
    = Ok flights
    /\ length flights = 2%nat
    /\ map FlightCardData.id flights = ["2"; "1"].
Proof.
  assert (Hok : exists flights,
             transformFlightOffers Ref.parseISO Ref.format
               Ref.differenceInMinutes Ref.parseFloat
               (Sample.batch [Sample.direct; Sample.two_stops])
             = Ok flights).
  { eexists. vm_compute. reflexivity. }
  destruct Hok as (flights & Hok). exists flights. split; [exact Hok |].
  destruct (transformFlightOffers_records Ref.parseISO Ref.format
              Ref.differenceInMinutes Ref.parseFloat _ flights Hok)
    as (Hlen & Hids & _).
  split; [exact Hlen | exact Hids].
Defined.

(** X17, on connections of 90 and of 45 minutes. *)
Lemma layoverLabel_gap_witness :
  layoverLabel Ref.parseISO Ref.differenceInMinutes
    Sample.jfk_ord Sample.ord_den = "ORD (1h 30m)"
  /\ layoverLabel Ref.parseISO Ref.differenceInMinutes
       Sample.ord_den Sample.den_lax = "DEN (45m)".
Proof.
  split.
  - destruct (layoverLabel_gap Ref.parseISO Ref.differenceInMinutes
                Sample.jfk_ord Sample.ord_den
              : (60 <= 90 -> _) /\ (0 <= 90 < 60 -> _)) as (Hlong & _).
    destruct Hlong as (Hlabel & _); [lia |]. exact Hlabel.
  - destruct (layoverLabel_gap Ref.parseISO Ref.differenceInMinutes
                Sample.ord_den Sample.den_lax
              : (60 <= 45 -> _) /\ (0 <= 45 < 60 -> _)) as (_ & Hshort).
    apply Hshort. lia.
Defined.

(** X18, on two hours and thirty minutes. *)
Lemma parseDuration_shapes_witness :
  parseDuration "PT2H30M" = "2h 30m"
  /\ parseDuration "PT2H" = "2h"
  /\ parseDuration "PT30M" = "30m"
  /\ parseDuration "2h 30m" = "2h 30m".
Proof.
  destruct (parseDuration_shapes 2 30 "2h 30m")
    as (Hboth & Hhours & Hminutes & Hother); [reflexivity | reflexivity |].
  split; [exact Hboth |]. split; [exact Hhours |].
  split; [apply Hminutes; lia | apply Hother; reflexivity].
Defined.

(** X19, on two hours and thirty minutes, and on thirty minutes. *)
Lemma duration_render_parse_witness :
  parseDurationToMinutes (parseDuration "PT2H30M") = 150%N
  /\ parseDurationToMinutes (parseDuration "PT0H30M") = 0%N.
Proof.
  split.
  - exact (duration_render_parse 2 30 eq_refl).
  - exact (duration_render_parse 0 30 eq_refl).
Defined.

(** X20, on a token granted for 1800 seconds at the time 1000. *)
Lemma getAccessToken_lifetime_witness :
  let granted :=
    getAccessToken 1000 (AuthGranted "token" 1800) Demo.empty_cache in
  granted.1 = Returns "token"
  /\ getAccessToken 1700000 AuthRejected granted.2
     = (Returns "token", granted.2)
  /\ getAccessToken 1741000 AuthRejected granted.2
     = (Raises "Authentication failed. Please check your API credentials.",
        granted.2).
Proof.
  destruct (getAccessToken_lifetime 1000 1700000 "token" 1800
              Demo.empty_cache AuthRejected eq_refl) as (Htoken & Hcached & _).
  destruct (getAccessToken_lifetime 1000 1741000 "token" 1800
              Demo.empty_cache AuthRejected eq_refl) as (_ & _ & Hexpired).
  split; [exact Htoken |]. split.
  - apply Hcached; [discriminate | discriminate | reflexivity].
  - apply Hexpired. discriminate.
Defined.

(** X21, on a rejected token request and on a search answered with 401. *)
Lemma searchFlights_errors_witness :
  searchFlights (routeParams Demo.query) 1000 AuthRejected Demo.refusing
    Demo.empty_cache
  = (Raises "Network error. Please check your connection.", Demo.empty_cache)
  /\ (let r := searchFlights (routeParams Demo.query) 1000
                 (AuthGranted "token" 1800) Demo.refusing Demo.empty_cache in
      r.1 = Raises "Authentication expired. Please try again."
      /\ tokenValid 1001 r.2 = false)
  /\ searchFlights (routeParams Demo.query) 1000 (AuthGranted "token" 1800)
       (Demo.provider [Sample.direct]) Demo.empty_cache
     = (Returns (Sample.batch [Sample.direct]),
        {| TokenCache.cachedToken := Some "token";
           TokenCache.tokenExpiryTime := Some 1741000 |}).
Proof.
  destruct (searchFlights_errors (routeParams Demo.query) 1000 Demo.refusing
              Demo.empty_cache) as (Hauth & Hexpired & _).
  destruct (searchFlights_errors (routeParams Demo.query) 1000
              (Demo.provider [Sample.direct]) Demo.empty_cache)
    as (_ & _ & Hdata).
  split; [apply Hauth; reflexivity |]. split.
  - destruct (Hexpired (AuthGranted "token" 1800) "token"
                {| TokenCache.cachedToken := Some "token";
                   TokenCache.tokenExpiryTime := Some 1741000 |}
                None eq_refl eq_refl) as (Hmessage & Hcache).
    split; [exact Hmessage | apply Hcache].
  - apply (Hdata (AuthGranted "token" 1800) "token"); reflexivity.
Defined.

(** X22, on a search from JFK to JFK. *)
Lemma GET_validation_witness :
  let r := GET Ref.parseISO Ref.format Ref.differenceInMinutes Ref.parseFloat
             Demo.same_airport_query 1000 AuthRejected Demo.refusing
             Demo.empty_cache in
  HttpResponse.status r.1 = 400
  /\ r.2 = Demo.empty_cache
  /\ GET Ref.parseISO Ref.format Ref.differenceInMinutes Ref.parseFloat
       Demo.same_airport_query 2000 (AuthGranted "token" 1800)
       (Demo.provider [Sample.direct]) Demo.empty_cache = r.
Proof.
  destruct (GET_validation Ref.parseISO Ref.format Ref.differenceInMinutes
              Ref.parseFloat Demo.same_airport_query 1000 AuthRejected
              Demo.refusing Demo.empty_cache) as (_ & Hiff & Hsame).
  assert (Hstatus :
    HttpResponse.status
      (GET Ref.parseISO Ref.format Ref.differenceInMinutes Ref.parseFloat
         Demo.same_airport_query 1000 AuthRejected Demo.refusing
         Demo.empty_cache).1 = 400).
  { apply Hiff. right. right. right. reflexivity. }
  destruct (Hsame Hstatus) as (Hcache & Hany).
  split; [exact Hstatus |]. split; [exact Hcache | apply Hany].
Defined.

(** X23, on a valid query and providers that answer with a batch that
    holds an offer without segments, and with a well-formed batch. *)
Lemma GET_outcomes_witness :
  (exists e,
     (GET Ref.parseISO Ref.format Ref.differenceInMinutes Ref.parseFloat
        Demo.query 1000 (AuthGranted "token" 1800)
        (Demo.provider [Sample.direct; Sample.no_segments])
        Demo.empty_cache).1
     = {| HttpResponse.status := 500;
          HttpResponse.body := BodyFailure (RuntimeMessage e) |})
  /\ (GET Ref.parseISO Ref.format Ref.differenceInMinutes Ref.parseFloat
        Demo.query 1000 AuthRejected (Demo.provider [Sample.direct])
        Demo.empty_cache).1
     = {| HttpResponse.status := 500;
          HttpResponse.body :=
            BodyFailure
              (Text "Network error. Please check your connection.") |}.
Proof.
  split.
  - destruct (GET_outcomes Ref.parseISO Ref.format Ref.differenceInMinutes
                Ref.parseFloat Demo.query 1000 (AuthGranted "token" 1800)
                (Demo.provider [Sample.direct; Sample.no_segments])
                Demo.empty_cache eq_refl) as (_ & _ & Hmalformed & _).
    apply (Hmalformed (Sample.batch [Sample.direct; Sample.no_segments])
             Sample.no_segments).
    + reflexivity.
    + right. left. reflexivity.
    + reflexivity.
  - destruct (GET_outcomes Ref.parseISO Ref.format Ref.differenceInMinutes
                Ref.parseFloat Demo.query 1000 AuthRejected
                (Demo.provider [Sample.direct]) Demo.empty_cache eq_refl)
      as (_ & Hraises & _).
    apply Hraises. reflexivity.
Defined.
(** X26, on a query with [adults=two] and [children=0]. *)
Lemma GET_forwards_witness :
  let query := [ ("origin", "JFK"); ("destination", "LAX");
                 ("departureDate", "2024-03-01"); ("adults", "two");
                 ("children", "0") ] in
  let sent := buildQuery (routeParams query) in
  params_get "adults" sent = Some "NaN"
  /\ params_get "children" sent = None
  /\ params_get "adults" (buildQuery (routeParams Demo.same_airport_query))
     = Some "1".
Proof.
  destruct (GET_forwards [ ("origin", "JFK"); ("destination", "LAX");
                           ("departureDate", "2024-03-01"); ("adults", "two");
                           ("children", "0") ])
    as (_ & _ & _ & _ & Htext & Hzero).
  destruct (GET_forwards Demo.same_airport_query) as (_ & _ & _ & Hnone & _).
  split; [exact (Htext "two" eq_refl eq_refl) |].
  split; [exact (Hzero eq_refl) | exact (Hnone eq_refl)].
Defined.

(** X27, on the chart data of three flights that leave at 08:00 for 900.1,
    199.5 and 250: the line has one point, at the lowest price, and the
    highest price is not on the line. *)
Lemma PriceTrendChart_summary_witness :
  exists view,
    PriceTrendChart Ref.localeCompare
      (generatePriceChartData [Sample.dear; Sample.cheap; Sample.mid])
    = Some view
    /\ map PriceDataPoint.price (ChartSummary.line view) = [1995 # 10]%Q
    /\ ChartSummary.lowestPrice view = (1995 # 10)%Q
    /\ ChartSummary.highestPrice view = (9001 # 10)%Q
    /\ ChartSummary.totalFlights view = 3%nat
    /\ (length (ChartSummary.line view)
        <= ChartSummary.totalFlights view)%nat.
Proof.
  eexists. split; [reflexivity |].
  split; [reflexivity |]. split; [reflexivity |]. split; [reflexivity |].
  destruct (PriceTrendChart_summary Ref.localeCompare
              (generatePriceChartData [Sample.dear; Sample.cheap; Sample.mid]))
    as (_ & Hview).
  destruct (Hview _ eq_refl) as (_ & _ & _ & Htotal & Hline).
  split; [exact Htotal | exact Hline].
Defined.

(** X28, on a one-way search from JFK to LAX. *)
Lemma searchSchema_route_accepts_witness :
  validateParams (routeParams (onSubmit false Demo.form)) = None
  /\ HttpResponse.status
       (GET Ref.parseISO Ref.format Ref.differenceInMinutes Ref.parseFloat
          (onSubmit false Demo.form) 1000 AuthRejected Demo.refusing
          Demo.empty_cache).1
     <> 400.
Proof.
  apply (searchSchema_route_accepts Ref.parseISO Ref.format
           Ref.differenceInMinutes Ref.parseFloat Ref.parseISO false
           Demo.form 1000 AuthRejected Demo.refusing Demo.empty_cache).
  reflexivity.
Defined.

(** X29, on the store after a search, sorted anew by duration. *)
Lemma handleSortChange_same_flights_witness :
  let state :=
    setFlights Ref.localeCompare [Sample.dear; Sample.cheap; Sample.mid]
      initialState in
  let state' := handleSortChange Ref.localeCompare by_duration state in
  FlightState.filteredFlights state = [Sample.cheap; Sample.mid; Sample.dear]
  /\ FlightState.filteredFlights state'
     ≡ₚ FlightState.filteredFlights state
  /\ FlightFilters.sortBy (FlightState.filters state') = by_duration.
Proof.
  split; [reflexivity |].
  destruct (handleSortChange_same_flights Ref.localeCompare by_duration
              (setFlights Ref.localeCompare
                 [Sample.dear; Sample.cheap; Sample.mid] initialState)
              eq_refl) as (Hperm & _ & Hsort & _).
  split; [exact Hperm | exact Hsort].
Defined.

(** X30, on the minimum slider moved to 950 while the maximum is at 901. *)
Lemma handlePriceChange_view_witness :
  let state :=
    setFlights Ref.localeCompare [Sample.dear; Sample.cheap; Sample.mid]
      initialState in
  let r := handlePriceChange Ref.localeCompare true 950
             (FlightState.absolutePriceRange state) state in
  r.1 = {| PriceRange.min := 950; PriceRange.max := 901 |}
  /\ FlightState.filteredFlights r.2 = []
  /\ FlightState.chartData r.2 = [].
Proof.
  destruct (handlePriceChange_view Ref.localeCompare true 950
              (FlightState.absolutePriceRange
                 (setFlights Ref.localeCompare
                    [Sample.dear; Sample.cheap; Sample.mid] initialState))
              (setFlights Ref.localeCompare
                 [Sample.dear; Sample.cheap; Sample.mid] initialState))
    as (Hrange & _ & _ & Hcross).
  split; [exact Hrange |].
  apply Hcross. reflexivity.
Defined.
